(** * Telemetry pipeline test scripts: a shallow embedding

    The four Python scripts of the repository are embedded as Rocq functions:

    - [generate_test_logs.py]      -> [Module Generator]
    - [verify_opensearch_logs.py]  -> [Module Verifier]
    - [test-error-handling.py]     -> [Module ErrorTester]
    - [test_integration.py]        -> [Module Integration]

    Python [str] is [string] (a sequence of bytes), [int] is [Z], a [dict]
    whose iteration order is observable is an insertion-ordered association
    list, and a [dict] that is only ever looked up is a [gmap].  Randomness,
    the clock and the HTTP peers are explicit inputs; exceptions are an
    explicit outcome.  Console output and [time.sleep] have no effect on any
    returned value and are left out. *)

From Stdlib Require Import ZArith Ascii String List Lia.
From stdpp Require Import base numbers list strings gmap pretty sorting.

Local Open Scope Z_scope.

(** ** Python exceptions that the scripts can raise *)

Inductive Exn : Type :=
| KeyError (key : string)
| ValueError
| IndexError
| AttributeError
| TypeError.

(** A computation that either yields a value or raises. *)
Inductive Result (A : Type) : Type :=
| Ok (a : A)
| Raise (e : Exn).
Arguments Ok {A} a.
Arguments Raise {A} e.

Global Instance Result_ret : MRet Result := λ A a, Ok a.

Global Instance Result_bind : MBind Result := λ A B k r,
  match r with
  | Ok a => k a
  | Raise e => Raise e
  end.

(** ** Python string operations used by the scripts *)

Module Str.

(** [s.startswith(p)] *)
Fixpoint startswith (p s : string) : bool :=
  match p, s with
  | EmptyString, _ => true
  | String _ _, EmptyString => false
  | String a p', String b s' => Ascii.eqb a b && startswith p' s'
  end.

(** [p in s] *)
Fixpoint contains (p s : string) : bool :=
  startswith p s ||
  match s with
  | EmptyString => false
  | String _ s' => contains p s'
  end.

(** [s.split(sep)] for a one-character separator: never empty, and
    consecutive separators give empty fields. *)
Fixpoint split (sep : ascii) (s : string) : list string :=
  match s with
  | EmptyString => [EmptyString]
  | String c s' =>
      if Ascii.eqb c sep then EmptyString :: split sep s'
      else match split sep s' with
           | [] => [String c EmptyString]
           | w :: ws => String c w :: ws
           end
  end.

(** [c.lower()] on a byte: only the letters A to Z change. *)
Definition lower_char (c : ascii) : ascii :=
  let n := nat_of_ascii c in
  if (Nat.leb 65 n && Nat.leb n 90)%bool then ascii_of_nat (n + 32) else c.

(** [s.lower()] *)
Fixpoint lower (s : string) : string :=
  match s with
  | EmptyString => EmptyString
  | String c s' => String (lower_char c) (lower s')
  end.

(** [s[:n]] *)
Fixpoint take (n : nat) (s : string) : string :=
  match n, s with
  | O, _ => EmptyString
  | S _, EmptyString => EmptyString
  | S n', String c s' => String c (take n' s')
  end.

Definition is_digit (c : ascii) : bool :=
  let n := nat_of_ascii c in (Nat.leb 48 n && Nat.leb n 57)%bool.

Fixpoint all_chars (p : ascii → bool) (s : string) : bool :=
  match s with
  | EmptyString => true
  | String c s' => p c && all_chars p s'
  end.

(** [s.count(sub)] for a non-empty [sub]: occurrences that do not overlap,
    from the left; [skip] characters of the last occurrence are still to be
    passed. *)
Fixpoint count_from (sub : string) (skip : nat) (s : string) : Z :=
  match s with
  | EmptyString => 0
  | String _ s' =>
      match skip with
      | S k => count_from sub k s'
      | O => if startswith sub s
             then 1 + count_from sub (String.length sub - 1) s'
             else count_from sub 0 s'
      end
  end.

Definition count (sub s : string) : Z := count_from sub 0 s.

(** One lowercase hexadecimal digit. *)
Definition hex_digit (d : Z) : ascii :=
  match d with
  | 0 => "0" | 1 => "1" | 2 => "2" | 3 => "3" | 4 => "4" | 5 => "5"
  | 6 => "6" | 7 => "7" | 8 => "8" | 9 => "9" | 10 => "a" | 11 => "b"
  | 12 => "c" | 13 => "d" | 14 => "e" | _ => "f"
  end%char.

(** ['%0<width>x' % v]: the low [width] hexadecimal digits of [v]. *)
Fixpoint hex (width : nat) (v : Z) : string :=
  match width with
  | O => EmptyString
  | S w => hex w (v / 16) +:+ String (hex_digit (v mod 16)) EmptyString
  end.

(** [s * n] *)
Fixpoint times (s : string) (n : nat) : string :=
  match n with
  | O => EmptyString
  | S n' => s +:+ times s n'
  end.

(** [f"{z:02d}"]: decimal, padded with a zero to two characters. *)
Definition format_02d (z : Z) : string :=
  let s := pretty z in
  if Nat.ltb (String.length s) 2 then "0" +:+ s else s.

End Str.

(** ** Insertion-ordered dictionaries with string keys *)

Section Dict.
Context {V : Type}.

(** [d.get(k)] *)
Fixpoint dict_get (d : list (string * V)) (k : string) : option V :=
  match d with
  | [] => None
  | (k', v) :: d' => if String.eqb k' k then Some v else dict_get d' k
  end.

(** [d[k] = v]: an existing key keeps its position, a new key goes last. *)
Fixpoint dict_set (k : string) (v : V) (d : list (string * V)) : list (string * V) :=
  match d with
  | [] => [(k, v)]
  | (k', v') :: d' =>
      if String.eqb k' k then (k', v) :: d' else (k', v') :: dict_set k v d'
  end.

(** The entries whose key satisfies [p], in order. *)
Fixpoint dict_restrict (p : string → bool) (d : list (string * V)) : list (string * V) :=
  match d with
  | [] => []
  | (k, v) :: d' => if p k then (k, v) :: dict_restrict p d' else dict_restrict p d'
  end.

End Dict.

(** ** The OTLP JSON payload (resourceLogs / scopeLogs / logRecords) *)

(** A typed value wrapper: [{"stringValue": s}] or [{"intValue": z}]. *)
Inductive AnyValue : Type :=
| StringValue (s : string)
| IntValue (z : Z).

Record KeyValue : Type := {
  key : string;
  value : AnyValue
}.

Record LogRecord : Type := {
  timeUnixNano : string;
  observedTimeUnixNano : string;
  severityNumber : Z;
  severityText : string;
  body : AnyValue;
  otlp_attributes : list KeyValue;
  traceId : string;
  spanId : string;
  flags : Z
}.

Record Scope : Type := {
  scope_name : string;
  scope_version : string
}.

Record ScopeLogs : Type := {
  scope : Scope;
  logRecords : list LogRecord
}.

Record Resource : Type := {
  resource_attributes : list KeyValue
}.

Record ResourceLogs : Type := {
  resource : Resource;
  scopeLogs : list ScopeLogs
}.

Record Payload : Type := {
  resourceLogs : list ResourceLogs
}.

(** ** generate_test_logs.py *)

Module Generator.

(** Attribute values of the templates: every value of the catalog is a
    [str]; [int] is kept since [str()] and [str.format] accept it as well. *)
Inductive Value : Type :=
| VStr (s : string)
| VInt (z : Z).

(** [str(value)] *)
Definition py_str (v : Value) : string :=
  match v with
  | VStr s => s
  | VInt z => pretty z
  end.

(** *** [str.format] with keyword arguments

    The format string is read left to right, as CPython's markup iterator
    does: literal text is copied, [{{] and [}}] stand for one brace, and a
    replacement field [{name}] is looked up among the keyword arguments.  The
    first error met is raised.  Fields with a conversion ([!r]), a format
    spec ([:>8]) or an attribute or index path ([a.b], [a[0]]) are outside
    what is modelled and are reported as [FormatBeyond]. *)

Inductive FormatOutcome : Type :=
| Formatted (s : string)
| FormatFails (e : Exn)
| FormatBeyond.

Inductive Scan : Type :=
| Text
| Open
| Close
| Field (name : string).

Inductive FieldStep : Type :=
| Grow (name : string)
| Done (name : string)
| Malformed
| Beyond.

Definition is_path_or_spec (c : ascii) : bool :=
  (Ascii.eqb c "!" || Ascii.eqb c ":" || Ascii.eqb c "." || Ascii.eqb c "[")%bool%char.

(** One more character of a replacement field. *)
Definition field_char (name : string) (c : ascii) : FieldStep :=
  if Ascii.eqb c "}"%char then Done name
  else if Ascii.eqb c "{"%char then Malformed
  else if is_path_or_spec c then Beyond
  else Grow (name +:+ String c EmptyString).

(** The value of the field [name]: an empty or numeric name is a positional
    argument, of which a call with keyword arguments only has none (an index
    too large for a machine integer raises [ValueError] instead, which
    propagates alike). *)
Definition get_value (kw : string → option Value) (name : string) : Result string :=
  if Str.all_chars Str.is_digit name then Raise IndexError
  else match kw name with
       | Some v => Ok (py_str v)
       | None => Raise (KeyError name)
       end.

Definition emit (s : string) (r : FormatOutcome) : FormatOutcome :=
  match r with
  | Formatted s' => Formatted (s +:+ s')
  | other => other
  end.

Fixpoint markup (kw : string → option Value) (st : Scan) (s : string) : FormatOutcome :=
  match s with
  | EmptyString =>
      match st with
      | Text => Formatted EmptyString
      | _ => FormatFails ValueError
      end
  | String c rest =>
      let in_field name :=
        match field_char name c with
        | Grow name' => markup kw (Field name') rest
        | Done name' =>
            match get_value kw name' with
            | Ok v => emit v (markup kw Text rest)
            | Raise e => FormatFails e
            end
        | Malformed => FormatFails ValueError
        | Beyond => FormatBeyond
        end in
      match st with
      | Text =>
          if Ascii.eqb c "{"%char then markup kw Open rest
          else if Ascii.eqb c "}"%char then markup kw Close rest
          else emit (String c EmptyString) (markup kw Text rest)
      | Close =>
          if Ascii.eqb c "}"%char then emit "}" (markup kw Text rest)
          else FormatFails ValueError
      | Open =>
          if Ascii.eqb c "{"%char then emit "{" (markup kw Text rest)
          else in_field EmptyString
      | Field name => in_field name
      end
  end.

(** [template.format] applied to the keyword arguments [kw] *)
Definition py_format (kw : string → option Value) (template : string) : FormatOutcome :=
  markup kw Text template.

(** *** The random source and the monad of the generator

    [entropy n] is the [n]-th number handed out by the random source; the
    state of a computation is the count of numbers consumed so far. *)

Inductive Outcome (A : Type) : Type :=
| Returns (a : A) (next : nat)
| Raises (e : Exn)
| Unmodelled.
Arguments Returns {A} a next.
Arguments Raises {A} e.
Arguments Unmodelled {A}.

Definition M (A : Type) : Type := nat → Outcome A.

Global Instance M_ret : MRet M := λ A a s, Returns a s.

Global Instance M_bind : MBind M := λ A B k m s,
  match m s with
  | Returns a s' => k a s'
  | Raises e => Raises e
  | Unmodelled => Unmodelled
  end.

(** The loop [for x in xs: out.append(body(x))]. *)
Fixpoint for_each {A B : Type} (body : A → M B) (xs : list A) : M (list B) :=
  match xs with
  | [] => mret []
  | x :: xs' => b ← body x; bs ← for_each body xs'; mret (b :: bs)
  end.

Section Random.
Variable entropy : nat → Z.

(** [random.randint(a, b)] *)
Definition randint (a b : Z) : M Z :=
  λ s, if b <? a then Raises ValueError
       else Returns (a + entropy s mod (b - a + 1)) (S s).

(** [random.choice(seq)] *)
Definition choice {A : Type} (seq : list A) : M A :=
  λ s, match seq !! Z.to_nat (entropy s mod Z.of_nat (length seq)) with
       | Some x => Returns x (S s)
       | None => Raises IndexError
       end.

(** The integer of a version-4 UUID: 128 random bits with the variant and
    version bits forced, as [uuid.UUID(bytes=..., version=4)] does. *)
Definition uuid4_int (bits : Z) : Z :=
  let v := bits mod 2 ^ 128 in
  let v := Z.ldiff v (Z.shiftl 0xc000 48) in
  let v := Z.lor v (Z.shiftl 0x8000 48) in
  let v := Z.ldiff v (Z.shiftl 0xf000 64) in
  Z.lor v (Z.shiftl 4 76).

(** [uuid.uuid4().hex] *)
Definition uuid4_hex : M string :=
  λ s, Returns (Str.hex 32 (uuid4_int (entropy s))) (S s).

(** *** Templates *)

(** An attribute of a template is a literal or a callable drawing from the
    random source. *)
Inductive AttrSpec : Type :=
| Literal (v : Value)
| Callable (f : M Value).

Record Template : Type := {
  severity : Z * string;
  message_template : string;
  attributes : list (string * AttrSpec)
}.

(** The dictionary [resolve_template_values] returns: a copy of the template
    whose [attributes] are replaced and to which [message] is added. *)
Record Resolved : Type := {
  resolved_severity : Z * string;
  resolved_message_template : string;
  message : string;
  resolved_attributes : list (string * Value)
}.

Definition str_randint (a b : Z) : M Value :=
  n ← randint a b; mret (VStr (pretty n)).

Definition str_choice (seq : list string) : M Value :=
  c ← choice seq; mret (VStr c).

Definition generate_log_templates : list Template := [
  {| severity := (9, "INFO");
     message_template := "User authentication successful for user_id={user_id}";
     attributes := [
       ("user.id", Callable (str_randint 10000 99999));
       ("action", Literal (VStr "login"));
       ("ip_address", Callable (n ← randint 1 254; mret (VStr ("192.168.1." +:+ pretty n))));
       ("user_agent", Literal (VStr "Mozilla/5.0 (compatible; TestClient/1.0)"))] |};
  {| severity := (13, "ERROR");
     message_template := "Database connection failed: {error_reason}";
     attributes := [
       ("database.name", Callable (str_choice ["user_db"; "product_db"; "order_db"]));
       ("error.type", Callable (str_choice ["connection_timeout"; "auth_failed"; "network_error"]));
       ("retry_count", Callable (str_randint 1 5));
       ("error_reason", Callable
          (str_choice ["timeout after 30s"; "authentication failed"; "host unreachable"]))] |};
  {| severity := (5, "DEBUG");
     message_template := "Processing request with correlation_id={correlation_id}";
     attributes := [
       ("correlation_id", Callable (h ← uuid4_hex; mret (VStr (Str.take 8 h))));
       ("request.method", Callable (str_choice ["GET"; "POST"; "PUT"; "DELETE"]));
       ("request.path", Callable
          (str_choice ["/api/v1/users"; "/api/v1/orders"; "/api/v1/products"]));
       ("response.status_code", Callable
          (c ← choice [200; 201; 400; 404; 500]; mret (VStr (pretty c))))] |};
  {| severity := (17, "FATAL");
     message_template := "Critical system failure: {failure_type}";
     attributes := [
       ("memory.used", Callable (n ← randint 85 99; mret (VStr (pretty n +:+ "%"))));
       ("system.component", Callable
          (str_choice ["application_server"; "database"; "cache_layer"]));
       ("failure_type", Callable
          (str_choice ["out of memory"; "disk full"; "service unavailable"]))] |};
  {| severity := (12, "WARN");
     message_template := "High response time detected: {response_time}ms for endpoint {endpoint}";
     attributes := [
       ("response_time", Callable (str_randint 1000 5000));
       ("endpoint", Callable (str_choice ["/api/search"; "/api/checkout"; "/api/report"]));
       ("threshold", Literal (VStr "1000ms"));
       ("client_id", Callable (n ← randint 1000 9999; mret (VStr ("client_" +:+ pretty n))))] |};
  {| severity := (9, "INFO");
     message_template := "Order {order_id} processed successfully for customer {customer_id}";
     attributes := [
       ("order_id", Callable (n ← randint 100000 999999; mret (VStr ("ORD-" +:+ pretty n))));
       ("customer_id", Callable (n ← randint 10000 99999; mret (VStr ("CUST-" +:+ pretty n))));
       ("order_amount", Callable (a ← randint 10 1000; b ← randint 10 99;
                                  mret (VStr ("$" +:+ pretty a +:+ "." +:+ pretty b))));
       ("payment_method", Callable (str_choice ["credit_card"; "paypal"; "bank_transfer"]))] |}
].

(** [f"{{{key}}}" in template["message_template"]] *)
Definition mentions (template : string) (key : string) : bool :=
  Str.contains ("{" +:+ key +:+ "}") template.

(** The loop of [resolve_template_values] over [template["attributes"].items()],
    threading [resolved_attributes] and [format_values]. *)
Fixpoint resolve_items (template : string) (items : list (string * AttrSpec))
    (resolved format_values : list (string * Value))
    : M (list (string * Value) * list (string * Value)) :=
  match items with
  | [] => mret (resolved, format_values)
  | (k, Callable f) :: items' =>
      actual_value ← f;
      let resolved := dict_set k actual_value resolved in
      let format_values :=
        if mentions template k then dict_set k actual_value format_values
        else format_values in
      resolve_items template items' resolved format_values
  | (k, Literal v) :: items' =>
      let resolved := dict_set k v resolved in
      let format_values :=
        if mentions template k then dict_set k v format_values
        else format_values in
      resolve_items template items' resolved format_values
  end.

(** The [try: format / except KeyError] block on [format_values], and the
    final assignments. *)
Definition format_message (template : Template)
    (resolved format_values : list (string * Value)) : M Resolved :=
  let finish msg : M Resolved :=
    mret {| resolved_severity := severity template;
            resolved_message_template := message_template template;
            message := msg;
            resolved_attributes := resolved |} in
  match py_format (dict_get format_values) (message_template template) with
  | Formatted msg => finish msg
  | FormatFails (KeyError _) => finish (message_template template)
  | FormatFails e => λ _, Raises e
  | FormatBeyond => λ _, Unmodelled
  end.

Definition resolve_template_values (template : Template) : M Resolved :=
  dicts ← resolve_items (message_template template) (attributes template) [] [];
  format_message template dicts.1 dicts.2.

(** *** The two synthesizers *)

Record TestLogGenerator : Type := {
  service_name : string;
  service_version : string
}.

(** [time_ns] is what [int(time.time() * 1_000_000_000)] evaluates to during
    the call, and [isoformat_now i] what
    [datetime.now(timezone.utc).isoformat()] evaluates to in iteration [i]. *)
Variable time_ns : Z.
Variable isoformat_now : Z → string.

Definition otlp_attribute (item : string * Value) : KeyValue :=
  {| key := item.1; value := StringValue (py_str item.2) |}.

(** The body of the loop of [generate_otlp_logs]. *)
Definition otlp_log_record (current_time_ns : Z) (log_templates : list Template)
    (trace_id : string) (i : Z) : M LogRecord :=
  template ← choice log_templates;
  resolved_template ← resolve_template_values template;
  span ← uuid4_hex;
  mret {| timeUnixNano := pretty (current_time_ns + i * 1000000);
          observedTimeUnixNano := pretty (current_time_ns + i * 1000000);
          severityNumber := (resolved_severity resolved_template).1;
          severityText := (resolved_severity resolved_template).2;
          body := StringValue (message resolved_template);
          otlp_attributes := otlp_attribute <$> resolved_attributes resolved_template;
          traceId := trace_id;
          spanId := Str.take 16 span;
          flags := 1 |}.

Definition generate_otlp_logs (self : TestLogGenerator) (num_logs : Z)
    (trace_id : option string) : M Payload :=
  trace_id ← match trace_id with
             | None => uuid4_hex
             | Some t => mret t
             end;
  let current_time_ns := time_ns in
  let log_templates := generate_log_templates in
  log_records ← for_each (otlp_log_record current_time_ns log_templates trace_id)
                         (seqZ 0 num_logs);
  host ← randint 1 10;
  environment ← choice ["development"; "staging"; "production"];
  mret {| resourceLogs := [
    {| resource := {| resource_attributes := [
         {| key := "service.name"; value := StringValue (service_name self) |};
         {| key := "service.version"; value := StringValue (service_version self) |};
         {| key := "host.name"; value := StringValue ("host-" +:+ Str.format_02d host) |};
         {| key := "container.name"; value := StringValue (service_name self +:+ "-container") |};
         {| key := "deployment.environment"; value := StringValue environment |}] |};
       scopeLogs := [
         {| scope := {| scope_name := service_name self +:+ "-logger";
                        scope_version := "1.0.0" |};
            logRecords := log_records |}] |}] |}.

(** An entry of [generate_structured_logs]. *)
Record LogEntry : Type := {
  timestamp : string;
  entry_service_name : string;
  entry_service_version : string;
  severity_text : string;
  severity_number : Z;
  entry_message : string;
  entry_attributes : list (string * Value);
  trace_id : string;
  span_id : string
}.

(** The body of the loop of [generate_structured_logs]. *)
Definition structured_log_entry (self : TestLogGenerator)
    (log_templates : list Template) (i : Z) : M LogEntry :=
  template ← choice log_templates;
  resolved_template ← resolve_template_values template;
  trace ← uuid4_hex;
  span ← uuid4_hex;
  mret {| timestamp := isoformat_now i;
          entry_service_name := service_name self;
          entry_service_version := service_version self;
          severity_text := (resolved_severity resolved_template).2;
          severity_number := (resolved_severity resolved_template).1;
          entry_message := message resolved_template;
          entry_attributes := resolved_attributes resolved_template;
          trace_id := trace;
          span_id := Str.take 16 span |}.

Definition generate_structured_logs (self : TestLogGenerator) (num_logs : Z)
    : M (list LogEntry) :=
  let log_templates := generate_log_templates in
  for_each (structured_log_entry self log_templates) (seqZ 0 num_logs).

End Random.

End Generator.

(** ** Python objects decoded from a JSON body

    Numbers are integers: the scripts read counts only.  Dictionary keys are
    objects, since the statistics are keyed by whatever a bucket holds. *)

#[local] Unset Elimination Schemes.
Inductive PyVal : Type :=
| PNone
| PBool (b : bool)
| PInt (z : Z)
| PStr (s : string)
| PList (items : list PyVal)
| PDict (entries : list (PyVal * PyVal)).
#[local] Set Elimination Schemes.

(** [bool(v)] *)
Definition truthy (v : PyVal) : bool :=
  match v with
  | PNone => false
  | PBool b => b
  | PInt z => negb (z =? 0)
  | PStr s => negb (String.eqb s "")
  | PList items => match items with [] => false | _ => true end
  | PDict entries => match entries with [] => false | _ => true end
  end.

Definition hashable (k : PyVal) : bool :=
  match k with
  | PList _ | PDict _ => false
  | _ => true
  end.

(** Equality of dictionary keys: [True] and [1], [False] and [0] are the
    same key. *)
Definition key_eqb (a b : PyVal) : bool :=
  match a, b with
  | PNone, PNone => true
  | PStr s, PStr t => String.eqb s t
  | PInt x, PInt y => x =? y
  | PBool x, PBool y => Bool.eqb x y
  | PInt x, PBool y | PBool y, PInt x => x =? Z.b2z y
  | _, _ => false
  end.

Fixpoint entries_get (d : list (PyVal * PyVal)) (k : PyVal) : option PyVal :=
  match d with
  | [] => None
  | (k', v) :: d' => if key_eqb k' k then Some v else entries_get d' k
  end.

Fixpoint entries_set (k v : PyVal) (d : list (PyVal * PyVal)) : list (PyVal * PyVal) :=
  match d with
  | [] => [(k, v)]
  | (k', v') :: d' =>
      if key_eqb k' k then (k', v) :: d' else (k', v') :: entries_set k v d'
  end.

(** [o.get(k, fallback)]: only a [dict] has the method. *)
Definition py_get (o : PyVal) (k : string) (fallback : PyVal) : Result PyVal :=
  match o with
  | PDict d => Ok (default fallback (entries_get d (PStr k)))
  | _ => Raise AttributeError
  end.

(** [o[k]] for a string [k]: a missing key is a [KeyError]; a list or a
    string wants an integer index, anything else has no subscript. *)
Definition py_getitem (o : PyVal) (k : string) : Result PyVal :=
  match o with
  | PDict d =>
      match entries_get d (PStr k) with
      | Some v => Ok v
      | None => Raise (KeyError k)
      end
  | _ => Raise TypeError
  end.

(** [d[k] = v] *)
Definition py_setitem (d : list (PyVal * PyVal)) (k v : PyVal)
    : Result (list (PyVal * PyVal)) :=
  if hashable k then Ok (entries_set k v d) else Raise TypeError.

Fixpoint chars (s : string) : list PyVal :=
  match s with
  | EmptyString => []
  | String c s' => PStr (String c EmptyString) :: chars s'
  end.

(** What [for x in o] goes through. *)
Definition py_iter (o : PyVal) : Result (list PyVal) :=
  match o with
  | PList items => Ok items
  | PDict entries => Ok (fst <$> entries)
  | PStr s => Ok (chars s)
  | _ => Raise TypeError
  end.

(** [len(o)] *)
Definition py_len (o : PyVal) : Result Z :=
  match o with
  | PList items => Ok (Z.of_nat (length items))
  | PDict entries => Ok (Z.of_nat (length entries))
  | PStr s => Ok (Z.of_nat (String.length s))
  | _ => Raise TypeError
  end.

Definition is_dict (o : PyVal) : bool :=
  match o with
  | PDict _ => true
  | _ => false
  end.

(** [str(v)]; the rendering of a list or of a dictionary is given by
    [repr]. *)
Definition pyval_str (repr : PyVal → string) (v : PyVal) : string :=
  match v with
  | PNone => "None"
  | PBool true => "True"
  | PBool false => "False"
  | PInt z => pretty z
  | PStr s => s
  | _ => repr v
  end.

(** [k in o] for a string [k]: a key of a dictionary, an element of a list,
    a part of a string. *)
Definition py_contains (o : PyVal) (k : string) : Result bool :=
  match o with
  | PDict d => Ok (bool_decide (is_Some (entries_get d (PStr k))))
  | PList items => Ok (existsb (key_eqb (PStr k)) items)
  | PStr s => Ok (Str.contains k s)
  | _ => Raise TypeError
  end.

(** [o[0]] *)
Definition py_first (o : PyVal) : Result PyVal :=
  match o with
  | PList (x :: _) => Ok x
  | PList [] => Raise IndexError
  | PStr (String c _) => Ok (PStr (String c EmptyString))
  | PStr EmptyString => Raise IndexError
  | PDict d =>
      match entries_get d (PInt 0) with
      | Some v => Ok v
      | None => Raise (KeyError "0")
      end
  | _ => Raise TypeError
  end.

(** ** HTTP

    A request either gets a response or fails in transport
    ([requests.RequestException]).  The peer is a script of replies, one per
    request in the order they are issued: what a request carries (URL, query,
    headers, timeout) is not modelled, the replies range over all a server
    could answer.  A response is taken to carry a JSON body. *)

Record Response : Type := {
  status_code : Z;
  text : string;
  json : PyVal
}.

Inductive Reply : Type :=
| Responded (response : Response)
| RequestException (what : string).

(** A reply that is not an HTTP 200. *)
Definition failed (reply : Reply) : bool :=
  match reply with
  | Responded response => negb (status_code response =? 200)
  | RequestException _ => true
  end.

(** Computations that issue requests: the state is the number of requests
    sent so far. *)
Definition IO (A : Type) : Type := nat → Result A * nat.

Global Instance IO_ret : MRet IO := λ A a n, (Ok a, n).

Global Instance IO_bind : MBind IO := λ A B k m n,
  match m n with
  | (Ok a, n') => k a n'
  | (Raise e, n') => (Raise e, n')
  end.

Definition lift {A : Type} (r : Result A) : IO A := λ n, (r, n).

(** [try: body / except Exception: handler] *)
Definition try_except {A : Type} (body handler : IO A) : IO A := λ n,
  match body n with
  | (Ok a, n') => (Ok a, n')
  | (Raise _, n') => handler n'
  end.

Section Http.
Variable peer : nat → Reply.

(** One [requests.get] / [requests.post] / [session.get] / [session.post]. *)
Definition request : IO Reply := λ n, (Ok (peer n), S n).

End Http.

(** ** verify_opensearch_logs.py *)

Module Verifier.

Record FieldStat : Type := {
  present : Z;
  missing : Z;
  sample_values : list string
}.

(** What [get_log_statistics] returns: [{"error": error}], or the
    dictionary of the three statistics. *)
Inductive Statistics : Type :=
| StatisticsError (error : string)
| StatisticsReport (total_logs : PyVal)
    (severity_distribution service_distribution : list (PyVal * PyVal)).

(** What [verify_log_fields] returns: [{"error": error}], or the
    dictionary with [total_logs_checked] and [field_statistics]. *)
Inductive Verification : Type :=
| VerificationError (error : string)
| VerificationReport (total_logs_checked : Z) (field_statistics : gmap string FieldStat).

(** [result.get("hits", {}).get(k, fallback)] *)
Definition hits_get (result : PyVal) (k : string) (fallback : PyVal) : Result PyVal :=
  hits ← py_get result "hits" (PDict []);
  py_get hits k fallback.

(** [[hit.get("_source", {}) for hit in hits]] *)
Fixpoint sources (hits : list PyVal) : Result (list PyVal) :=
  match hits with
  | [] => Ok []
  | hit :: hits' =>
      source ← py_get hit "_source" (PDict []);
      rest ← sources hits';
      Ok (source :: rest)
  end.

(** The hit count of a search result, whichever shape the search engine
    gives it. *)
Definition total_count (result : PyVal) : Result PyVal :=
  total_logs ← hits_get result "total" (PDict []);
  if is_dict total_logs then py_get total_logs "value" (PInt 0)
  else Ok total_logs.

(** [for bucket in buckets: dist[bucket["key"]] = bucket["doc_count"]] *)
Fixpoint read_buckets (buckets : list PyVal) (dist : list (PyVal * PyVal))
    : Result (list (PyVal * PyVal)) :=
  match buckets with
  | [] => Ok dist
  | bucket :: buckets' =>
      doc_count ← py_getitem bucket "doc_count";
      k ← py_getitem bucket "key";
      dist ← py_setitem dist k doc_count;
      read_buckets buckets' dist
  end.

(** [aggs.get(name, {}).get("buckets", [])], read into a distribution. *)
Definition distribution (aggs : PyVal) (name : string) : Result (list (PyVal * PyVal)) :=
  agg ← py_get aggs name (PDict []);
  buckets ← py_get agg "buckets" (PList []);
  buckets ← py_iter buckets;
  read_buckets buckets [].

(** The two distributions of an aggregation result. *)
Definition distributions (agg_result : PyVal)
    : Result (list (PyVal * PyVal) * list (PyVal * PyVal)) :=
  aggs ← py_get agg_result "aggregations" (PDict []);
  severity ← distribution aggs "severity_distribution";
  service ← distribution aggs "service_distribution";
  Ok (severity, service).

(** [source[field]] when [field in source and source[field] is not None]
    holds, and [None] when it does not. *)
Definition present_value (field : string) (source : PyVal) : Result (option PyVal) :=
  match source with
  | PDict d =>
      match entries_get d (PStr field) with
      | Some PNone => Ok None
      | Some v => Ok (Some v)
      | None => Ok None
      end
  | PList items =>
      if existsb (key_eqb (PStr field)) items then Raise TypeError else Ok None
  | PStr s =>
      if Str.contains field s then Raise TypeError else Ok None
  | _ => Raise TypeError
  end.

(** The tally of one field on one document: the body of the inner loop of
    [verify_log_fields]. *)
Definition tally (repr : PyVal → string) (source : PyVal)
    (field_stats : gmap string FieldStat) (field : string)
    : Result (gmap string FieldStat) :=
  found ← present_value field source;
  match field_stats !! field with
  | None => Raise (KeyError field)
  | Some st =>
      match found with
      | Some v =>
          let samples :=
            if Z.of_nat (length (sample_values st)) <? 3
            then sample_values st ++ [pyval_str repr v]
            else sample_values st in
          Ok (<[field := {| present := present st + 1;
                            missing := missing st;
                            sample_values := samples |}]> field_stats)
      | None =>
          Ok (<[field := {| present := present st;
                            missing := missing st + 1;
                            sample_values := sample_values st |}]> field_stats)
      end
  end.

(** [for field in required_fields: ...] on one document. *)
Fixpoint tally_fields (repr : PyVal → string) (source : PyVal)
    (required_fields : list string) (field_stats : gmap string FieldStat)
    : Result (gmap string FieldStat) :=
  match required_fields with
  | [] => Ok field_stats
  | field :: fields' =>
      field_stats ← tally repr source field_stats field;
      tally_fields repr source fields' field_stats
  end.

(** [for hit in hits: ...] *)
Fixpoint tally_hits (repr : PyVal → string) (required_fields : list string)
    (hits : list PyVal) (field_stats : gmap string FieldStat)
    : Result (gmap string FieldStat) :=
  match hits with
  | [] => Ok field_stats
  | hit :: hits' =>
      source ← py_get hit "_source" (PDict []);
      field_stats ← tally_fields repr source required_fields field_stats;
      tally_hits repr required_fields hits' field_stats
  end.

(** [for field in required_fields: field_stats[field] = {...}] *)
Definition initial_stats (required_fields : list string) : gmap string FieldStat :=
  foldl (λ field_stats field,
           <[field := {| present := 0; missing := 0; sample_values := [] |}]> field_stats)
        ∅ required_fields.

Section Requests.
Variable peer : nat → Reply.
Variable repr : PyVal → string.



Definition search_logs : IO (bool * PyVal) :=
  reply ← request peer;
  match reply with
  | Responded response =>
      if status_code response =? 200 then mret (true, json response)
      else mret (false, PDict [(PStr "error",
                   PStr ("HTTP " +:+ pretty (status_code response) +:+ ": " +:+ text response))])
  | RequestException e => mret (false, PDict [(PStr "error", PStr e)])
  end.

(** The common body of [search_by_service], [search_by_severity],
    [search_by_time_range] and [search_by_trace_id], which differ in the
    query they send. *)
Definition search_sources : IO (bool * PyVal) :=
  '(success, result) ← search_logs;
  if success : bool then
    hits ← lift (hits_get result "hits" (PList []));
    hits ← lift (py_iter hits);
    logs ← lift (sources hits);
    mret (true, PList logs)
  else mret (false, PList []).

Definition search_by_service : IO (bool * PyVal) := search_sources.
Definition search_by_severity : IO (bool * PyVal) := search_sources.
Definition search_by_time_range : IO (bool * PyVal) := search_sources.
Definition search_by_trace_id : IO (bool * PyVal) := search_sources.

Definition get_log_statistics : IO Statistics :=
  '(success, result) ← search_logs;
  if negb success then mret (StatisticsError "Failed to get log statistics")
  else
    total ← lift (total_count result);
    '(success, agg_result) ← search_logs;
    if success : bool then
      '(severity, service) ← lift (distributions agg_result);
      mret (StatisticsReport total severity service)
    else mret (StatisticsReport total [] []).

Definition verify_log_fields (required_fields : list string) : IO Verification :=
  '(success, result) ← search_logs;
  if negb success then mret (VerificationError "Failed to retrieve logs for field verification")
  else
    hits ← lift (hits_get result "hits" (PList []));
    if negb (truthy hits) then mret (VerificationError "No logs found for verification")
    else
      items ← lift (py_iter hits);
      field_stats ← lift (tally_hits repr required_fields items (initial_stats required_fields));
      checked ← lift (py_len hits);
      mret (VerificationReport checked field_stats).


End Requests.

End Verifier.

(** ** test-error-handling.py *)

Module ErrorTester.

(** [l[i]] *)
Definition index {A : Type} (l : list A) (i : nat) : Result A :=
  match l !! i with
  | Some x => Ok x
  | None => Raise IndexError
  end.

(** The body of the loop of [check_dlq_metrics] over the lines. *)
Definition dlq_line (dlq_metrics : gmap string string) (line : string)
    : Result (gmap string string) :=
  if Str.contains "dlq" (Str.lower line) || Str.contains "error" (Str.lower line) then
    if Str.startswith "#" line then Ok dlq_metrics
    else if Str.contains " " line then
      metric_name ← index (Str.split " " line) 0;
      metric_value ← index (Str.split " " line) 1;
      Ok (<[metric_name := metric_value]> dlq_metrics)
    else Ok dlq_metrics
  else Ok dlq_metrics.

Fixpoint dlq_lines (lines : list string) (dlq_metrics : gmap string string)
    : Result (gmap string string) :=
  match lines with
  | [] => Ok dlq_metrics
  | line :: lines' =>
      dlq_metrics ← dlq_line dlq_metrics line;
      dlq_lines lines' dlq_metrics
  end.

(** The metrics read from the text of a 200 response. *)
Definition parse_dlq_metrics (metrics_text : string) : Result (gmap string string) :=
  dlq_lines (Str.split "010" metrics_text) ∅.

Section Requests.
Variable peer : nat → Reply.

(** The body of the loop of [check_services]: one probe. *)
Definition probe (all_healthy : bool) : IO bool :=
  reply ← request peer;
  match reply with
  | Responded response =>
      if status_code response <? 400 then mret all_healthy else mret false
  | RequestException _ => mret false
  end.

Fixpoint probes (services : list string) (all_healthy : bool) : IO bool :=
  match services with
  | [] => mret all_healthy
  | _ :: services' => all_healthy ← probe all_healthy; probes services' all_healthy
  end.

Definition check_services : IO bool :=
  probes ["OTEL Collector"; "Data Prepper"; "OpenSearch"] true.

Definition send_test_log : IO bool :=
  reply ← request peer;
  match reply with
  | Responded response => mret (status_code response =? 200)
  | RequestException _ => mret false
  end.

Definition check_opensearch_logs : IO PyVal :=
  reply ← request peer;
  match reply with
  | Responded response =>
      if status_code response =? 200 then
        try_except
          (let data := json response in
           total_hits ← lift (hits ← py_getitem data "hits";
                              total ← py_getitem hits "total";
                              py_getitem total "value");
           mret data)
          (mret (PDict []))
      else mret (PDict [])
  | RequestException _ => mret (PDict [])
  end.

Definition check_dlq_metrics : IO (gmap string string) :=
  reply ← request peer;
  match reply with
  | Responded response =>
      if status_code response =? 200 then
        try_except (lift (parse_dlq_metrics (text response))) (mret ∅)
      else mret ∅
  | RequestException _ => mret ∅
  end.

End Requests.

(** *** The test logs

    A record of [create_test_log]: [severityText] and [body] can be deleted,
    and the values taken from the keyword arguments are whatever the caller
    passed.  [body] holds the [stringValue] of the body. *)
Record TestRecord : Type := {
  timeUnixNano : string;
  severityText : option PyVal;
  body : option PyVal;
  attributes : list KeyValue;
  traceId : string;
  spanId : string
}.

(** [log_record["attributes"] = v] *)
Definition set_attributes (v : list KeyValue) (r : TestRecord) : TestRecord :=
  {| timeUnixNano := timeUnixNano r; severityText := severityText r; body := body r;
     attributes := v; traceId := traceId r; spanId := spanId r |}.

(** [log_record["timeUnixNano"] = v] *)
Definition set_timeUnixNano (v : string) (r : TestRecord) : TestRecord :=
  {| timeUnixNano := v; severityText := severityText r; body := body r;
     attributes := attributes r; traceId := traceId r; spanId := spanId r |}.

(** [log_record["body"]["stringValue"] = v], on a record that has its body. *)
Definition set_body (v : PyVal) (r : TestRecord) : TestRecord :=
  {| timeUnixNano := timeUnixNano r; severityText := severityText r; body := Some v;
     attributes := attributes r; traceId := traceId r; spanId := spanId r |}.

(** [del log_record["severityText"]] and [del log_record["body"]], on a
    record that has both. *)
Definition del_severityText (r : TestRecord) : TestRecord :=
  {| timeUnixNano := timeUnixNano r; severityText := None; body := body r;
     attributes := attributes r; traceId := traceId r; spanId := spanId r |}.

Definition del_body (r : TestRecord) : TestRecord :=
  {| timeUnixNano := timeUnixNano r; severityText := severityText r; body := None;
     attributes := attributes r; traceId := traceId r; spanId := spanId r |}.

(** What [create_test_log] returns: the OTLP tree, with the attributes of
    its resource and its one record, or the dictionary with the one key
    [invalid]. *)
Inductive TestLog : Type :=
| Otlp (resource_attributes : list (string * PyVal)) (log_record : TestRecord)
| Invalid (invalid : string).

(** [kwargs.get(k, fallback)] *)
Definition kwargs_get (kwargs : list (string * PyVal)) (k fallback : string) : PyVal :=
  default (PStr fallback) (dict_get kwargs k).

Section Scenarios.
Variable entropy : nat → Z.

(** [clock s] is what [int(base_time.timestamp() * 1_000_000_000)] evaluates
    to for the clock reading of the call that finds the random source at
    position [s]. *)
Variable clock : nat → Z.

(** The literal of a surrogate pair written as two escapes, which is no
    sequence of bytes. *)
Variable surrogate_pair : string.

Definition string_attribute (k v : string) : KeyValue :=
  {| key := k; value := StringValue v |}.

Definition create_test_log (log_type : string) (kwargs : list (string * PyVal))
    (drawn : nat) : TestLog * nat :=
  let base_time := clock drawn in
  let trace_id := Str.hex 32 (Generator.uuid4_int (entropy drawn)) in
  let span_id := Str.take 16 (Str.hex 32 (Generator.uuid4_int (entropy (S drawn)))) in
  let resource_attributes :=
    [("service.name", kwargs_get kwargs "service_name" "error-test-service");
     ("service.version", kwargs_get kwargs "service_version" "1.0.0")] in
  let log_record :=
    {| timeUnixNano := pretty base_time;
       severityText := Some (kwargs_get kwargs "severity" "INFO");
       body := Some (kwargs_get kwargs "message" "Test log message");
       attributes := [];
       traceId := trace_id;
       spanId := span_id |} in
  let base_log := Otlp resource_attributes in
  let result :=
    if String.eqb log_type "valid" then
      base_log (set_attributes
        [string_attribute "user.id" "12345"; string_attribute "request.method" "GET"]
        log_record)
    else if String.eqb log_type "invalid_timestamp" then
      base_log (set_timeUnixNano "invalid-timestamp" log_record)
    else if String.eqb log_type "missing_required_fields" then
      base_log (del_body (del_severityText log_record))
    else if String.eqb log_type "oversized_document" then
      let large_message := Str.times "x" (Z.to_nat (11 * 1024 * 1024)) in
      base_log (set_body (PStr large_message) log_record)
    else if String.eqb log_type "invalid_json_structure" then
      Invalid "json structure without proper OTLP format"
    else if String.eqb log_type "grok_parse_failure" then
      base_log (set_attributes [string_attribute "log.format" "unstructured"]
        (set_body (PStr "This is a completely unstructured log message with no recognizable pattern @@##$$%%")
           log_record))
    else if String.eqb log_type "field_mapping_error" then
      base_log (set_attributes
        [string_attribute "timestamp" "not-a-timestamp";
         {| key := "message"; value := IntValue 12345 |}]
        log_record)
    else if String.eqb log_type "unicode_encoding_error" then
      base_log (set_attributes [string_attribute "unicode.test" surrogate_pair]
        (set_body (PStr ("Test with problematic unicode: " +:+
                     String "000" (String "001" (String "002"
                       (String "255" (String "254" EmptyString))))))
           log_record))
    else base_log log_record in
  (result, S (S drawn)).

Variable peer : nat → Reply.

Definition test_scenarios : list (string * string) :=
  [("valid_log", "Valid log processing");
   ("invalid_timestamp", "Invalid timestamp handling");
   ("missing_required_fields", "Missing required fields");
   ("grok_parse_failure", "Grok parsing failure");
   ("field_mapping_error", "Field mapping error");
   ("unicode_encoding_error", "Unicode encoding error");
   ("oversized_document", "Oversized document handling");
   ("invalid_json_structure", "Invalid JSON structure")].

(** The loop of [run_error_tests]; the log created travels with the request
    of [send_test_log]. *)
Fixpoint run_scenarios (scenarios : list (string * string))
    (test_results : list (string * bool)) (drawn : nat)
    : IO (list (string * bool) * nat) :=
  match scenarios with
  | [] => mret (test_results, drawn)
  | (test_type, test_description) :: scenarios' =>
      let created := create_test_log test_type [] drawn in
      success ← send_test_log peer;
      run_scenarios scenarios' (dict_set test_type success test_results) created.2
  end.

Definition run_error_tests (drawn : nat) : IO (list (string * bool) * nat) :=
  run_scenarios test_scenarios [] drawn.

(** [run_dlq_validation]: the outcome of the health request is logged and
    has no part in the result. *)
Definition run_dlq_validation : IO (PyVal * gmap string string) :=
  opensearch_data ← check_opensearch_logs peer;
  dlq_metrics ← check_dlq_metrics peer;
  _ ← try_except (_ ← request peer; mret tt) (mret tt);
  mret (opensearch_data, dlq_metrics).

End Scenarios.

End ErrorTester.

(** ** test_integration.py *)

Module Integration.

(** [v >= n] for an integer [n]. *)
Definition py_ge (v : PyVal) (n : Z) : Result bool :=
  match v with
  | PInt z => Ok (n <=? z)
  | PBool b => Ok (n <=? Z.b2z b)
  | _ => Raise TypeError
  end.

(** [o[:3]], gone through by a [for]: a dictionary cannot be sliced (which
    exception it raises depends on the interpreter version). *)
Definition first_three (o : PyVal) : Result (list PyVal) :=
  match o with
  | PList items => Ok (take 3 items)
  | PStr s => Ok (chars (Str.take 3 s))
  | _ => Raise TypeError
  end.

(** The loop printing the sample entries: every [hit] and every [_source]
    must have a [get]. *)
Fixpoint show_samples (hits : list PyVal) : Result unit :=
  match hits with
  | [] => Ok tt
  | hit :: hits' =>
      source ← py_get hit "_source" (PDict []);
      if is_dict source then show_samples hits' else Raise AttributeError
  end.

Section Requests.
Variable peer : nat → Reply.

Fixpoint wait_attempts (attempts : nat) : IO bool :=
  match attempts with
  | O => mret false
  | S attempts' =>
      reply ← request peer;
      match reply with
      | Responded response =>
          if status_code response =? 200 then mret true
          else wait_attempts attempts'
      | RequestException _ => wait_attempts attempts'
      end
  end.

(** [for attempt in range(1, max_attempts + 1)] *)
Definition wait_for_service (max_attempts : Z) : IO bool :=
  wait_attempts (Z.to_nat max_attempts).

Fixpoint wait_for_services (services : list string) : IO bool :=
  match services with
  | [] => mret true
  | _ :: services' =>
      ready ← wait_for_service 30;
      if ready : bool then wait_for_services services' else mret false
  end.

Definition check_services : IO bool :=
  wait_for_services ["OTEL Collector"; "Data Prepper"; "OpenSearch"].

(** The payload that [generate_test_logs] builds travels with the request
    and has no part in the result. *)
Definition send_test_logs : IO bool :=
  reply ← request peer;
  match reply with
  | Responded response => mret (status_code response =? 200)
  | RequestException _ => mret false
  end.

Definition refresh_opensearch_indices : IO bool :=
  reply ← request peer;
  match reply with
  | Responded response => mret (status_code response =? 200)
  | RequestException _ => mret false
  end.

Definition search_logs_in_opensearch (expected_count : Z) : IO (bool * PyVal) :=
  _ ← refresh_opensearch_indices;
  reply ← request peer;
  match reply with
  | Responded response =>
      if negb (status_code response =? 200) then mret (false, PDict [])
      else
        let result := json response in
        hit_count ← lift (Verifier.hits_get result "total" (PDict []));
        hit_count ← lift (if is_dict hit_count then py_get hit_count "value" (PInt 0)
                          else Ok hit_count);
        enough ← lift (py_ge hit_count expected_count);
        if enough : bool then
          hits ← lift (Verifier.hits_get result "hits" (PList []));
          hits ← lift (first_three hits);
          _ ← lift (show_samples hits);
          mret (true, result)
        else mret (false, result)
  | RequestException _ => mret (false, PDict [])
  end.

Definition check_data_prepper_metrics : IO bool :=
  reply ← request peer;
  match reply with
  | Responded response =>
      if negb (status_code response =? 200) then mret false
      else
        let metrics_text := text response in
        let log_records_in := Str.count "log_pipeline_recordsIn_total" metrics_text in
        let log_records_out := Str.count "log_pipeline_recordsOut_total" metrics_text in
        mret ((0 <? log_records_in) && (0 <? log_records_out))
  | RequestException _ => mret false
  end.

(** [field not in log_entry or not log_entry[field]] *)
Definition field_missing (log_entry : PyVal) (field : string) : Result bool :=
  has ← py_contains log_entry field;
  if has : bool then
    v ← py_getitem log_entry field;
    Ok (negb (truthy v))
  else Ok true.

(** The fields that the loop of [verify_log_transformation] appends to
    [missing_fields]. *)
Fixpoint missing_fields (log_entry : PyVal) (required_fields : list string)
    : Result (list string) :=
  match required_fields with
  | [] => Ok []
  | field :: fields' =>
      is_missing ← field_missing log_entry field;
      others ← missing_fields log_entry fields';
      Ok (if is_missing : bool then field :: others else others)
  end.

Definition required_fields : list string :=
  ["@timestamp"; "service_name"; "service_version"; "message"; "severity_text"].

Definition verify_log_transformation : IO bool :=
  reply ← request peer;
  match reply with
  | Responded response =>
      if negb (status_code response =? 200) then mret false
      else
        let result := json response in
        hits ← lift (Verifier.hits_get result "hits" (PList []));
        if negb (truthy hits) then mret false
        else
          hit ← lift (py_first hits);
          log_entry ← lift (py_get hit "_source" (PDict []));
          missing ← lift (missing_fields log_entry required_fields);
          _ ← lift (py_contains log_entry "pipeline_processed");
          _ ← lift (py_contains log_entry "processed_at");
          mret (match missing with [] => true | _ => false end)
  | RequestException _ => mret false
  end.

(** [if "index_templates" in templates and templates["index_templates"]] *)
Definition templates_available (templates : PyVal) : Result bool :=
  has ← py_contains templates "index_templates";
  if has : bool then
    v ← py_getitem templates "index_templates";
    Ok (truthy v)
  else Ok false.

Definition verify_index_template : IO bool :=
  reply ← request peer;
  match reply with
  | Responded response =>
      available ← (if status_code response =? 200
                   then lift (templates_available (json response))
                   else mret false);
      if available : bool then mret true
      else
        reply ← request peer;
        match reply with
        | Responded response =>
            if status_code response =? 200 then mret (truthy (json response))
            else mret false
        | RequestException _ => mret false
        end
  | RequestException _ => mret false
  end.

Definition cleanup_test_data : IO bool :=
  reply ← request peer;
  match reply with
  | Responded response => mret true
  | RequestException _ => mret false
  end.

(** [run_integration_tests]: the steps in order; the waiting step only
    sleeps. *)
Definition run_integration_tests (cleanup : bool) (num_logs : Z) : IO bool :=
  services ← check_services;
  if negb services then mret false
  else
    template_result ← verify_index_template;
    sent ← send_test_logs;
    if negb sent then mret false
    else
      '(search_result, _) ← search_logs_in_opensearch num_logs;
      if negb search_result then mret false
      else
        transform_result ← verify_log_transformation;
        metrics_result ← check_data_prepper_metrics;
        cleanup_result ← (if cleanup then cleanup_test_data else mret true);
        mret (template_result && transform_result && metrics_result && cleanup_result).

End Requests.

(** *** The test logs *)

(** An entry of [log_templates]: its values are computed when the list is
    built. *)
Record LogTemplate : Type := {
  severity : Z * string;
  message : string;
  attributes : list (string * string)
}.

Section Logs.
Variable entropy : nat → Z.

(** What [int(time.time() * 1_000_000_000)] evaluates to during the call. *)
Variable time_ns : Z.

Definition test_service_name : string := "integration-test-service".
Definition test_service_version : string := "1.0.0".

(** The list literal [log_templates], its random values drawn left to
    right. *)
Definition log_templates : Generator.M (list LogTemplate) :=
  user ← Generator.randint entropy 10000 99999;
  user_id ← Generator.randint entropy 10000 99999;
  ip ← Generator.randint entropy 1 254;
  retry_count ← Generator.randint entropy 1 5;
  correlation ← Generator.uuid4_hex entropy;
  correlation_id ← Generator.uuid4_hex entropy;
  mret [
    {| severity := (9, "INFO");
       message := "User authentication successful for user_id=" +:+ pretty user;
       attributes := [("user.id", pretty user_id);
                      ("action", "login");
                      ("ip_address", "192.168.1." +:+ pretty ip)] |};
    {| severity := (13, "ERROR");
       message := "Database connection failed: timeout after 30s";
       attributes := [("database.name", "user_db");
                      ("error.type", "connection_timeout");
                      ("retry_count", pretty retry_count)] |};
    {| severity := (5, "DEBUG");
       message := "Processing request with correlation_id=" +:+ Str.take 8 correlation;
       attributes := [("correlation_id", Str.take 8 correlation_id);
                      ("request.method", "POST");
                      ("request.path", "/api/v1/users")] |};
    {| severity := (17, "FATAL");
       message := "Critical system failure: out of memory";
       attributes := [("memory.used", "95%");
                      ("system.component", "application_server")] |}].

(** The body of the loop of [generate_test_logs]. *)
Definition test_log_record (current_time_ns : Z) (log_templates : list LogTemplate)
    (test_trace_id : string) (i : Z) : Generator.M LogRecord :=
  template ← (λ s, match log_templates !! Z.to_nat (i `mod` Z.of_nat (length log_templates)) with
                   | Some template => Generator.Returns template s
                   | None => Generator.Raises IndexError
                   end);
  span ← Generator.uuid4_hex entropy;
  mret {| timeUnixNano := pretty (current_time_ns + i * 1000000);
          observedTimeUnixNano := pretty (current_time_ns + i * 1000000);
          severityNumber := (severity template).1;
          severityText := (severity template).2;
          body := StringValue (message template);
          otlp_attributes :=
            (λ item : string * string, {| key := item.1; value := StringValue item.2 |})
              <$> attributes template;
          traceId := test_trace_id;
          spanId := Str.take 16 span;
          flags := 1 |}.

(** [generate_test_logs]; the trace identifier is also kept on the test
    object as [test_trace_id]. *)
Definition generate_test_logs (num_logs : Z) : Generator.M Payload :=
  test_trace_id ← Generator.uuid4_hex entropy;
  let current_time_ns := time_ns in
  log_templates ← log_templates;
  log_records ← Generator.for_each
                  (test_log_record current_time_ns log_templates test_trace_id)
                  (seqZ 0 num_logs);
  mret {| resourceLogs := [
    {| resource := {| resource_attributes := [
         {| key := "service.name"; value := StringValue test_service_name |};
         {| key := "service.version"; value := StringValue test_service_version |};
         {| key := "host.name"; value := StringValue "test-host-01" |};
         {| key := "container.name"; value := StringValue "integration-test-container" |}] |};
       scopeLogs := [
         {| scope := {| scope_name := "test-logger"; scope_version := "1.0.0" |};
            logRecords := log_records |}] |}] |}.

End Logs.

End Integration.

(** * Specifications *)

(** ** What the spec calls substitution

    [Substituted values t o]: [o] is the template [t] in which every named
    placeholder [{name}] is replaced by the value of [name], doubled braces
    standing for single ones. *)

Definition is_brace (c : ascii) : bool :=
  (Ascii.eqb c "{" || Ascii.eqb c "}")%char.

(** A placeholder name: a keyword, not a position, and no path or spec. *)
Definition plain_name (name : string) : bool :=
  Str.all_chars (λ c, negb (is_brace c || Generator.is_path_or_spec c)) name.

Definition keyword_name (name : string) : bool :=
  negb (Str.all_chars Str.is_digit name) && plain_name name.

Inductive Substituted (values : string → option Generator.Value) : string → string → Prop :=
| subst_end :
    Substituted values "" ""
| subst_char c t o :
    is_brace c = false →
    Substituted values t o →
    Substituted values (String c t) (String c o)
| subst_open t o :
    Substituted values t o →
    Substituted values ("{{" +:+ t) ("{" +:+ o)
| subst_close t o :
    Substituted values t o →
    Substituted values ("}}" +:+ t) ("}" +:+ o)
| subst_field name v t o :
    keyword_name name = true →
    values name = Some v →
    Substituted values t o →
    Substituted values ("{" +:+ name +:+ "}" +:+ t) (Generator.py_str v +:+ o).

(** What a successful scan of [s] from state [st] has substituted. *)
Definition scanned (values : string → option Generator.Value)
    (st : Generator.Scan) (s o : string) : Prop :=
  match st with
  | Generator.Text => Substituted values s o
  | Generator.Open => Substituted values ("{" +:+ s) o
  | Generator.Close => Substituted values ("}" +:+ s) o
  | Generator.Field name =>
      plain_name name = true → Substituted values ("{" +:+ name +:+ s) o
  end.

(** An outcome of [str.format] that [resolve_template_values] turns into a
    message. *)
Definition harmless (r : Generator.FormatOutcome) : Prop :=
  match r with
  | Generator.Formatted _ | Generator.FormatFails (KeyError _) => True
  | _ => False
  end.

(** A computation of the generator that always returns, and never gives
    numbers back to the random source. *)
Definition total {A : Type} (m : Generator.M A) : Prop :=
  ∀ s, ∃ a s', m s = Generator.Returns a s' ∧ (s ≤ s')%nat.

(** A format string that [str.format] can only reject for a missing key. *)
Definition well_formed (template : string) : bool :=
  match Generator.py_format (λ _, Some (Generator.VStr "")) template with
  | Generator.Formatted _ => true
  | _ => false
  end.

(** A template whose callables return and whose message is well formed. *)
Definition sound_template (t : Generator.Template) : Prop :=
  well_formed (Generator.message_template t) = true ∧
  Forall (λ item, match item.2 with
                  | Generator.Callable f => total f
                  | Generator.Literal _ => True
                  end) (Generator.attributes t).

(** ** The shape of a batch *)

Section BatchSpec.
Import Generator.
Variable entropy : nat → Z.

(** The identifiers that [uuid4] gives at position [p] of the random
    source. *)
Definition trace_at (p : nat) : string := Str.hex 32 (uuid4_int (entropy p)).
Definition span_at (p : nat) : string := Str.take 16 (trace_at p).

(** Record [r] is what iteration [i] makes of some template of the catalog,
    with trace identifier [trace] and the span identifier drawn at [p]. *)
Definition record_spec (current_time_ns : Z) (trace : string)
    (i : Z) (p : nat) (r : LogRecord) : Prop :=
  timeUnixNano r = pretty (current_time_ns + i * 1000000) ∧
  observedTimeUnixNano r = pretty (current_time_ns + i * 1000000) ∧
  traceId r = trace ∧
  spanId r = span_at p ∧
  flags r = 1 ∧
  ∃ t resolved s s',
    t ∈ generate_log_templates entropy ∧
    resolve_template_values t s = Returns resolved s' ∧
    severityNumber r = (severity t).1 ∧
    severityText r = (severity t).2 ∧
    body r = StringValue (message resolved) ∧
    otlp_attributes r = otlp_attribute <$> resolved_attributes resolved.

(** Entry [e] has the trace identifier drawn at [p] and the span identifier
    drawn right after it. *)
Definition entry_spec (i : Z) (p : nat) (e : LogEntry) : Prop :=
  trace_id e = trace_at p ∧ span_id e = span_at (S p).

(** The tree around the records. *)
Definition payload_of (self : TestLogGenerator) (host : Z) (environment : string)
    (log_records : list LogRecord) : Payload :=
  {| resourceLogs := [
    {| resource := {| resource_attributes := [
         {| key := "service.name"; value := StringValue (service_name self) |};
         {| key := "service.version"; value := StringValue (service_version self) |};
         {| key := "host.name"; value := StringValue ("host-" +:+ Str.format_02d host) |};
         {| key := "container.name"; value := StringValue (service_name self +:+ "-container") |};
         {| key := "deployment.environment"; value := StringValue environment |}] |};
       scopeLogs := [
         {| scope := {| scope_name := service_name self +:+ "-logger";
                        scope_version := "1.0.0" |};
            logRecords := log_records |}] |}] |}.

End BatchSpec.

(** All the records of a payload, in order. *)
Definition all_records (payload : Payload) : list LogRecord :=
  rl ← resourceLogs payload; sl ← scopeLogs rl; logRecords sl.

(** The severities of the catalog. *)
Definition severity_labels : list string := ["INFO"; "ERROR"; "DEBUG"; "FATAL"; "WARN"].




(** ** The canonical hit count

    Following the spec's words: the hit count of a search result, whether it
    appears as a scalar or as the [value] of a nested object (0 when the
    object has none). *)
Definition canonical_count (total : PyVal) : PyVal :=
  match total with
  | PDict d => default (PInt 0) (entries_get d (PStr "value"))
  | scalar => scalar
  end.

(** The aggregation request of [get_log_statistics] is answered in a way
    the operation can read: not with a 200, or with buckets that all hold a
    hashable [key] and a [doc_count]. *)
Definition aggregation_readable (reply : Reply) : Prop :=
  failed reply = true ∨
  ∃ response severity service,
    reply = Responded response ∧
    Verifier.distributions (json response) = Ok (severity, service).

(** ** Field coverage

    Following the spec's words: a document counts as present for a field
    when the field exists in its source with a non-null value. *)

Definition source_holds (d : list (PyVal * PyVal)) (field : string) : bool :=
  match entries_get d (PStr field) with
  | Some PNone => false
  | Some _ => true
  | None => false
  end.

Definition holds_field (field : string) (hit : PyVal) : bool :=
  match hit with
  | PDict h =>
      match default (PDict []) (entries_get h (PStr "_source")) with
      | PDict d => source_holds d field
      | _ => false
      end
  | _ => false
  end.

(** The number of documents that hold [field]. *)
Fixpoint documents_with (field : string) (hits : list PyVal) : Z :=
  match hits with
  | [] => 0
  | hit :: hits' => Z.b2z (holds_field field hit) + documents_with field hits'
  end.

(** The number of times [field] is listed. *)
Fixpoint multiplicity (field : string) (fields : list string) : Z :=
  match fields with
  | [] => 0
  | f :: fields' => Z.b2z (String.eqb f field) + multiplicity field fields'
  end.

(** A document as the search engine returns it: an object whose [_source],
    when it has one, is an object. *)
Definition document (hit : PyVal) : Prop :=
  ∃ h d, hit = PDict h ∧ default (PDict []) (entries_get h (PStr "_source")) = PDict d.

(** From [stats] to [stats'], the counters of every field [f] have grown by
    [dp f] and [dm f], and no field has come or gone. *)
Definition advanced (dp dm : string → Z)
    (stats stats' : gmap string Verifier.FieldStat) : Prop :=
  ∀ f, match stats !! f with
       | Some st => ∃ st', stats' !! f = Some st' ∧
                           Verifier.present st' = Verifier.present st + dp f ∧
                           Verifier.missing st' = Verifier.missing st + dm f
       | None => stats' !! f = None
       end.

(** ** Scraped metrics *)

(** The text of a line before its first space: all of it if it has none. *)
Fixpoint before_space (line : string) : string :=
  match line with
  | EmptyString => EmptyString
  | String c rest =>
      if Ascii.eqb c " " then EmptyString else String c (before_space rest)
  end.

(** The text of a line after its first space: nothing if it has none. *)
Fixpoint after_space (line : string) : string :=
  match line with
  | EmptyString => EmptyString
  | String c rest => if Ascii.eqb c " " then rest else after_space rest
  end.

Definition mentions_keyword (line : string) : bool :=
  Str.contains "dlq" (Str.lower line) || Str.contains "error" (Str.lower line).

(** The lines that [check_dlq_metrics] reads a metric from. *)
Definition scraped (line : string) : bool :=
  mentions_keyword line && negb (Str.startswith "#" line) && Str.contains " " line.

(** The metric read from a line: the name before the first space, and as
    value the text between the first space and the second. *)
Definition metric_of (line : string) : string * string :=
  (before_space line, before_space (after_space line)).

(** What one line does to the metrics read so far. *)
Definition scrape (metrics : gmap string string) (line : string) : gmap string string :=
  if scraped line then <[(metric_of line).1 := (metric_of line).2]> metrics else metrics.

(** Following the spec's words: the lines that do not start with the comment
    marker and contain a keyword, each split on its first space into a name
    and a value. *)
Definition selected (line : string) : bool :=
  negb (Str.startswith "#" line) && mentions_keyword line.

Definition split_on_first_space (line : string) : option (string * string) :=
  if Str.contains " " line then Some (before_space line, after_space line) else None.

Definition metrics_as_claimed (metrics_text : string) : gmap string string :=
  foldl (λ metrics line,
           if selected line then
             match split_on_first_space line with
             | Some (name, value) => <[name := value]> metrics
             | None => metrics
             end
           else metrics)
        ∅ (Str.split "010" metrics_text).

(** ** Concrete inputs for the examples *)

(** A search engine that answers every request with a 503. *)
Definition unavailable (n : nat) : Reply :=
  Responded {| status_code := 503; text := "Service Unavailable"; json := PNone |}.

(** A metrics page: a comment, a sample with a timestamp, a line without a
    keyword, and a keyword line without a space. *)
Definition metrics_page : Response :=
  {| status_code := 200;
     text := "# HELP dlq_total records sent to the DLQ" +:+ String "010"
             ("dlq_total 5 1700000000" +:+ String "010"
             ("records_in 12" +:+ String "010"
             "errors"));
     json := PNone |}.

(** One document with the field [a], found by a search. *)
Definition one_document : Response :=
  {| status_code := 200;
     text := "";
     json := PDict [(PStr "hits",
               PDict [(PStr "total", PDict [(PStr "value", PInt 1)]);
                      (PStr "hits",
                       PList [PDict [(PStr "_source",
                                      PDict [(PStr "a", PInt 1)])]])])] |}.

(** A search result whose hit count is nested: [hits.total.value = 5]. *)
Definition mocked_response : Response :=
  {| status_code := 200;
     text := "";
     json := PDict [(PStr "hits",
               PDict [(PStr "total", PDict [(PStr "value", PInt 5)]);
                      (PStr "hits", PList [])])] |}.

(** A search result whose hit count is a scalar: [hits.total = 7]. *)
Definition scalar_response : Response :=
  {| status_code := 200;
     text := "";
     json := PDict [(PStr "hits", PDict [(PStr "total", PInt 7)])] |}.

(** A random source: the [n]-th number handed out. *)
Definition sample_entropy (n : nat) : Z :=
  (Z.of_nat n + 1) * 0x9e3779b97f4a7c15f39cc0605cedc835.

(** [TestLogGenerator()] with the defaults of [__init__]. *)
Definition default_generator : Generator.TestLogGenerator :=
  {| Generator.service_name := "test-service"; Generator.service_version := "1.0.0" |}.

(** The first template of the catalog: its message names [user_id], its
    attributes are keyed [user.id]. *)
Definition login_template : Generator.Template :=
  {| Generator.severity := (9, "INFO");
     Generator.message_template := "User authentication successful for user_id={user_id}";
     Generator.attributes := [
       ("user.id", Generator.Callable (Generator.str_randint sample_entropy 10000 99999));
       ("action", Generator.Literal (Generator.VStr "login"))] |}.

(** The fifth template of the catalog, with two placeholders. *)
Definition slow_template : Generator.Template :=
  {| Generator.severity := (12, "WARN");
     Generator.message_template :=
       "High response time detected: {response_time}ms for endpoint {endpoint}";
     Generator.attributes := [
       ("response_time", Generator.Callable (Generator.str_randint sample_entropy 1000 5000));
       ("endpoint", Generator.Callable
          (Generator.str_choice sample_entropy ["/api/search"; "/api/checkout"; "/api/report"]));
       ("threshold", Generator.Literal (Generator.VStr "1000ms"))] |}.

(** A template whose message has a positional field. *)
Definition positional_template : Generator.Template :=
  {| Generator.severity := (9, "INFO");
     Generator.message_template := "Request {} failed";
     Generator.attributes := [("action", Generator.Literal (Generator.VStr "login"))] |}.

(** ** Vocabulary for the operations around the claims *)

(** A reply that [DataPrepperErrorTester.check_services] takes for a healthy
    service: any response with a status below 400. *)
Definition healthy (reply : Reply) : bool :=
  match reply with
  | Responded response => status_code response <? 400
  | RequestException _ => false
  end.

(** The [_source] of a hit, the empty object when it has none. *)
Definition source_of (hit : PyVal) : PyVal :=
  match hit with
  | PDict h => default (PDict []) (entries_get h (PStr "_source"))
  | _ => PDict []
  end.

Definition is_object (v : PyVal) : Prop := ∃ d, v = PDict d.

(** A search result with a hit that is not an object. *)
Definition malformed_hits : Response :=
  {| status_code := 200;
     text := "";
     json := PDict [(PStr "hits",
               PDict [(PStr "hits",
                       PList [PDict [(PStr "_source", PDict [(PStr "a", PInt 1)])];
                              PStr "oops"])])] |}.

(** A metrics page of a pipeline that has taken records in and put records
    out. *)
Definition pipeline_metrics : Response :=
  {| status_code := 200;
     text := "log_pipeline_recordsIn_total 4" +:+ String "010"
             "log_pipeline_recordsOut_total 4";
     json := PNone |}.

(** ** Placeholders and identifiers *)

(** The names of the replacement fields that [str.format] comes to when it
    scans [s] from state [st], in order. *)
Fixpoint placeholders_from (st : Generator.Scan) (s : string) : list string :=
  match s with
  | EmptyString => []
  | String c rest =>
      let in_field name :=
        match Generator.field_char name c with
        | Generator.Grow name' => placeholders_from (Generator.Field name') rest
        | Generator.Done name' => name' :: placeholders_from Generator.Text rest
        | _ => []
        end in
      match st with
      | Generator.Text =>
          if Ascii.eqb c "{" then placeholders_from Generator.Open rest
          else if Ascii.eqb c "}" then placeholders_from Generator.Close rest
          else placeholders_from Generator.Text rest
      | Generator.Close =>
          if Ascii.eqb c "}" then placeholders_from Generator.Text rest else []
      | Generator.Open =>
          if Ascii.eqb c "{" then placeholders_from Generator.Text rest
          else in_field EmptyString
      | Generator.Field name => in_field name
      end
  end.

Definition placeholders (template : string) : list string :=
  placeholders_from Generator.Text template.

(** The text that brought the scan into state [st]. *)
Definition scan_prefix (st : Generator.Scan) : string :=
  match st with
  | Generator.Text => ""
  | Generator.Open => "{"
  | Generator.Close => "}"
  | Generator.Field name => "{" +:+ name
  end.

(** A lowercase hexadecimal digit. *)
Definition is_hex (c : ascii) : bool :=
  let n := nat_of_ascii c in
  (Nat.leb 48 n && Nat.leb n 57) || (Nat.leb 97 n && Nat.leb n 102).

(** A field that [verify_log_transformation] accepts: present in the source
    with a value that is not falsy. *)
Definition field_usable (d : list (PyVal * PyVal)) (field : string) : bool :=
  match entries_get d (PStr field) with
  | Some v => truthy v
  | None => false
  end.

(** A document whose message is the empty string, and a search result
    with this document as its only hit. *)
Definition empty_message_source : list (PyVal * PyVal) :=
  [(PStr "@timestamp", PStr "2024-01-01T00:00:00Z");
   (PStr "service_name", PStr "integration-test-service");
   (PStr "service_version", PStr "1.0.0");
   (PStr "message", PStr "");
   (PStr "severity_text", PStr "INFO")].

Definition empty_message : Response :=
  {| status_code := 200;
     text := "";
     json := PDict [(PStr "hits",
               PDict [(PStr "hits",
                       PList [PDict [(PStr "_source", PDict empty_message_source)]])])] |}.

(** A run of the integration suite in which every step is answered as
    hoped, and the cleanup request that may follow is refused. *)
Definition complete_document : Response :=
  {| status_code := 200;
     text := "";
     json := PDict [(PStr "hits",
               PDict [(PStr "total", PDict [(PStr "value", PInt 4)]);
                      (PStr "hits",
                       PList [PDict [(PStr "_source",
                                PDict [(PStr "@timestamp", PStr "2024-01-01T00:00:00Z");
                                       (PStr "service_name", PStr "integration-test-service");
                                       (PStr "service_version", PStr "1.0.0");
                                       (PStr "message", PStr "Integration test log message");
                                       (PStr "severity_text", PStr "INFO")])]])])] |}.

Definition templates_listed : Response :=
  {| status_code := 200;
     text := "";
     json := PDict [(PStr "index_templates",
                     PList [PDict [(PStr "name", PStr "logs-template")]])] |}.


Definition acknowledged : Response :=
  {| status_code := 200; text := "OK"; json := PNone |}.

Definition refused : Response :=
  {| status_code := 500; text := "Internal Server Error"; json := PNone |}.

Definition passing_run (n : nat) : Reply :=
  match n with
  | 3%nat => Responded templates_listed
  | 6%nat | 7%nat => Responded complete_document
  | 8%nat => Responded pipeline_metrics
  | 9%nat => Responded refused
  | _ => Responded acknowledged
  end.


(** The log types that [create_test_log] has a branch for. *)
Definition log_types : list string :=
  ["valid"; "invalid_timestamp"; "missing_required_fields"; "oversized_document";
   "invalid_json_structure"; "grok_parse_failure"; "field_mapping_error";
   "unicode_encoding_error"].

(** The log types for which [create_test_log] puts a text of its own in the
    body, or no body at all. *)
Definition fixed_body_types : list string :=
  ["missing_required_fields"; "oversized_document"; "invalid_json_structure";
   "grok_parse_failure"; "unicode_encoding_error"].

(** A clock for the error tester, and a stand-in for the surrogate
    literal. *)
Definition sample_clock (drawn : nat) : Z := 1700000000000000000 + Z.of_nat drawn.

Definition sample_surrogates : string := "surrogates".

(** The string value of the attribute [k] of a record. *)
Definition attribute_of (r : LogRecord) (k : string) : option AnyValue :=
  value <$> find (λ kv, String.eqb (key kv) k) (otlp_attributes r).

(** A bucket of an aggregation: an object with the key [k] and the count
    [c]. *)
Definition bucket_holds (bucket : PyVal) (k : string) (c : PyVal) : Prop :=
  ∃ d, bucket = PDict d ∧
       entries_get d (PStr "key") = Some (PStr k) ∧
       entries_get d (PStr "doc_count") = Some c.

(** The buckets of an aggregation with two buckets for [ERROR], and an
    aggregation result in which a bucket has no count. *)
Definition sample_buckets : list PyVal :=
  [PDict [(PStr "key", PStr "ERROR"); (PStr "doc_count", PInt 3)];
   PDict [(PStr "key", PStr "INFO"); (PStr "doc_count", PInt 7)];
   PDict [(PStr "key", PStr "ERROR"); (PStr "doc_count", PInt 4)]].

Definition severity_buckets : PyVal :=
  PDict [(PStr "severity_distribution", PDict [(PStr "buckets", PList sample_buckets)])].

Definition info_bucket : PyVal :=
  PDict [(PStr "key", PStr "INFO"); (PStr "doc_count", PInt 7)].

Definition bad_buckets : PyVal :=
  PDict [(PStr "buckets", PList [info_bucket; PDict [(PStr "key", PStr "ERROR")]])].

Definition bad_aggregations : PyVal :=
  PDict [(PStr "severity_distribution", bad_buckets)].

Definition bucket_without_count : Response :=
  {| status_code := 200;
     text := "";
     json := PDict [(PStr "aggregations", bad_aggregations)] |}.

Definition statistics_then_bad_bucket (n : nat) : Reply :=
  match n with
  | O => Responded mocked_response
  | _ => Responded bucket_without_count
  end.

(** * Properties *)

(** ** Dictionaries *)

Section DictFacts.
Context {V : Type}.
Implicit Types (d : list (string * V)) (k : string) (v : V).

Lemma dict_get_set_eq d k v : dict_get (dict_set k v d) k = Some v.
Proof.
  induction d as [|[k' v'] d IH]; simpl.
  - by rewrite String.eqb_refl.
  - destruct (String.eqb k' k) eqn:E; simpl; rewrite E; done.
Qed.

Lemma dict_get_set_ne d k k' v : k ≠ k' → dict_get (dict_set k v d) k' = dict_get d k'.
Proof.
  intros Hne. induction d as [|[k0 v0] d IH]; simpl.
  - destruct (String.eqb k k') eqn:E; [|done].
    apply String.eqb_eq in E. done.
  - destruct (String.eqb k0 k) eqn:E; simpl.
    + apply String.eqb_eq in E. subst k0.
      destruct (String.eqb k k') eqn:E'; [|done].
      apply String.eqb_eq in E'. done.
    + by rewrite IH.
Qed.

Lemma dict_restrict_set (p : string → bool) d k v :
  dict_restrict p (dict_set k v d) =
  if p k then dict_set k v (dict_restrict p d) else dict_restrict p d.
Proof.
  induction d as [|[k' v'] d IH]; simpl.
  - by destruct (p k).
  - destruct (String.eqb k' k) eqn:E; simpl.
    + apply String.eqb_eq in E. subst k'.
      destruct (p k); simpl; [|done]. by rewrite String.eqb_refl.
    + rewrite IH. destruct (p k'), (p k); simpl; try done. by rewrite E.
Qed.

Lemma dict_get_restrict (p : string → bool) d k :
  dict_get (dict_restrict p d) k = if p k then dict_get d k else None.
Proof.
  induction d as [|[k' v'] d IH]; simpl.
  - by destruct (p k).
  - destruct (String.eqb k' k) eqn:E.
    + apply String.eqb_eq in E. subst k'.
      destruct (p k); simpl; [by rewrite String.eqb_refl | by rewrite IH].
    + destruct (p k'); simpl; rewrite ?E, IH; done.
Qed.

End DictFacts.

(** ** Strings *)

Lemma append_cons (x : ascii) (a b : string) : String x a +:+ b = String x (a +:+ b).
Proof. reflexivity. Qed.

Lemma append_empty (b : string) : "" +:+ b = b.
Proof. reflexivity. Qed.

Lemma append_assoc (a b c : string) : (a +:+ b) +:+ c = a +:+ (b +:+ c).
Proof.
  induction a as [|x a IH]; [done|].
  by rewrite !append_cons, IH.
Qed.

Lemma all_chars_app (p : ascii → bool) (a b : string) :
  Str.all_chars p (a +:+ b) = Str.all_chars p a && Str.all_chars p b.
Proof.
  induction a as [|x a IH]; [done|].
  rewrite append_cons. simpl. rewrite IH. by rewrite andb_assoc.
Qed.

(** ** [str.format] *)

Section FormatFacts.
Import Generator.
Variable kw : string → option Value.

Lemma emit_formatted v r o :
  emit v r = Formatted o → ∃ o', r = Formatted o' ∧ o = v +:+ o'.
Proof. destruct r; simpl; intros H; simplify_eq. eauto. Qed.

Lemma field_char_done name c name' :
  field_char name c = Done name' → c = "}"%char ∧ name' = name.
Proof.
  unfold field_char. destruct (Ascii.eqb c "}") eqn:E.
  - apply Ascii.eqb_eq in E. intros; by simplify_eq.
  - destruct (Ascii.eqb c "{"); [done|]. by destruct (is_path_or_spec c).
Qed.

Lemma field_char_grow name c name' :
  field_char name c = Grow name' →
  is_brace c = false ∧ is_path_or_spec c = false ∧ name' = name +:+ String c "".
Proof.
  unfold field_char, is_brace.
  destruct (Ascii.eqb c "}") eqn:E1; [done|].
  destruct (Ascii.eqb c "{") eqn:E2; [done|].
  destruct (is_path_or_spec c) eqn:E3; [done|].
  intros; by simplify_eq.
Qed.

Lemma get_value_ok name v :
  get_value kw name = Ok v →
  Str.all_chars Str.is_digit name = false ∧ ∃ x, kw name = Some x ∧ v = py_str x.
Proof.
  unfold get_value. destruct (Str.all_chars Str.is_digit name); [done|].
  destruct (kw name) as [x|]; [|done]. intros; simplify_eq. eauto.
Qed.

Lemma markup_substituted s : ∀ st o, markup kw st s = Formatted o → scanned kw st s o.
Proof.
  induction s as [|c rest IH]; intros st o H.
  { destruct st; simpl in H; simplify_eq. constructor. }
  assert (Hfield : ∀ name,
    match field_char name c with
    | Grow name' => markup kw (Field name') rest
    | Done name' =>
        match get_value kw name' with
        | Ok v => emit v (markup kw Text rest)
        | Raise e => FormatFails e
        end
    | Malformed => FormatFails ValueError
    | Beyond => FormatBeyond
    end = Formatted o →
    plain_name name = true → Substituted kw ("{" +:+ name +:+ String c rest) o).
  { intros name Hrun Hplain.
    destruct (field_char name c) as [name'|name'| |] eqn:Hstep; try done.
    - apply field_char_grow in Hstep as (Hb & Hp & ->).
      apply IH in Hrun. simpl in Hrun.
      rewrite append_assoc, append_cons, append_empty in Hrun. apply Hrun.
      unfold plain_name in *. rewrite all_chars_app, Hplain. simpl.
      by rewrite Hb, Hp.
    - apply field_char_done in Hstep as (-> & ->).
      destruct (get_value kw name) as [v|] eqn:Hv; [|done].
      apply get_value_ok in Hv as (Hdigits & x & Hx & ->).
      apply emit_formatted in Hrun as (o' & Hrest & ->).
      apply IH in Hrest.
      apply (subst_field kw name x rest o'); [|done..].
      unfold keyword_name. by rewrite Hdigits, Hplain. }
  destruct st as [| | |name]; simpl in H |- *.
  - destruct (Ascii.eqb c "{") eqn:E1.
    { apply Ascii.eqb_eq in E1 as ->. by apply IH in H. }
    destruct (Ascii.eqb c "}") eqn:E2.
    { apply Ascii.eqb_eq in E2 as ->. by apply IH in H. }
    apply emit_formatted in H as (o' & Hrest & ->).
    apply IH in Hrest. constructor; [|done].
    unfold is_brace. by rewrite E1, E2.
  - destruct (Ascii.eqb c "{") eqn:E1.
    + apply Ascii.eqb_eq in E1 as ->.
      apply emit_formatted in H as (o' & Hrest & ->).
      apply IH in Hrest. by apply (subst_open kw rest o').
    + by apply (Hfield "").
  - destruct (Ascii.eqb c "}") eqn:E1; [|done].
    apply Ascii.eqb_eq in E1 as ->.
    apply emit_formatted in H as (o' & Hrest & ->).
    apply IH in Hrest. by apply (subst_close kw rest o').
  - intros Hplain. by apply Hfield.
Qed.

Lemma py_format_substituted template o :
  py_format kw template = Formatted o → Substituted kw template o.
Proof. intros H. by apply markup_substituted in H. Qed.

Lemma emit_harmless v r : harmless r → harmless (emit v r).
Proof. by destruct r. Qed.

Lemma markup_harmless s :
  ∀ st o, markup (λ _, Some (VStr "")) st s = Formatted o → harmless (markup kw st s).
Proof.
  induction s as [|c rest IH]; intros st o H.
  { by destruct st. }
  assert (Hfield : ∀ name,
    match field_char name c with
    | Grow name' => markup (λ _, Some (VStr "")) (Field name') rest
    | Done name' =>
        match get_value (λ _, Some (VStr "")) name' with
        | Ok v => emit v (markup (λ _, Some (VStr "")) Text rest)
        | Raise e => FormatFails e
        end
    | Malformed => FormatFails ValueError
    | Beyond => FormatBeyond
    end = Formatted o →
    harmless
      match field_char name c with
      | Grow name' => markup kw (Field name') rest
      | Done name' =>
          match get_value kw name' with
          | Ok v => emit v (markup kw Text rest)
          | Raise e => FormatFails e
          end
      | Malformed => FormatFails ValueError
      | Beyond => FormatBeyond
      end).
  { intros name Hrun.
    destruct (field_char name c) as [name'|name'| |]; try done.
    - by eapply IH.
    - unfold get_value in *.
      destruct (Str.all_chars Str.is_digit name'); [done|].
      apply emit_formatted in Hrun as (o' & Hrest & _).
      destruct (kw name'); [|done].
      apply emit_harmless. by eapply IH. }
  destruct st as [| | |name]; simpl in H |- *.
  - destruct (Ascii.eqb c "{"); [by eapply IH|].
    destruct (Ascii.eqb c "}"); [by eapply IH|].
    apply emit_formatted in H as (o' & Hrest & _).
    apply emit_harmless. by eapply IH.
  - destruct (Ascii.eqb c "{"); [|by apply Hfield].
    apply emit_formatted in H as (o' & Hrest & _).
    apply emit_harmless. by eapply IH.
  - destruct (Ascii.eqb c "}"); [|done].
    apply emit_formatted in H as (o' & Hrest & _).
    apply emit_harmless. by eapply IH.
  - by apply Hfield.
Qed.

Lemma well_formed_harmless template :
  well_formed template = true → harmless (py_format kw template).
Proof.
  unfold well_formed. intros H.
  destruct (py_format (λ _, Some (VStr "")) template) as [o| |] eqn:E; try done.
  by eapply markup_harmless.
Qed.

End FormatFacts.

(** ** The generator monad *)

Section MonadFacts.
Import Generator.

Lemma bind_returns {A B : Type} (m : M A) (k : A → M B) s a s1 :
  m s = Returns a s1 → (m ≫= k) s = k a s1.
Proof. intros H. unfold mbind, M_bind. by rewrite H. Qed.

Lemma bind_inv {A B : Type} (m : M A) (k : A → M B) s b s' :
  (m ≫= k) s = Returns b s' → ∃ a s1, m s = Returns a s1 ∧ k a s1 = Returns b s'.
Proof.
  unfold mbind, M_bind. destruct (m s) as [a s1| |]; [|done..]. eauto.
Qed.

Lemma total_ret {A : Type} (a : A) : total (mret a).
Proof. intros s. exists a, s. split; [done | lia]. Qed.

Lemma total_bind {A B : Type} (m : M A) (k : A → M B) :
  total m → (∀ a, total (k a)) → total (m ≫= k).
Proof.
  intros Hm Hk s.
  destruct (Hm s) as (a & s1 & Ha & Hle).
  destruct (Hk a s1) as (b & s2 & Hb & Hle').
  exists b, s2. rewrite (bind_returns _ _ _ _ _ Ha). split; [done | lia].
Qed.

Variable entropy : nat → Z.

Lemma randint_returns a b s :
  a ≤ b →
  ∃ n, randint entropy a b s = Returns n (S s) ∧ a ≤ n ≤ b.
Proof.
  intros Hab. unfold randint.
  destruct (b <? a) eqn:E; [lia|].
  eexists; split; [done|].
  pose proof (Z.mod_pos_bound (entropy s) (b - a + 1)). lia.
Qed.

Lemma choice_returns {A : Type} (seq : list A) s :
  seq ≠ [] →
  ∃ x, choice entropy seq s = Returns x (S s) ∧ x ∈ seq.
Proof.
  intros Hne. unfold choice.
  assert (0 < Z.of_nat (length seq)) as Hlen by (destruct seq; [done | simpl; lia]).
  pose proof (Z.mod_pos_bound (entropy s) _ Hlen) as Hbound.
  destruct (lookup_lt_is_Some_2 seq (Z.to_nat (entropy s `mod` Z.of_nat (length seq))))
    as [x Hx]; [lia|].
  rewrite Hx. exists x. split; [done|].
  by eapply list_elem_of_lookup_2.
Qed.

Lemma total_randint a b : a ≤ b → total (randint entropy a b).
Proof.
  intros Hab s. destruct (randint_returns a b s Hab) as (n & Hn & _).
  exists n, (S s). split; [done | lia].
Qed.

Lemma total_choice {A : Type} (seq : list A) : seq ≠ [] → total (choice entropy seq).
Proof.
  intros Hne s. destruct (choice_returns seq s Hne) as (x & Hx & _).
  exists x, (S s). split; [done | lia].
Qed.

Lemma total_uuid4_hex : total (uuid4_hex entropy).
Proof. intros s. eexists _, (S s). split; [done | lia]. Qed.

End MonadFacts.

Ltac solve_total :=
  repeat first
    [ apply total_ret
    | apply total_uuid4_hex
    | apply total_randint; lia
    | apply total_choice; discriminate
    | apply total_bind; [|intros ?] ].

(** ** [resolve_template_values] *)

Section ResolveFacts.
Import Generator.

Lemma Substituted_mono (values values' : string → option Value) t o :
  (∀ name v, values name = Some v → values' name = Some v) →
  Substituted values t o → Substituted values' t o.
Proof.
  intros Hsub. induction 1; try by constructor.
  apply subst_field; auto.
Qed.

(** [format_values] holds the resolved attributes that the template
    mentions, and nothing else. *)
Lemma resolve_items_restrict template items :
  ∀ resolved format_values s resolved' format_values' s',
    resolve_items template items resolved format_values s
      = Returns (resolved', format_values') s' →
    format_values = dict_restrict (mentions template) resolved →
    format_values' = dict_restrict (mentions template) resolved'.
Proof.
  induction items as [|[k spec] items IH]; intros ra fv s ra' fv' s' Hrun Hinv.
  { simpl in Hrun. unfold mret, M_ret in Hrun. by simplify_eq. }
  destruct spec as [v|f]; simpl in Hrun.
  - eapply IH; [exact Hrun|].
    rewrite dict_restrict_set, Hinv. by destruct (mentions template k).
  - apply bind_inv in Hrun as (actual_value & s1 & _ & Hrun).
    eapply IH; [exact Hrun|].
    rewrite dict_restrict_set, Hinv. by destruct (mentions template k).
Qed.

Lemma resolve_items_total template items :
  Forall (λ item, match item.2 with
                  | Callable f => total f
                  | Literal _ => True
                  end) items →
  ∀ resolved format_values, total (resolve_items template items resolved format_values).
Proof.
  induction 1 as [|[k spec] items Hspec _ IH]; intros ra fv; simpl.
  { apply total_ret. }
  destruct spec as [v|f]; [apply IH|].
  apply total_bind; [done|]. intros a. apply IH.
Qed.

Lemma format_message_inv template resolved format_values s r s' :
  format_message template resolved format_values s = Returns r s' →
  s' = s ∧ resolved_attributes r = resolved ∧
  resolved_severity r = severity template ∧
  resolved_message_template r = message_template template ∧
  match py_format (dict_get format_values) (message_template template) with
  | Formatted msg => message r = msg
  | FormatFails (KeyError _) => message r = message_template template
  | _ => False
  end.
Proof.
  unfold format_message, mret, M_ret.
  destruct (py_format _ _) as [msg|[]|]; intros H; by simplify_eq.
Qed.

Lemma resolve_template_values_total template :
  sound_template template →
  ∀ s, ∃ r s', resolve_template_values template s = Returns r s' ∧ (s ≤ s')%nat ∧
               resolved_severity r = severity template.
Proof.
  intros [Hwf Hattrs] s.
  destruct (resolve_items_total (message_template template) _ Hattrs [] [] s)
    as ([ra fv] & s1 & Hitems & Hle).
  unfold resolve_template_values. rewrite (bind_returns _ _ _ _ _ Hitems). simpl.
  pose proof (well_formed_harmless (dict_get fv) _ Hwf) as Hfmt.
  unfold format_message, mret, M_ret.
  destruct (py_format _ _) as [msg|[]|]; try done; eauto.
Qed.

End ResolveFacts.

Section ResolveClaims.
Import Generator.

(** C3: whenever [resolve_template_values] returns, its message is either
    the template text unchanged, or the template in which every named
    placeholder is replaced by the resolved attribute of that name; a
    message with some placeholders replaced and others left is not a
    possible result. *)
Theorem resolve_message_all_or_nothing template s r s' :
  resolve_template_values template s = Returns r s' →
  message r = message_template template ∨
  Substituted (dict_get (resolved_attributes r)) (message_template template) (message r).
Proof.
  unfold resolve_template_values. intros Hrun.
  apply bind_inv in Hrun as ([ra fv] & s1 & Hitems & Hfmt). simpl in Hfmt.
  apply resolve_items_restrict in Hitems; [|done].
  apply format_message_inv in Hfmt as (_ & Hattrs & _ & _ & Hmsg).
  destruct (py_format (dict_get fv) (message_template template)) as [msg|e|] eqn:E.
  - right. rewrite Hmsg, Hattrs.
    apply py_format_substituted in E.
    eapply Substituted_mono; [|exact E].
    intros name v. rewrite Hitems, dict_get_restrict.
    by destruct (mentions (message_template template) name).
  - left. by destruct e.
  - done.
Qed.

Lemma resolve_message_all_or_nothing_witness :
  ∃ r s',
    resolve_template_values slow_template 0%nat = Returns r s' ∧
    (message r = message_template slow_template ∨
     Substituted (dict_get (resolved_attributes r))
       (message_template slow_template) (message r)).
Proof.
  eexists _, _. split; [vm_compute; reflexivity|].
  apply (resolve_message_all_or_nothing slow_template 0%nat _ 2%nat).
  vm_compute. reflexivity.
Defined.

(** The handler of [resolve_template_values] is written for a missing key:
    on a format string whose substitution fails in another way (a positional
    field, an unbalanced brace) the failure reaches the caller.  No caller
    passes such a format string: [generate_otlp_logs] and
    [generate_structured_logs] pass templates of the catalog only. *)
Lemma other_failures_propagate template s resolved format_values s' e :
  resolve_items (message_template template) (attributes template) [] [] s
    = Returns (resolved, format_values) s' →
  py_format (dict_get format_values) (message_template template) = FormatFails e →
  (∀ k, e ≠ KeyError k) →
  resolve_template_values template s = Raises e.
Proof.
  intros Hitems Hfmt Hother. unfold resolve_template_values.
  rewrite (bind_returns _ _ _ _ _ Hitems). simpl.
  unfold format_message. rewrite Hfmt.
  destruct e as [k| | | |]; [by destruct (Hother k) | done..].
Qed.

Lemma positional_field_is_not_caught :
  ∀ s, resolve_template_values positional_template s = Raises IndexError.
Proof.
  intros s.
  apply (other_failures_propagate positional_template s
           [("action", VStr "login")] [] s IndexError); done.
Qed.

End ResolveClaims.

(** ** The template catalog and the loops *)

Section CatalogFacts.
Import Generator.
Variable entropy : nat → Z.

Lemma catalog_sound : Forall sound_template (generate_log_templates entropy).
Proof.
  unfold generate_log_templates, str_randint, str_choice.
  repeat apply Forall_cons_2; [..|apply Forall_nil_2];
    (split; [vm_compute; reflexivity|]);
    simpl; repeat apply Forall_cons_2; try apply Forall_nil_2; simpl; try exact I;
    solve_total.
Qed.

(** C4: whenever the substitution of placeholders fails,
    [resolve_template_values] does not raise and returns the template text
    verbatim as the message.  For every template this holds of the failure
    that the spec names, a placeholder without a value (a [KeyError]).  For
    every template that the operation receives, which are those of the
    catalog, it holds whatever the random source: the operation returns,
    and its message is the template text whenever the substitution did not
    succeed. *)
Theorem resolve_falls_back_when_substitution_fails :
  (∀ template s resolved format_values s' k,
     resolve_items (message_template template) (attributes template) [] [] s
       = Returns (resolved, format_values) s' →
     py_format (dict_get format_values) (message_template template)
       = FormatFails (KeyError k) →
     ∃ r, resolve_template_values template s = Returns r s' ∧
          message r = message_template template ∧
          resolved_attributes r = resolved) ∧
  (∀ template s,
     template ∈ generate_log_templates entropy →
     ∃ resolved format_values r s',
       resolve_items (message_template template) (attributes template) [] [] s
         = Returns (resolved, format_values) s' ∧
       resolve_template_values template s = Returns r s' ∧
       resolved_attributes r = resolved ∧
       ((∀ msg, py_format (dict_get format_values) (message_template template)
                ≠ Formatted msg) →
        message r = message_template template)).
Proof.
  split.
  - intros template s resolved format_values s' k Hitems Hfmt.
    unfold resolve_template_values.
    rewrite (bind_returns _ _ _ _ _ Hitems). simpl.
    unfold format_message. rewrite Hfmt.
    eexists. split; [done|]. done.
  - intros template s Hin.
    destruct (proj1 (Forall_forall _ _) catalog_sound template Hin) as [Hwf Hattrs].
    destruct (resolve_items_total (message_template template) _ Hattrs [] [] s)
      as ([resolved format_values] & s' & Hitems & _).
    pose proof (well_formed_harmless (dict_get format_values) _ Hwf) as Hfmt.
    unfold resolve_template_values.
    rewrite (bind_returns _ _ _ _ _ Hitems). simpl.
    unfold format_message, mret, M_ret.
    destruct (py_format (dict_get format_values) (message_template template))
      as [msg|[k| | | |]|] eqn:E; try done.
    + eexists resolved, format_values, _, s'.
      split; [done|]. split; [done|]. split; [done|].
      intros Hfails. by destruct (Hfails msg).
    + eexists resolved, format_values, _, s'.
      split; [done|]. split; [done|]. split; done.
Qed.

Lemma catalog_labels t :
  t ∈ generate_log_templates entropy →
  (severity t).2 ∈ severity_labels ∧ (severity t).2 ≠ "".
Proof.
  unfold generate_log_templates, severity_labels. rewrite !elem_of_cons, elem_of_nil.
  intros [->|[->|[->|[->|[->|[->|[]]]]]]]; simpl;
    (split; [auto 10 | done]).
Qed.

(** A loop whose body always returns and draws at least one number returns
    one result per element; [q x p b] relates the element, one of the
    positions the body drew at, and the result. *)
Lemma for_each_spec {A B : Type} (body : A → M B) (q : A → nat → B → Prop) xs :
  (∀ x s, ∃ b s' p, body x s = Returns b s' ∧ (s ≤ p < s')%nat ∧ q x p b) →
  ∀ s, ∃ bs s' ps,
    for_each body xs s = Returns bs s' ∧ (s ≤ s')%nat ∧
    Forall3 q xs ps bs ∧
    Forall (λ p, (s ≤ p < s')%nat) ps ∧
    StronglySorted lt ps.
Proof.
  intros Hbody. induction xs as [|x xs IH]; intros s; simpl.
  { exists [], s, []. repeat split; by constructor. }
  destruct (Hbody x s) as (b & s1 & p & Hb & Hp & Hq).
  destruct (IH s1) as (bs & s2 & ps & Hbs & Hle & Hqs & Hps & Hsorted).
  exists (b :: bs), s2, (p :: ps).
  rewrite (bind_returns _ _ _ _ _ Hb), (bind_returns _ _ _ _ _ Hbs).
  repeat split; try done.
  - lia.
  - by constructor.
  - constructor; [lia|]. eapply Forall_impl; [exact Hps|]. simpl. lia.
  - constructor; [done|]. eapply Forall_impl; [exact Hps|]. simpl. lia.
Qed.

End CatalogFacts.

Lemma resolve_falls_back_when_substitution_fails_witness :
  (∃ r, Generator.resolve_template_values login_template 0%nat = Generator.Returns r 1%nat ∧
        Generator.message r = "User authentication successful for user_id={user_id}" ∧
        Generator.resolved_attributes r
          = [("user.id", Generator.VStr "73109"); ("action", Generator.VStr "login")]) ∧
  (∃ t r s',
     Generator.generate_log_templates sample_entropy !! 0%nat = Some t ∧
     Generator.resolve_template_values t 0%nat = Generator.Returns r s' ∧
     Generator.message r = "User authentication successful for user_id={user_id}").
Proof.
  split.
  - apply (proj1 (resolve_falls_back_when_substitution_fails sample_entropy)
             login_template 0%nat _ [] 1%nat "user_id").
    + vm_compute. reflexivity.
    + vm_compute. reflexivity.
  - destruct (Generator.generate_log_templates sample_entropy) as [|t rest] eqn:Ecat;
      [discriminate|].
    pose proof (proj2 (resolve_falls_back_when_substitution_fails sample_entropy) t 0%nat)
      as H.
    rewrite Ecat in H.
    destruct (H (list_elem_of_here _ _))
      as (resolved & format_values & r & s' & Hitems & Hrun & _ & Hfalls).
    exists t, r, s'. split; [done|]. split; [done|].
    unfold Generator.generate_log_templates in Ecat. injection Ecat as Et _.
    subst t. vm_compute in Hitems. injection Hitems as _ <- _.
    rewrite Hfalls; [reflexivity|].
    intros msg. vm_compute. discriminate.
Defined.

(** ** The synthesizers *)

Section BatchFacts.
Import Generator.
Variable entropy : nat → Z.
Variable time_ns : Z.

Lemma otlp_log_record_spec trace i s :
  ∃ r s' p,
    otlp_log_record entropy time_ns (generate_log_templates entropy) trace i s
      = Returns r s' ∧
    (s ≤ p < s')%nat ∧ record_spec entropy time_ns trace i p r.
Proof.
  destruct (choice_returns entropy (generate_log_templates entropy) s)
    as (t & Ht & Hin); [done|].
  pose proof (catalog_sound entropy) as Hsound.
  rewrite Forall_forall in Hsound.
  destruct (resolve_template_values_total t (Hsound t Hin) (S s))
    as (resolved & s1 & Hres & Hle & Hsev).
  eexists _, (S s1), s1. unfold otlp_log_record.
  rewrite (bind_returns _ _ _ _ _ Ht), (bind_returns _ _ _ _ _ Hres).
  split; [reflexivity|]. split; [lia|].
  repeat split; simpl.
  exists t, resolved, (S s), s1. by rewrite Hsev.
Qed.

Lemma generate_otlp_logs_spec self num_logs trace s :
  ∃ records s' ps host environment,
    generate_otlp_logs entropy time_ns self num_logs trace s
      = Returns (payload_of self host environment records) s' ∧
    1 ≤ host ≤ 10 ∧
    environment ∈ ["development"; "staging"; "production"] ∧
    Forall3 (record_spec entropy time_ns
               (match trace with Some t => t | None => trace_at entropy s end))
            (seqZ 0 num_logs) ps records ∧
    Forall (λ p, (match trace with Some _ => s | None => S s end ≤ p)%nat) ps ∧
    StronglySorted lt ps.
Proof.
  set (trace_id := match trace with Some t => t | None => trace_at entropy s end).
  set (s0 := match trace with Some _ => s | None => S s end).
  assert (Htrace : (match trace with None => uuid4_hex entropy | Some t => mret t end) s
                   = Returns trace_id s0) by (by destruct trace).
  destruct (for_each_spec
              (otlp_log_record entropy time_ns (generate_log_templates entropy) trace_id)
              (record_spec entropy time_ns trace_id) (seqZ 0 num_logs)
              (otlp_log_record_spec trace_id) s0)
    as (records & s1 & ps & Hrecords & _ & Hspec & Hps & Hsorted).
  destruct (randint_returns entropy 1 10 s1) as (host & Hhost & Hrange); [lia|].
  destruct (choice_returns entropy ["development"; "staging"; "production"] (S s1))
    as (environment & Henv & Hin); [done|].
  exists records, (S (S s1)), ps, host, environment.
  unfold generate_otlp_logs.
  rewrite (bind_returns _ _ _ _ _ Htrace), (bind_returns _ _ _ _ _ Hrecords),
    (bind_returns _ _ _ _ _ Hhost), (bind_returns _ _ _ _ _ Henv).
  repeat split; try done; try lia.
  eapply Forall_impl; [exact Hps|]. simpl. lia.
Qed.

Variable isoformat_now : Z → string.

Lemma structured_log_entry_spec self i s :
  ∃ e s' p,
    structured_log_entry entropy isoformat_now self (generate_log_templates entropy) i s
      = Returns e s' ∧
    (s ≤ p < s')%nat ∧ entry_spec entropy i p e.
Proof.
  destruct (choice_returns entropy (generate_log_templates entropy) s)
    as (t & Ht & Hin); [done|].
  pose proof (catalog_sound entropy) as Hsound.
  rewrite Forall_forall in Hsound.
  destruct (resolve_template_values_total t (Hsound t Hin) (S s))
    as (resolved & s1 & Hres & Hle & Hsev).
  eexists _, (S (S s1)), s1. unfold structured_log_entry.
  rewrite (bind_returns _ _ _ _ _ Ht), (bind_returns _ _ _ _ _ Hres).
  split; [reflexivity|]. split; [lia|]. done.
Qed.

Lemma all_records_payload_of self host environment records :
  all_records (payload_of self host environment records) = records.
Proof. unfold all_records. simpl. by rewrite !app_nil_r. Qed.


End BatchFacts.

Section ListFacts.
Context {A B C : Type}.

Lemma Forall3_Forall_r (P : A → B → C → Prop) (Q : C → Prop) l k k' :
  (∀ x y z, P x y z → Q z) → Forall3 P l k k' → Forall Q k'.
Proof. intros HPQ. induction 1; constructor; eauto. Qed.

Lemma Forall3_Forall2_rm (P : A → B → C → Prop) (Q : C → B → Prop) l k k' :
  (∀ x y z, P x y z → Q z y) → Forall3 P l k k' → Forall2 Q k' k.
Proof. intros HPQ. induction 1; constructor; eauto. Qed.

End ListFacts.

Section BatchClaims.
Import Generator.

(** C1: for every count [num_logs >= 0], one call of [generate_otlp_logs]
    returns a tree with one resource entry and one scope holding exactly
    [num_logs] records; the severity text of every record is a non-empty
    label among INFO, ERROR, DEBUG, FATAL and WARN, it comes with the
    severity number of the same catalog template, and the body of every
    record is a string value. *)
Theorem otlp_batch_records entropy time_ns self num_logs trace s :
  0 ≤ num_logs →
  ∃ payload s' resource_ scope_ records,
    generate_otlp_logs entropy time_ns self num_logs trace s = Returns payload s' ∧
    resourceLogs payload =
      [{| resource := resource_;
          scopeLogs := [{| scope := scope_; logRecords := records |}] |}] ∧
    Z.of_nat (length records) = num_logs ∧
    Forall (λ r,
      severityText r ≠ "" ∧
      severityText r ∈ severity_labels ∧
      (∃ t, t ∈ generate_log_templates entropy ∧
            severity t = (severityNumber r, severityText r)) ∧
      ∃ m, body r = StringValue m) records.
Proof.
  intros Hn.
  destruct (generate_otlp_logs_spec entropy time_ns self num_logs trace s)
    as (records & s' & ps & host & environment & Hrun & _ & _ & Hspec & _).
  eexists _, s', _, _, records. split; [exact Hrun|].
  split; [reflexivity|]. split.
  - apply Forall3_length_lr in Hspec. rewrite <- Hspec, length_seqZ. lia.
  - eapply Forall3_Forall_r; [|exact Hspec].
    intros i p r (_ & _ & _ & _ & _ & t & resolved & s0 & s1 & Hin & _ & Hnum & Htext & Hbody & _).
    destruct (catalog_labels entropy t Hin) as [Hlabel Hne].
    rewrite <- Htext in Hlabel, Hne.
    repeat split.
    + done.
    + done.
    + exists t. split; [done|]. rewrite Hnum, Htext. by destruct (severity t).
    + eauto.
Qed.

Lemma otlp_batch_records_witness :
  0 ≤ 3 ∧
  ∃ payload s' resource_ scope_ records,
    generate_otlp_logs sample_entropy 1700000000000000000 default_generator 3 None 0%nat
      = Returns payload s' ∧
    resourceLogs payload =
      [{| resource := resource_;
          scopeLogs := [{| scope := scope_; logRecords := records |}] |}] ∧
    Z.of_nat (length records) = 3 ∧
    Forall (λ r,
      severityText r ≠ "" ∧
      severityText r ∈ severity_labels ∧
      (∃ t, t ∈ generate_log_templates sample_entropy ∧
            severity t = (severityNumber r, severityText r)) ∧
      ∃ m, body r = StringValue m) records.
Proof.
  split; [lia|].
  apply (otlp_batch_records sample_entropy 1700000000000000000 default_generator 3 None 0%nat).
  lia.
Defined.

(** C2 (amended): all the records of one call of [generate_otlp_logs] carry
    the same trace identifier: the one supplied, or else the one identifier
    drawn before the loop; every record has a span identifier drawn at a
    position of the random source of its own, after the trace identifier.
    [generate_structured_logs] takes no trace identifier: every entry has a
    trace identifier and a span identifier drawn at positions of its own. *)
Theorem trace_identifier_of_a_batch entropy time_ns isoformat_now self num_logs trace s :
  (∃ payload s' ps,
      generate_otlp_logs entropy time_ns self num_logs trace s = Returns payload s' ∧
      Forall (λ r, traceId r = match trace with
                                 | Some t => t
                                 | None => trace_at entropy s
                                 end) (all_records payload) ∧
      Forall2 (λ r p, spanId r = span_at entropy p) (all_records payload) ps ∧
      Forall (λ p, (match trace with Some _ => s | None => S s end ≤ p)%nat) ps ∧
      StronglySorted lt ps) ∧
  (∃ entries s' ps,
      generate_structured_logs entropy isoformat_now self num_logs s = Returns entries s' ∧
      Forall2 (λ e p, trace_id e = trace_at entropy p ∧ span_id e = span_at entropy (S p))
              entries ps ∧
      Forall (λ p, (s ≤ p)%nat) ps ∧
      StronglySorted lt ps).
Proof.
  split.
  - destruct (generate_otlp_logs_spec entropy time_ns self num_logs trace s)
      as (records & s' & ps & host & environment & Hrun & _ & _ & Hspec & Hps & Hsorted).
    exists (payload_of self host environment records), s', ps.
    rewrite all_records_payload_of. repeat split; try done.
    + eapply Forall3_Forall_r; [|exact Hspec]. by intros i p r (_ & _ & ? & _).
    + eapply Forall3_Forall2_rm; [|exact Hspec]. by intros i p r (_ & _ & _ & ? & _).
  - destruct (for_each_spec
                (structured_log_entry entropy isoformat_now self (generate_log_templates entropy))
                (entry_spec entropy) (seqZ 0 num_logs)
                (structured_log_entry_spec entropy isoformat_now self) s)
      as (entries & s' & ps & Hrun & _ & Hspec & Hps & Hsorted).
    exists entries, s', ps. repeat split; try done.
    + eapply Forall3_Forall2_rm; [|exact Hspec]. by intros i p e.
    + eapply Forall_impl; [exact Hps|]. simpl. lia.
Qed.

(** C2 (as stated) fails on [generate_structured_logs]: the two entries of
    one call carry different trace identifiers. *)
Lemma structured_entries_do_not_share_a_trace :
  ∃ e1 e2 s',
    generate_structured_logs sample_entropy (λ _, "2024-01-01T00:00:00+00:00")
      default_generator 2 0%nat = Returns [e1; e2] s' ∧
    trace_id e1 ≠ trace_id e2.
Proof.
  eexists _, _, _. split; [vm_compute; reflexivity|].
  vm_compute. discriminate.
Qed.



(** C10: in every batch of [generate_otlp_logs], the attributes of a record
    are the resolved attributes of a catalog template, each value wrapped as
    the string value of its [str]; the two time fields of a record are
    equal; and the record at index [i] is stamped with the start time plus
    [i] times 1,000,000, so that each record is stamped 1,000,000 after the
    one before it. *)
Theorem otlp_attributes_and_timestamps entropy time_ns self num_logs trace s :
  ∃ payload s',
    generate_otlp_logs entropy time_ns self num_logs trace s = Returns payload s' ∧
    ∀ (i : nat) r, all_records payload !! i = Some r →
      (∃ t resolved s0 s1,
          t ∈ generate_log_templates entropy ∧
          resolve_template_values t s0 = Returns resolved s1 ∧
          otlp_attributes r =
            (λ item, {| key := item.1; value := StringValue (py_str item.2) |})
              <$> resolved_attributes resolved) ∧
      Forall (λ kv, ∃ v, value kv = StringValue (py_str v)) (otlp_attributes r) ∧
      observedTimeUnixNano r = timeUnixNano r ∧
      timeUnixNano r = pretty (time_ns + Z.of_nat i * 1000000) ∧
      ∀ r', all_records payload !! S i = Some r' →
        timeUnixNano r' = pretty (time_ns + Z.of_nat i * 1000000 + 1000000) ∧
        timeUnixNano r' ≠ timeUnixNano r.
Proof.
  destruct (generate_otlp_logs_spec entropy time_ns self num_logs trace s)
    as (records & s' & ps & host & environment & Hrun & _ & _ & Hspec & _).
  exists (payload_of self host environment records), s'. split; [done|].
  rewrite all_records_payload_of.
  assert (Hat : ∀ (i : nat) r, records !! i = Some r →
    ∃ p, record_spec entropy time_ns
           (match trace with Some t => t | None => trace_at entropy s end)
           (Z.of_nat i) p r).
  { intros i r Hr.
    destruct (Forall3_lookup_r _ _ _ _ _ _ Hspec Hr) as (x & p & Hx & _ & Hq).
    apply lookup_seqZ in Hx as [-> _]. by exists p. }
  intros i r Hr.
  destruct (Hat i r Hr) as
    (p & Htime & Hobs & _ & _ & _ & t & resolved & s0 & s1 & Hin & Hres & _ & _ & _ & Hattrs).
  repeat split.
  - by exists t, resolved, s0, s1.
  - rewrite Hattrs. apply Forall_fmap, Forall_forall. intros [k v] _. by exists v.
  - by rewrite Hobs, Htime.
  - done.
  - destruct (Hat (S i) r' H) as (p' & Htime' & _). rewrite Htime'. f_equal. lia.
  - destruct (Hat (S i) r' H) as (p' & Htime' & _). rewrite Htime', Htime.
    intros Heq. apply (inj pretty) in Heq. lia.
Qed.

End BatchClaims.

(** ** Failed requests *)

Section FailureFacts.
Variable peer : nat → Reply.
Variable repr : PyVal → string.

Lemma request_run n : request peer n = (Ok (peer n), S n).
Proof. reflexivity. Qed.

Lemma io_bind_ok {A B : Type} (m : IO A) (k : A → IO B) n a n' :
  m n = (Ok a, n') → (m ≫= k) n = k a n'.
Proof. intros H. unfold mbind, IO_bind. by rewrite H. Qed.

Lemma io_bind_raise {A B : Type} (m : IO A) (k : A → IO B) n e n' :
  m n = (Raise e, n') → (m ≫= k) n = (Raise e, n').
Proof. intros H. unfold mbind, IO_bind. by rewrite H. Qed.

Lemma failed_status response :
  failed (Responded response) = true → (status_code response =? 200) = false.
Proof. simpl. by destruct (status_code response =? 200). Qed.

Lemma search_logs_failed n :
  failed (peer n) = true →
  ∃ message,
    Verifier.search_logs peer n
      = (Ok (false, PDict [(PStr "error", PStr message)]), S n).
Proof.
  intros Hfail. unfold Verifier.search_logs.
  rewrite (io_bind_ok _ _ _ _ _ (request_run n)).
  destruct (peer n) as [response|what]; [|by eexists].
  rewrite (failed_status _ Hfail). by eexists.
Qed.

Lemma wait_attempts_spec attempts :
  ∀ n, ∃ b n',
    Integration.wait_attempts peer attempts n = (Ok b, n') ∧
    (n ≤ n' ≤ n + attempts)%nat ∧
    (b = true →
       (n < n')%nat ∧ failed (peer (n' - 1)%nat) = false ∧
       ∀ i, (n ≤ i < n' - 1)%nat → failed (peer i) = true) ∧
    (b = false →
       n' = (n + attempts)%nat ∧
       ∀ i, (n ≤ i < n')%nat → failed (peer i) = true).
Proof.
  induction attempts as [|attempts IH]; intros n.
  { exists false, n. simpl. unfold mret, IO_ret.
    repeat split; try done; try lia; intros; lia. }
  destruct (IH (S n)) as (b & n' & Hrun & Hle & Htrue & Hfalse).
  cbn [Integration.wait_attempts].
  rewrite (io_bind_ok _ _ _ _ _ (request_run n)).
  destruct (failed (peer n)) eqn:Hfail.
  - exists b, n'. split.
    { destruct (peer n) as [response|what]; [|done].
      by rewrite (failed_status _ Hfail). }
    split; [lia|]. split.
    + intros Hb. destruct (Htrue Hb) as (Hlt & Hlast & Hbefore).
      repeat split; [lia | done |].
      intros i Hi. destruct (decide (i = n)) as [->|]; [done|]. apply Hbefore. lia.
    + intros Hb. destruct (Hfalse Hb) as (-> & Hall).
      split; [lia|].
      intros i Hi. destruct (decide (i = n)) as [->|]; [done|]. apply Hall. lia.
  - exists true, (S n). split.
    { destruct (peer n) as [response|what]; [|done]. simpl in Hfail.
      by destruct (status_code response =? 200). }
    split; [lia|]. split; [|done].
    intros _. replace (S n - 1)%nat with n by lia.
    repeat split; [lia | done |]. intros i Hi. lia.
Qed.

Lemma wait_attempts_all_failed attempts n :
  (∀ i, (n ≤ i < n + attempts)%nat → failed (peer i) = true) →
  Integration.wait_attempts peer attempts n = (Ok false, (n + attempts)%nat).
Proof.
  intros Hall.
  destruct (wait_attempts_spec attempts n) as (b & n' & Hrun & Hle & Htrue & Hfalse).
  destruct b.
  - destruct (Htrue eq_refl) as (Hlt & Hlast & _).
    rewrite Hall in Hlast by lia. done.
  - destruct (Hfalse eq_refl) as (-> & _). done.
Qed.

Lemma probe_run all_healthy n :
  ErrorTester.probe peer all_healthy n = (Ok (all_healthy && healthy (peer n)), S n).
Proof.
  unfold ErrorTester.probe.
  rewrite (io_bind_ok _ _ _ _ _ (request_run n)).
  destruct (peer n) as [response|what]; simpl.
  - destruct (status_code response <? 400); [by rewrite andb_true_r | by rewrite andb_false_r].
  - by rewrite andb_false_r.
Qed.

End FailureFacts.


Section FailureClaims.
Variable peer : nat → Reply.
Variable repr : PyVal → string.


End FailureClaims.



(** ** Statistics *)

Section StatisticsClaims.
Variable peer : nat → Reply.

Lemma total_count_canonical result total :
  Verifier.hits_get result "total" (PDict []) = Ok total →
  Verifier.total_count result = Ok (canonical_count total).
Proof.
  intros H. unfold Verifier.total_count. rewrite H. simpl.
  by destruct total.
Qed.

(** C7: after a 200 response whose [hits.total] is [total],
    [get_log_statistics] reports as [total_logs] the canonical count of
    [total]: the [value] of a nested object, the scalar itself otherwise.
    It returns these statistics whenever the aggregation request that
    follows is answered readably, and it returns nothing else. *)
Theorem statistics_total_logs n response total :
  peer n = Responded response →
  status_code response = 200 →
  Verifier.hits_get (json response) "total" (PDict []) = Ok total →
  (aggregation_readable (peer (S n)) →
   ∃ severity service,
     Verifier.get_log_statistics peer n
       = (Ok (Verifier.StatisticsReport (canonical_count total) severity service),
          S (S n))) ∧
  (∀ stats, (Verifier.get_log_statistics peer n).1 = Ok stats →
     ∃ severity service,
       stats = Verifier.StatisticsReport (canonical_count total) severity service).
Proof.
  intros Hn Hstatus Htotal.
  apply total_count_canonical in Htotal.
  assert (Verifier.search_logs peer n = (Ok (true, json response), S n)) as Hfirst.
  { unfold Verifier.search_logs.
    rewrite (io_bind_ok _ _ _ _ _ (request_run peer n)), Hn. by rewrite Hstatus. }
  unfold Verifier.get_log_statistics.
  rewrite (io_bind_ok _ _ _ _ _ Hfirst). simpl.
  rewrite (io_bind_ok (lift (Verifier.total_count (json response))) _ (S n)
             (canonical_count total) (S n)); [|unfold lift; by rewrite Htotal].
  split.
  - intros [Hfail|(response2 & sev & svc & Hreply & Hdist)].
    + destruct (search_logs_failed peer (S n) Hfail) as (message & Hsearch).
      rewrite (io_bind_ok _ _ _ _ _ Hsearch). simpl. eauto.
    + unfold Verifier.search_logs at 1.
      unfold mbind at 1, IO_bind.
      rewrite (io_bind_ok _ _ _ _ _ (request_run peer (S n))), Hreply.
      destruct (status_code response2 =? 200); simpl; [|eauto].
      unfold mbind, IO_bind, lift. rewrite Hdist. simpl. eauto.
  - intros stats. unfold mbind at 1, IO_bind.
    destruct (Verifier.search_logs peer (S n)) as [[[success agg]|e] n']; [|done].
    simpl. destruct success; simpl.
    + unfold mbind, IO_bind, lift.
      destruct (Verifier.distributions agg) as [[sev svc]|]; [|done].
      simpl. intros; simplify_eq. eauto.
    + intros; simplify_eq. eauto.
Qed.

End StatisticsClaims.

Lemma statistics_total_logs_witness :
  let peer := λ _ : nat, Responded mocked_response in
  peer 0%nat = Responded mocked_response ∧
  status_code mocked_response = 200 ∧
  Verifier.hits_get (json mocked_response) "total" (PDict [])
    = Ok (PDict [(PStr "value", PInt 5)]) ∧
  ∃ severity service,
    Verifier.get_log_statistics peer 0%nat
      = (Ok (Verifier.StatisticsReport (PInt 5) severity service), 2%nat).
Proof.
  intros peer. repeat split.
  apply (statistics_total_logs peer 0%nat mocked_response
           (PDict [(PStr "value", PInt 5)]) eq_refl eq_refl eq_refl).
  right. by exists mocked_response, [], [].
Defined.

(** A scalar hit count is reported as it is. *)
Example statistics_of_a_scalar_count :
  Verifier.get_log_statistics (λ _, Responded scalar_response) 0%nat
    = (Ok (Verifier.StatisticsReport (PInt 7) [] []), 2%nat).
Proof. reflexivity. Qed.

(** ** Field verification *)

Section TallyFacts.
Import Verifier.
Variable repr : PyVal → string.
Implicit Types (stats : gmap string FieldStat).

Lemma advanced_refl stats : advanced (λ _, 0) (λ _, 0) stats stats.
Proof.
  intros f. destruct (stats !! f) as [st|]; [|done].
  exists st. split; [done | lia].
Qed.

Lemma advanced_trans dp1 dm1 dp2 dm2 dp dm stats1 stats2 stats3 :
  advanced dp1 dm1 stats1 stats2 →
  advanced dp2 dm2 stats2 stats3 →
  (∀ f, dp f = dp1 f + dp2 f) →
  (∀ f, dm f = dm1 f + dm2 f) →
  advanced dp dm stats1 stats3.
Proof.
  intros H12 H23 Hp Hm f. specialize (H12 f). specialize (H23 f).
  destruct (stats1 !! f) as [st1|]; [|by rewrite H12 in H23].
  destruct H12 as (st2 & E2 & Hp2 & Hm2). rewrite E2 in H23.
  destruct H23 as (st3 & E3 & Hp3 & Hm3).
  exists st3. rewrite Hp, Hm. split; [done | lia].
Qed.

Lemma advanced_some dp dm stats stats' f :
  advanced dp dm stats stats' → is_Some (stats !! f) → is_Some (stats' !! f).
Proof.
  intros H [st E]. specialize (H f). rewrite E in H.
  destruct H as (st' & E' & _). by exists st'.
Qed.

(** One tally on a source that is an object moves one counter of the field
    by one. *)
Lemma tally_advances d stats field :
  is_Some (stats !! field) →
  ∃ stats',
    tally repr (PDict d) stats field = Ok stats' ∧
    advanced (λ f, Z.b2z (String.eqb field f) * Z.b2z (source_holds d field))
             (λ f, Z.b2z (String.eqb field f) * (1 - Z.b2z (source_holds d field)))
             stats stats'.
Proof.
  intros [st Hst]. unfold tally, present_value, source_holds.
  set (found := entries_get d (PStr field)).
  assert (Hstep : ∀ st', present st' = present st + Z.b2z (source_holds d field) →
                         missing st' = missing st + (1 - Z.b2z (source_holds d field)) →
    advanced (λ f, Z.b2z (String.eqb field f) * Z.b2z (source_holds d field))
             (λ f, Z.b2z (String.eqb field f) * (1 - Z.b2z (source_holds d field)))
             stats (<[field := st']> stats)).
  { intros st' Hp Hm f. destruct (String.eqb field f) eqn:E.
    - apply String.eqb_eq in E as <-. rewrite Hst, lookup_insert_eq.
      exists st'. split; [done|]. simpl. lia.
    - apply String.eqb_neq in E. rewrite lookup_insert_ne by done.
      destruct (stats !! f) as [st0|]; [|done].
      exists st0. split; [done|]. simpl. lia. }
  unfold source_holds in Hstep. fold found in Hstep.
  destruct found as [[]|]; simpl; rewrite Hst; eexists; (split; [reflexivity|]);
    apply Hstep; simpl; lia.
Qed.

Lemma tally_fields_advances d fields :
  ∀ stats,
    (∀ f, f ∈ fields → is_Some (stats !! f)) →
    ∃ stats',
      tally_fields repr (PDict d) fields stats = Ok stats' ∧
      advanced (λ f, multiplicity f fields * Z.b2z (source_holds d f))
               (λ f, multiplicity f fields * (1 - Z.b2z (source_holds d f)))
               stats stats'.
Proof.
  induction fields as [|field fields IH]; intros stats Hdom; simpl.
  { exists stats. split; [done|]. apply advanced_refl. }
  destruct (tally_advances d stats field) as (stats1 & Hrun1 & Hadv1).
  { apply Hdom. by left. }
  destruct (IH stats1) as (stats2 & Hrun2 & Hadv2).
  { intros f Hf. eapply advanced_some; [exact Hadv1|]. apply Hdom. by right. }
  exists stats2. rewrite Hrun1. simpl. split; [done|].
  eapply advanced_trans; [exact Hadv1 | exact Hadv2 | |]; intros f; simpl;
    destruct (String.eqb field f) eqn:E; simpl; try lia;
    apply String.eqb_eq in E as <-; lia.
Qed.

Lemma tally_hits_advances fields hits :
  Forall document hits →
  ∀ stats,
    (∀ f, f ∈ fields → is_Some (stats !! f)) →
    ∃ stats',
      tally_hits repr fields hits stats = Ok stats' ∧
      advanced (λ f, multiplicity f fields * documents_with f hits)
               (λ f, multiplicity f fields * (Z.of_nat (length hits) - documents_with f hits))
               stats stats'.
Proof.
  induction 1 as [|hit hits (h & d & -> & Hsource) _ IH]; intros stats Hdom.
  { exists stats. split; [done|]. simpl.
    eapply advanced_trans; [apply advanced_refl | apply advanced_refl | |];
      intros f; simpl; lia. }
  destruct (tally_fields_advances d fields stats Hdom) as (stats1 & Hrun1 & Hadv1).
  destruct (IH stats1) as (stats2 & Hrun2 & Hadv2).
  { intros f Hf. eapply advanced_some; [exact Hadv1|]. by apply Hdom. }
  exists stats2. split.
  - simpl. rewrite Hsource. simpl. rewrite Hrun1. simpl. exact Hrun2.
  - eapply advanced_trans; [exact Hadv1 | exact Hadv2 | |]; intros f;
      cbn [documents_with holds_field length]; rewrite Hsource; lia.
Qed.

Lemma initial_stats_lookup fields f :
  f ∈ fields →
  ∃ st, initial_stats fields !! f = Some st ∧ present st = 0 ∧ missing st = 0.
Proof.
  unfold initial_stats.
  set (zero := {| present := 0; missing := 0; sample_values := [] |}).
  assert (H : ∀ acc : gmap string FieldStat,
    f ∈ fields ∨ acc !! f = Some zero →
    foldl (λ field_stats field, <[field := zero]> field_stats) acc fields !! f = Some zero).
  { induction fields as [|g fields IH]; intros acc Hacc; simpl.
    - destruct Hacc as [Hin|Hacc]; [by apply elem_of_nil in Hin | done].
    - apply IH. destruct (decide (g = f)) as [->|Hne].
      + right. apply lookup_insert_eq.
      + destruct Hacc as [Hin|Hacc].
        * apply elem_of_cons in Hin as [->|Hin]; [done | by left].
        * right. by rewrite lookup_insert_ne. }
  intros Hin. exists zero. split; [apply H; by left | done].
Qed.

(** Whatever the source is, a tally that does not raise moves one counter
    of the field by one. *)
Lemma tally_counts source stats field stats' :
  tally repr source stats field = Ok stats' →
  ∃ dp dm, advanced dp dm stats stats' ∧
           ∀ f, dp f + dm f = Z.b2z (String.eqb field f).
Proof.
  unfold tally. destruct (present_value field source) as [found|]; [|done]. simpl.
  destruct (stats !! field) as [st|] eqn:Hst; [|done].
  assert (Hstep : ∀ (h : bool) st',
    present st' = present st + Z.b2z h →
    missing st' = missing st + (1 - Z.b2z h) →
    advanced (λ f, Z.b2z (String.eqb field f) * Z.b2z h)
             (λ f, Z.b2z (String.eqb field f) * (1 - Z.b2z h))
             stats (<[field := st']> stats)).
  { intros h st' Hp Hm f. destruct (String.eqb field f) eqn:E.
    - apply String.eqb_eq in E as <-. rewrite Hst, lookup_insert_eq.
      exists st'. split; [done|]. simpl. lia.
    - apply String.eqb_neq in E. rewrite lookup_insert_ne by done.
      destruct (stats !! f) as [st0|]; [|done].
      exists st0. split; [done|]. simpl. lia. }
  destruct found as [v|]; intros; simplify_eq.
  - eexists _, _. split; [apply (Hstep true); simpl; lia|]. intros f. simpl. lia.
  - eexists _, _. split; [apply (Hstep false); simpl; lia|]. intros f. simpl. lia.
Qed.

Lemma tally_fields_counts source fields :
  ∀ stats stats',
    tally_fields repr source fields stats = Ok stats' →
    ∃ dp dm, advanced dp dm stats stats' ∧
             ∀ f, dp f + dm f = multiplicity f fields.
Proof.
  induction fields as [|field fields IH]; intros stats stats' Hrun; simpl in Hrun.
  { simplify_eq. exists (λ _, 0), (λ _, 0). split; [apply advanced_refl | done]. }
  destruct (tally repr source stats field) as [stats1|] eqn:E1; [|done]. simpl in Hrun.
  apply tally_counts in E1 as (dp1 & dm1 & Hadv1 & Hsum1).
  apply IH in Hrun as (dp2 & dm2 & Hadv2 & Hsum2).
  exists (λ f, dp1 f + dp2 f), (λ f, dm1 f + dm2 f). split.
  - by eapply advanced_trans.
  - intros f. specialize (Hsum1 f). specialize (Hsum2 f).
    cbn [multiplicity]. lia.
Qed.

Lemma tally_hits_counts fields hits :
  ∀ stats stats',
    tally_hits repr fields hits stats = Ok stats' →
    ∃ dp dm, advanced dp dm stats stats' ∧
             ∀ f, dp f + dm f = multiplicity f fields * Z.of_nat (length hits).
Proof.
  induction hits as [|hit hits IH]; intros stats stats' Hrun; simpl in Hrun.
  { simplify_eq. exists (λ _, 0), (λ _, 0). split; [apply advanced_refl|].
    intros f. simpl. lia. }
  destruct (py_get hit "_source" (PDict [])) as [source|]; [|done]. simpl in Hrun.
  destruct (tally_fields repr source fields stats) as [stats1|] eqn:E1; [|done].
  simpl in Hrun.
  apply tally_fields_counts in E1 as (dp1 & dm1 & Hadv1 & Hsum1).
  apply IH in Hrun as (dp2 & dm2 & Hadv2 & Hsum2).
  exists (λ f, dp1 f + dp2 f), (λ f, dm1 f + dm2 f). split.
  - by eapply advanced_trans.
  - intros f. specialize (Hsum1 f). specialize (Hsum2 f).
    cbn [length]. lia.
Qed.

Lemma length_chars s : length (chars s) = String.length s.
Proof. induction s as [|c s IH]; simpl; [done | by rewrite IH]. Qed.

(** [len(o)] is the number of elements that [for x in o] goes through. *)
Lemma py_iter_len o items total :
  py_iter o = Ok items → py_len o = Ok total → total = Z.of_nat (length items).
Proof.
  destruct o; simpl; intros; simplify_eq; try done.
  - by rewrite length_chars.
  - by rewrite length_fmap.
Qed.

Lemma io_bind_inv {A B : Type} (m : IO A) (k : A → IO B) n b n' :
  (m ≫= k) n = (Ok b, n') → ∃ a n1, m n = (Ok a, n1) ∧ k a n1 = (Ok b, n').
Proof.
  unfold mbind, IO_bind. destruct (m n) as [[a|e] n1]; [eauto | done].
Qed.

Lemma lift_inv {A : Type} (r : Result A) n a n' :
  lift r n = (Ok a, n') → r = Ok a ∧ n' = n.
Proof. unfold lift. intros; by simplify_eq. Qed.

(** The counters of a report, whatever was sampled. *)
Lemma report_counts_sum peer n required_fields total stats n' :
  verify_log_fields peer repr required_fields n
    = (Ok (VerificationReport total stats), n') →
  ∀ field, field ∈ required_fields →
    ∃ st, stats !! field = Some st ∧
          present st + missing st = multiplicity field required_fields * total.
Proof.
  unfold verify_log_fields. intros Hrun.
  apply io_bind_inv in Hrun as ([success result] & n1 & _ & Hrun).
  destruct success; simpl in Hrun; [|by inversion Hrun].
  apply io_bind_inv in Hrun as (hits & n2 & _ & Hrun).
  destruct (truthy hits); simpl in Hrun; [|by inversion Hrun].
  apply io_bind_inv in Hrun as (items & n3 & Hitems & Hrun).
  apply io_bind_inv in Hrun as (field_stats & n4 & Htally & Hrun).
  apply io_bind_inv in Hrun as (checked & n5 & Hlen & Hrun).
  apply lift_inv in Hitems as [Hitems _].
  apply lift_inv in Htally as [Htally _].
  apply lift_inv in Hlen as [Hlen _].
  unfold mret, IO_ret in Hrun. simplify_eq.
  pose proof (py_iter_len _ _ _ Hitems Hlen) as ->.
  apply tally_hits_counts in Htally as (dp & dm & Hadv & Hsum).
  intros field Hfield.
  destruct (initial_stats_lookup required_fields field Hfield) as (st0 & E0 & Hp0 & Hm0).
  specialize (Hadv field). rewrite E0 in Hadv.
  destruct Hadv as (st & E & Hp & Hm).
  exists st. split; [done|]. specialize (Hsum field). lia.
Qed.

End TallyFacts.

Section VerificationClaims.
Import Verifier.
Variable peer : nat → Reply.
Variable repr : PyVal → string.

(** C6 (amended): for every non-empty sample of documents returned to
    [verify_log_fields] and every required field name, the reported present
    and missing counts sum to the number of sampled documents
    ([total_logs_checked]) times the number of times the name is listed
    among the required fields, so exactly to the number of sampled
    documents for a name listed once; a document counts as present exactly
    when the field exists in its source with a non-null value. *)
Theorem field_counts_sum n required_fields :
  (∀ total stats n',
     verify_log_fields peer repr required_fields n
       = (Ok (VerificationReport total stats), n') →
     ∀ field, field ∈ required_fields →
       ∃ st, stats !! field = Some st ∧
         present st + missing st = multiplicity field required_fields * total ∧
         (multiplicity field required_fields = 1 → present st + missing st = total)) ∧
  (∀ response hits,
     peer n = Responded response →
     status_code response = 200 →
     hits_get (json response) "hits" (PList []) = Ok (PList hits) →
     hits ≠ [] →
     Forall document hits →
     ∃ stats,
       verify_log_fields peer repr required_fields n
         = (Ok (VerificationReport (Z.of_nat (length hits)) stats), S n) ∧
       ∀ field, field ∈ required_fields →
         ∃ st, stats !! field = Some st ∧
           present st = multiplicity field required_fields * documents_with field hits ∧
           missing st = multiplicity field required_fields
                        * (Z.of_nat (length hits) - documents_with field hits)).
Proof.
  split.
  { intros total stats n' Hrun field Hfield.
    destruct (report_counts_sum repr peer n required_fields total stats n' Hrun field Hfield)
      as (st & E & Hsum).
    exists st. split; [done|]. split; [done|]. intros Hone. rewrite Hone in Hsum. lia. }
  intros response hits Hn Hstatus Hhits Hne Hdocs.
  destruct (tally_hits_advances repr required_fields hits Hdocs (initial_stats required_fields))
    as (stats & Hrun & Hadv).
  { intros f Hf. destruct (initial_stats_lookup required_fields f Hf) as (st & E & _).
    by exists st. }
  exists stats. split.
  - assert (search_logs peer n = (Ok (true, json response), S n)) as Hfirst.
    { unfold search_logs.
      rewrite (io_bind_ok _ _ _ _ _ (request_run peer n)), Hn. by rewrite Hstatus. }
    unfold verify_log_fields.
    rewrite (io_bind_ok _ _ _ _ _ Hfirst). simpl.
    unfold mbind, IO_bind, lift, mret, IO_ret.
    rewrite Hhits. simpl. destruct hits as [|hit hits']; [done|].
    simpl negb. cbv iota. by rewrite Hrun.
  - intros field Hfield.
    destruct (initial_stats_lookup required_fields field Hfield) as (st0 & E0 & Hp0 & Hm0).
    specialize (Hadv field). rewrite E0 in Hadv.
    destruct Hadv as (st & E & Hp & Hm).
    exists st. split; [done|]. rewrite Hp, Hm, Hp0, Hm0.
    split; lia.
Qed.

End VerificationClaims.

Lemma field_counts_sum_witness :
  let peer := λ _ : nat, Responded one_document in
  ∃ stats,
    Verifier.verify_log_fields peer (λ _, "") ["a"; "b"] 0%nat
      = (Ok (Verifier.VerificationReport 1 stats), 1%nat) ∧
    ∀ field, field ∈ ["a"; "b"] →
      ∃ st, stats !! field = Some st ∧
        Verifier.present st
          = multiplicity field ["a"; "b"]
            * documents_with field [PDict [(PStr "_source", PDict [(PStr "a", PInt 1)])]] ∧
        Verifier.missing st
          = multiplicity field ["a"; "b"]
            * (1 - documents_with field [PDict [(PStr "_source", PDict [(PStr "a", PInt 1)])]]).
Proof.
  intros peer.
  apply (proj2 (field_counts_sum peer (λ _, "") 0%nat ["a"; "b"]) one_document
           [PDict [(PStr "_source", PDict [(PStr "a", PInt 1)])]]).
  - reflexivity.
  - reflexivity.
  - reflexivity.
  - discriminate.
  - apply Forall_cons_2; [|apply Forall_nil_2]. by eexists _, _.
Defined.

(** C6 (as stated) fails: with a field name listed twice, one sampled
    document gives it a present count of two. *)
Lemma repeated_field_is_counted_twice :
  let peer := λ _ : nat, Responded one_document in
  ∃ stats st,
    Verifier.verify_log_fields peer (λ _, "") ["a"; "a"] 0%nat
      = (Ok (Verifier.VerificationReport 1 stats), 1%nat) ∧
    stats !! "a" = Some st ∧
    Verifier.present st + Verifier.missing st = 2.
Proof.
  intros peer. eexists _, _. split; [vm_compute; reflexivity|].
  split; vm_compute; reflexivity.
Qed.

(** ** Metrics scraping *)

Section ScrapeFacts.
Import ErrorTester.

Lemma contains_space_cons c rest :
  Str.contains " " (String c rest) = Ascii.eqb c " " || Str.contains " " rest.
Proof.
  change (Str.contains " " (String c rest))
    with (Ascii.eqb " " c && Str.startswith "" rest || Str.contains " " rest).
  rewrite Ascii.eqb_sym. by destruct rest, (Ascii.eqb c " ").
Qed.

Lemma split_space line :
  ∃ fields, Str.split " " line = before_space line :: fields ∧
            (Str.contains " " line = true → fields = Str.split " " (after_space line)).
Proof.
  induction line as [|c rest (fields & Hsplit & Hrest)].
  { exists []. by split. }
  rewrite contains_space_cons.
  cbn [Str.split before_space after_space]. destruct (Ascii.eqb c " ") eqn:E.
  - exists (Str.split " " rest). by split.
  - rewrite Hsplit. exists fields. by split.
Qed.

Lemma split_fields line :
  Str.contains " " line = true →
  index (Str.split " " line) 0 = Ok (metric_of line).1 ∧
  index (Str.split " " line) 1 = Ok (metric_of line).2.
Proof.
  intros Hspace. destruct (split_space line) as (fields & Hsplit & Hfields).
  rewrite Hsplit, (Hfields Hspace).
  destruct (split_space (after_space line)) as (fields' & -> & _). done.
Qed.

Lemma dlq_line_scrape metrics line : dlq_line metrics line = Ok (scrape metrics line).
Proof.
  unfold dlq_line, scrape, scraped, mentions_keyword.
  destruct (Str.contains "dlq" (Str.lower line) || Str.contains "error" (Str.lower line));
    [|done].
  destruct (Str.startswith "#" line); [done|].
  destruct (Str.contains " " line) eqn:Hspace; [|done].
  destruct (split_fields line Hspace) as [-> ->]. done.
Qed.

Lemma dlq_lines_scrape lines :
  ∀ metrics, dlq_lines lines metrics = Ok (foldl scrape metrics lines).
Proof.
  induction lines as [|line lines IH]; intros metrics; simpl; [done|].
  rewrite dlq_line_scrape. simpl. apply IH.
Qed.

Lemma foldl_scrape lines :
  ∀ metrics : gmap string string,
    foldl scrape metrics lines =
    fold_right (λ p, <[p.1 := p.2]>) metrics
               (reverse (metric_of <$> filter (λ line, scraped line) lines)).
Proof.
  induction lines as [|line lines IH]; intros metrics; simpl; [done|].
  rewrite IH. unfold scrape at 1. rewrite filter_cons.
  destruct (decide (scraped line)) as [Hyes|Hno].
  - rewrite (Is_true_true_1 _ Hyes). rewrite fmap_cons, reverse_cons, foldr_app. done.
  - rewrite (Is_true_false_1 _ Hno). done.
Qed.

Lemma parse_dlq_metrics_scraped metrics_text :
  parse_dlq_metrics metrics_text =
  Ok (list_to_map (reverse (metric_of <$> filter (λ line, scraped line)
                                                 (Str.split "010" metrics_text)))).
Proof. unfold parse_dlq_metrics. by rewrite dlq_lines_scrape, foldl_scrape. Qed.

End ScrapeFacts.

Section ScrapeClaims.
Import ErrorTester.
Variable peer : nat → Reply.

(** C9 (amended): for every metrics text, [check_dlq_metrics] returns the
    mapping built from exactly those lines that contain dlq or error
    (whatever the case), do not start with the comment marker and contain a
    space; such a line maps the text before its first space to the text
    between its first and its second space, a later line replacing an
    earlier one of the same name; all other lines are omitted. *)
Theorem dlq_metrics_scraped n response :
  peer n = Responded response →
  status_code response = 200 →
  let lines := Str.split "010" (text response) in
  let metrics : gmap string string :=
    list_to_map (reverse (metric_of <$> filter (λ line, scraped line) lines)) in
  check_dlq_metrics peer n = (Ok metrics, S n) ∧
  (∀ name value, metrics !! name = Some value →
     ∃ line, line ∈ lines ∧ scraped line = true ∧ metric_of line = (name, value)) ∧
  (∀ line, line ∈ lines → scraped line = true →
     is_Some (metrics !! (metric_of line).1)).
Proof.
  intros Hn Hstatus lines metrics. repeat split.
  - unfold check_dlq_metrics.
    rewrite (io_bind_ok _ _ _ _ _ (request_run peer n)), Hn, Hstatus. simpl.
    unfold try_except, lift. by rewrite parse_dlq_metrics_scraped.
  - intros name value Hlookup.
    apply elem_of_list_to_map_2, elem_of_reverse, list_elem_of_fmap in Hlookup
      as (line & Hmetric & Hline).
    apply list_elem_of_filter in Hline as [Hscraped Hline].
    exists line. split; [done|]. split; [by apply Is_true_true_1 | done].
  - intros line Hline Hscraped.
    destruct (metrics !! (metric_of line).1) as [value|] eqn:E; [by exists value|].
    apply not_elem_of_list_to_map in E. destruct E.
    apply list_elem_of_fmap. exists (metric_of line). split; [done|].
    apply elem_of_reverse, list_elem_of_fmap_2, list_elem_of_filter.
    split; [by apply Is_true_true_2 | done].
Qed.

End ScrapeClaims.

Lemma dlq_metrics_scraped_witness :
  let peer := λ _ : nat, Responded metrics_page in
  peer 0%nat = Responded metrics_page ∧
  status_code metrics_page = 200 ∧
  ErrorTester.check_dlq_metrics peer 0%nat = (Ok {["dlq_total" := "5"]}, 1%nat).
Proof.
  intros peer. split; [reflexivity|]. split; [reflexivity|].
  destruct (dlq_metrics_scraped peer 0%nat metrics_page eq_refl eq_refl) as [-> _].
  f_equal.
Defined.

(** C9 (as stated) fails: of a sample line with a timestamp, the value kept
    is the text up to the second space and not all that follows the first
    space. *)
Lemma value_stops_at_the_second_space :
  let peer := λ _ : nat, Responded metrics_page in
  ∃ metrics,
    ErrorTester.check_dlq_metrics peer 0%nat = (Ok metrics, 1%nat) ∧
    metrics !! "dlq_total" = Some "5" ∧
    metrics_as_claimed (text metrics_page) !! "dlq_total" = Some "5 1700000000" ∧
    metrics ≠ metrics_as_claimed (text metrics_page).
Proof.
  intros peer. eexists. split; [vm_compute; reflexivity|].
  split; [vm_compute; reflexivity|]. split; [vm_compute; reflexivity|].
  intros Heq. apply (f_equal (λ m : gmap string string, m !! "dlq_total")) in Heq.
  vm_compute in Heq. discriminate.
Qed.

(** * Further properties *)

(** ** Polling and health checks *)

Section PollingFacts.
Variable peer : nat → Reply.

(** [wait_for_service] never raises and never sends more than
    [max_attempts] requests; it answers [True] right after the first reply
    with status 200, and [False] after [max_attempts] replies none of which
    was a 200 (at once when [max_attempts] is not positive). *)
Theorem wait_for_service_polls max_attempts n :
  ∃ b n',
    Integration.wait_for_service peer max_attempts n = (Ok b, n') ∧
    (n ≤ n' ≤ n + Z.to_nat max_attempts)%nat ∧
    (b = true →
       (n < n')%nat ∧ failed (peer (n' - 1)%nat) = false ∧
       ∀ i, (n ≤ i < n' - 1)%nat → failed (peer i) = true) ∧
    (b = false →
       n' = (n + Z.to_nat max_attempts)%nat ∧
       ∀ i, (n ≤ i < n')%nat → failed (peer i) = true).
Proof. apply wait_attempts_spec. Qed.

Lemma wait_for_services_spec services :
  ∀ n, ∃ b n',
    Integration.wait_for_services peer services n = (Ok b, n') ∧
    (n ≤ n' ≤ n + 30 * length services)%nat ∧
    (b = true → (n + length services ≤ n')%nat) ∧
    (b = false →
       (n + 30 ≤ n')%nat ∧
       ∀ i, (n' - 30 ≤ i < n')%nat → failed (peer i) = true).
Proof.
  induction services as [|service services IH]; intros n.
  { exists true, n. simpl. unfold mret, IO_ret. repeat split; try done; lia. }
  cbn [Integration.wait_for_services].
  destruct (wait_attempts_spec peer (Z.to_nat 30) n)
    as (ready & n1 & Hwait & Hle & Htrue & Hfalse).
  change (Integration.wait_attempts peer (Z.to_nat 30))
    with (Integration.wait_for_service peer 30) in Hwait.
  rewrite (io_bind_ok _ _ _ _ _ Hwait).
  change (Z.to_nat 30) with 30%nat in *.
  destruct ready.
  - destruct (Htrue eq_refl) as (Hlt & _).
    destruct (IH n1) as (b & n' & Hrun & Hle' & Htrue' & Hfalse').
    exists b, n'. split; [done|]. cbn [length]. split; [lia|]. split.
    + intros Hb. specialize (Htrue' Hb). lia.
    + intros Hb. destruct (Hfalse' Hb) as (Hge & Hall). split; [lia | done].
  - destruct (Hfalse eq_refl) as (-> & Hall).
    exists false, (n + 30)%nat. split; [done|]. cbn [length]. split; [lia|].
    split; [done|]. intros _. split; [lia|].
    intros i Hi. apply Hall. lia.
Qed.

(** [DataPrepperIntegrationTest.check_services] never raises and sends
    between 3 and 90 requests when it answers [True]; it answers [False]
    only after 30 polls in a row of one service that were not answered with
    a 200, and then does not poll the services that come after. *)
Theorem integration_check_services_gives_up n :
  ∃ b n',
    Integration.check_services peer n = (Ok b, n') ∧
    (n ≤ n' ≤ n + 90)%nat ∧
    (b = true → (n + 3 ≤ n')%nat) ∧
    (b = false →
       (n + 30 ≤ n')%nat ∧
       ∀ i, (n' - 30 ≤ i < n')%nat → failed (peer i) = true).
Proof.
  destruct (wait_for_services_spec ["OTEL Collector"; "Data Prepper"; "OpenSearch"] n)
    as (b & n' & Hrun & Hle & Htrue & Hfalse).
  exists b, n'. split; [done|]. cbn [length] in *.
  split; [lia|]. split; [exact Htrue | exact Hfalse].
Qed.

(** [DataPrepperErrorTester.check_services] always probes the three
    services, one request each, also after one of them failed, and answers
    [True] exactly when all three replies are responses with a status below
    400, so that statuses such as 204 or 302 count as healthy. *)
Theorem error_tester_check_services_probes_all n :
  ErrorTester.check_services peer n
    = (Ok (healthy (peer n) && healthy (peer (S n)) && healthy (peer (S (S n)))),
       S (S (S n))).
Proof.
  unfold ErrorTester.check_services. cbn [ErrorTester.probes].
  rewrite (io_bind_ok _ _ _ _ _ (probe_run peer true n)).
  rewrite (io_bind_ok _ _ _ _ _ (probe_run peer _ (S n))).
  rewrite (io_bind_ok _ _ _ _ _ (probe_run peer _ (S (S n)))).
  done.
Qed.

End PollingFacts.

(** ** Searches *)

Section SearchFacts.
Variable peer : nat → Reply.

Lemma search_logs_ok n response :
  peer n = Responded response →
  status_code response = 200 →
  Verifier.search_logs peer n = (Ok (true, json response), S n).
Proof.
  intros Hn Hstatus. unfold Verifier.search_logs.
  rewrite (io_bind_ok _ _ _ _ _ (request_run peer n)), Hn. by rewrite Hstatus.
Qed.

Lemma sources_of_objects hits :
  Forall is_object hits → Verifier.sources hits = Ok (source_of <$> hits).
Proof.
  induction 1 as [|hit hits [h ->] _ IH]; [done|].
  cbn [Verifier.sources]. simpl. by rewrite IH.
Qed.

(** After a 200 response, the [search_by_...] operations return [True] with
    one entry per hit, in order: the [_source] of the hit, or an empty
    object for a hit without one; a result without [hits] gives the empty
    list.  No hit is dropped. *)
Theorem search_returns_one_source_per_hit n response hits :
  peer n = Responded response →
  status_code response = 200 →
  Verifier.hits_get (json response) "hits" (PList []) = Ok (PList hits) →
  Forall is_object hits →
  Verifier.search_by_service peer n = (Ok (true, PList (source_of <$> hits)), S n) ∧
  Verifier.search_by_severity peer n = (Ok (true, PList (source_of <$> hits)), S n) ∧
  Verifier.search_by_time_range peer n = (Ok (true, PList (source_of <$> hits)), S n) ∧
  Verifier.search_by_trace_id peer n = (Ok (true, PList (source_of <$> hits)), S n) ∧
  length (source_of <$> hits) = length hits.
Proof.
  intros Hn Hstatus Hhits Hobjects.
  assert (Verifier.search_sources peer n
          = (Ok (true, PList (source_of <$> hits)), S n)) as Hrun.
  { unfold Verifier.search_sources.
    rewrite (io_bind_ok _ _ _ _ _ (search_logs_ok n response Hn Hstatus)).
    unfold mbind, IO_bind, lift, mret, IO_ret. rewrite Hhits. simpl.
    by rewrite (sources_of_objects hits Hobjects). }
  repeat split; try exact Hrun. apply length_fmap.
Qed.

(** A hit that is not an object makes the [search_by_...] operations raise
    [AttributeError]: it is not a [RequestException], so it is not caught. *)
Theorem search_raises_on_a_malformed_hit n response before hit after :
  peer n = Responded response →
  status_code response = 200 →
  Verifier.hits_get (json response) "hits" (PList [])
    = Ok (PList (before ++ hit :: after)) →
  Forall is_object before →
  ¬ is_object hit →
  Verifier.search_by_service peer n = (Raise AttributeError, S n).
Proof.
  intros Hn Hstatus Hhits Hbefore Hhit.
  unfold Verifier.search_by_service, Verifier.search_sources.
  rewrite (io_bind_ok _ _ _ _ _ (search_logs_ok n response Hn Hstatus)).
  unfold mbind, IO_bind, lift, mret, IO_ret. rewrite Hhits. simpl.
  assert (Verifier.sources (before ++ hit :: after) = Raise AttributeError) as ->; [|done].
  clear Hhits. induction Hbefore as [|b before [h ->] _ IH]; simpl.
  - destruct hit; try done. destruct Hhit. by eexists.
  - by rewrite IH.
Qed.

(** [search_logs_in_opensearch] ignores the outcome of the refresh request.
    After a 200 response it reads the hit count as [get_log_statistics] does
    (nested [value] or scalar) and answers whether it reaches
    [expected_count], always together with the whole result.  When the count
    falls short the hits are not looked at. *)
Theorem search_in_opensearch_compares_the_count n response total count expected_count :
  peer (S n) = Responded response →
  status_code response = 200 →
  Verifier.hits_get (json response) "total" (PDict []) = Ok total →
  canonical_count total = PInt count →
  (count < expected_count →
   Integration.search_logs_in_opensearch peer expected_count n
     = (Ok (false, json response), S (S n))) ∧
  (expected_count ≤ count →
   ∀ hits,
     Verifier.hits_get (json response) "hits" (PList []) = Ok (PList hits) →
     Forall document (take 3 hits) →
     Integration.search_logs_in_opensearch peer expected_count n
       = (Ok (true, json response), S (S n))).
Proof.
  intros Hn Hstatus Htotal Hcount.
  assert (∃ b, Integration.refresh_opensearch_indices peer n = (Ok b, S n)) as [b Hb].
  { unfold Integration.refresh_opensearch_indices.
    rewrite (io_bind_ok _ _ _ _ _ (request_run peer n)).
    destruct (peer n); by eexists. }
  assert (Hnormal : (if is_dict total then py_get total "value" (PInt 0) else Ok total)
                    = Ok (PInt count)).
  { rewrite <- Hcount. by destruct total. }
  split.
  - intros Hlt. unfold Integration.search_logs_in_opensearch.
    rewrite (io_bind_ok _ _ _ _ _ Hb), (io_bind_ok _ _ _ _ _ (request_run peer (S n))).
    rewrite Hn, Hstatus. simpl.
    unfold mbind, IO_bind, lift, mret, IO_ret. rewrite Htotal, Hnormal. simpl.
    destruct (expected_count <=? count) eqn:E; [lia | done].
  - intros Hge hits Hhits Hdocs. unfold Integration.search_logs_in_opensearch.
    rewrite (io_bind_ok _ _ _ _ _ Hb), (io_bind_ok _ _ _ _ _ (request_run peer (S n))).
    rewrite Hn, Hstatus. simpl.
    unfold mbind, IO_bind, lift, mret, IO_ret. rewrite Htotal, Hnormal. simpl.
    destruct (expected_count <=? count) eqn:E; [|lia].
    rewrite Hhits. simpl.
    assert (Integration.show_samples (take 3 hits) = Ok tt) as ->; [|done].
    induction Hdocs as [|hit rest (h & d & -> & Hsource) _ IH]; [done|].
    simpl. rewrite Hsource. simpl. exact IH.
Qed.

(** [check_opensearch_logs] never raises.  After a 200 response it returns
    the whole decoded body when [hits.total.value] can be read, and the
    empty dictionary when it cannot; in particular a result whose
    [hits.total] is a scalar, which the verifier accepts, gives the empty
    dictionary here. *)
Theorem check_opensearch_logs_needs_a_nested_total n response :
  peer n = Responded response →
  status_code response = 200 →
  (∀ hits total value,
     py_getitem (json response) "hits" = Ok hits →
     py_getitem hits "total" = Ok total →
     py_getitem total "value" = Ok value →
     ErrorTester.check_opensearch_logs peer n = (Ok (json response), S n)) ∧
  (∀ hits total,
     py_getitem (json response) "hits" = Ok hits →
     py_getitem hits "total" = Ok total →
     is_dict total = false →
     ErrorTester.check_opensearch_logs peer n = (Ok (PDict []), S n) ∧
     Verifier.total_count (json response) = Ok total) ∧
  (ErrorTester.check_opensearch_logs peer n = (Ok (json response), S n) ∨
   ErrorTester.check_opensearch_logs peer n = (Ok (PDict []), S n)).
Proof.
  intros Hn Hstatus.
  unfold ErrorTester.check_opensearch_logs.
  rewrite (io_bind_ok _ _ _ _ _ (request_run peer n)), Hn, Hstatus. simpl.
  unfold try_except, mbind, IO_bind, lift, mret, IO_ret.
  split; [|split].
  - intros hits tot value -> Hb Hc. simpl. rewrite Hb. simpl. by rewrite Hc.
  - intros hits tot Ha Hb Hscalar. split.
    + rewrite Ha. simpl. rewrite Hb. simpl. by destruct tot.
    + unfold Verifier.total_count, Verifier.hits_get.
      destruct (json response) as [| | | | |d]; try done. simpl in *.
      destruct (entries_get d (PStr "hits")) as [hits'|]; [|done]. simplify_eq. simpl.
      destruct hits as [| | | | |h]; try done. simpl in *.
      destruct (entries_get h (PStr "total")) as [tot'|]; [|done]. simplify_eq. simpl.
      by rewrite Hscalar.
  - destruct (py_getitem (json response) "hits") as [hits|]; simpl; [|by right].
    destruct (py_getitem hits "total") as [tot|]; simpl; [|by right].
    destruct (py_getitem tot "value"); simpl; [by left | by right].
Qed.

End SearchFacts.

Lemma search_returns_one_source_per_hit_witness :
  let peer := λ _ : nat, Responded one_document in
  Verifier.search_by_service peer 0%nat
    = (Ok (true, PList [PDict [(PStr "a", PInt 1)]]), 1%nat).
Proof.
  intros peer.
  apply (search_returns_one_source_per_hit peer 0%nat one_document
           [PDict [(PStr "_source", PDict [(PStr "a", PInt 1)])]]).
  - reflexivity.
  - reflexivity.
  - reflexivity.
  - apply Forall_cons_2; [by eexists | apply Forall_nil_2].
Defined.

Lemma search_raises_on_a_malformed_hit_witness :
  let peer := λ _ : nat, Responded malformed_hits in
  Verifier.search_by_service peer 0%nat = (Raise AttributeError, 1%nat).
Proof.
  intros peer.
  apply (search_raises_on_a_malformed_hit peer 0%nat malformed_hits
           [PDict [(PStr "_source", PDict [(PStr "a", PInt 1)])]] (PStr "oops") []).
  - reflexivity.
  - reflexivity.
  - reflexivity.
  - apply Forall_cons_2; [by eexists | apply Forall_nil_2].
  - intros [d Hd]. discriminate.
Defined.

Lemma search_in_opensearch_compares_the_count_witness :
  let peer := λ _ : nat, Responded mocked_response in
  Integration.search_logs_in_opensearch peer 6 0%nat
    = (Ok (false, json mocked_response), 2%nat) ∧
  Integration.search_logs_in_opensearch peer 5 0%nat
    = (Ok (true, json mocked_response), 2%nat).
Proof.
  intros peer.
  destruct (search_in_opensearch_compares_the_count peer 0%nat mocked_response
              (PDict [(PStr "value", PInt 5)]) 5 6 eq_refl eq_refl eq_refl eq_refl)
    as [Hshort _].
  destruct (search_in_opensearch_compares_the_count peer 0%nat mocked_response
              (PDict [(PStr "value", PInt 5)]) 5 5 eq_refl eq_refl eq_refl eq_refl)
    as [_ Henough].
  split; [apply Hshort; lia|].
  apply (Henough ltac:(lia) []); [reflexivity | apply Forall_nil_2].
Defined.

Lemma check_opensearch_logs_needs_a_nested_total_witness :
  ErrorTester.check_opensearch_logs (λ _, Responded mocked_response) 0%nat
    = (Ok (json mocked_response), 1%nat) ∧
  ErrorTester.check_opensearch_logs (λ _, Responded scalar_response) 0%nat
    = (Ok (PDict []), 1%nat) ∧
  Verifier.total_count (json scalar_response) = Ok (PInt 7).
Proof.
  destruct (check_opensearch_logs_needs_a_nested_total
              (λ _, Responded mocked_response) 0%nat mocked_response eq_refl eq_refl)
    as (Hnested & _ & _).
  destruct (check_opensearch_logs_needs_a_nested_total
              (λ _, Responded scalar_response) 0%nat scalar_response eq_refl eq_refl)
    as (_ & Hscalar & _).
  split.
  - by eapply Hnested.
  - by eapply Hscalar.
Defined.

(** ** Counting occurrences *)

Section CountFacts.

Lemma count_from_nonneg sub s : ∀ skip, 0 ≤ Str.count_from sub skip s.
Proof.
  induction s as [|c s IH]; intros skip; [done|].
  cbn [Str.count_from]. destruct skip as [|skip]; [|apply IH].
  destruct (Str.startswith sub (String c s)).
  - specialize (IH (String.length sub - 1)%nat). lia.
  - apply IH.
Qed.

(** A non-empty text occurs in a string exactly when it is counted there at
    least once. *)
Lemma count_positive sub s :
  sub ≠ "" → (0 <? Str.count sub s) = Str.contains sub s.
Proof.
  intros Hsub. unfold Str.count. induction s as [|c s IH].
  { destruct sub; done. }
  cbn [Str.count_from Str.contains].
  destruct (Str.startswith sub (String c s)); [|exact IH].
  pose proof (count_from_nonneg sub s (String.length sub - 1)%nat).
  simpl. apply Z.ltb_lt. lia.
Qed.

Variable peer : nat → Reply.

(** [check_data_prepper_metrics] answers [True] exactly when the reply is a
    200 whose text mentions both the records-in and the records-out counter
    of the log pipeline, whatever their values, also zero. *)
Theorem data_prepper_metrics_need_both_counters n :
  Integration.check_data_prepper_metrics peer n
    = (Ok match peer n with
          | Responded response =>
              (status_code response =? 200) &&
              Str.contains "log_pipeline_recordsIn_total" (text response) &&
              Str.contains "log_pipeline_recordsOut_total" (text response)
          | RequestException _ => false
          end, S n).
Proof.
  unfold Integration.check_data_prepper_metrics.
  rewrite (io_bind_ok _ _ _ _ _ (request_run peer n)).
  destruct (peer n) as [response|what]; [|done].
  destruct (status_code response =? 200); [|done]. simpl.
  by rewrite !count_positive.
Qed.

End CountFacts.

(** ** Placeholders of a template *)

Section PlaceholderFacts.
Import Generator.

Lemma startswith_app p s : Str.startswith p (p +:+ s) = true.
Proof.
  induction p as [|c p IH]; [by destruct s|].
  rewrite append_cons. cbn [Str.startswith]. by rewrite Ascii.eqb_refl, IH.
Qed.

Lemma contains_here p s : Str.startswith p s = true → Str.contains p s = true.
Proof. intros H. destruct s; cbn [Str.contains]; by rewrite H. Qed.

Lemma contains_cons p c s : Str.contains p s = true → Str.contains p (String c s) = true.
Proof. intros H. cbn [Str.contains]. rewrite H. apply orb_true_r. Qed.

Lemma contains_app_r p a s : Str.contains p s = true → Str.contains p (a +:+ s) = true.
Proof.
  intros H. induction a as [|c a IH]; [done|].
  rewrite append_cons. by apply contains_cons.
Qed.

Lemma emit_fails v r e : emit v r = FormatFails e → r = FormatFails e.
Proof. by destruct r. Qed.

Variable kw : string → option Value.

(** A [KeyError] names a placeholder of the template that has no value. *)
Lemma markup_key_error s :
  ∀ st k, markup kw st s = FormatFails (KeyError k) →
          k ∈ placeholders_from st s ∧ kw k = None.
Proof.
  induction s as [|c rest IH]; intros st k H.
  { by destruct st. }
  assert (Hfield : ∀ name,
    match field_char name c with
    | Grow name' => markup kw (Field name') rest
    | Done name' =>
        match get_value kw name' with
        | Ok v => emit v (markup kw Text rest)
        | Raise e => FormatFails e
        end
    | Malformed => FormatFails ValueError
    | Beyond => FormatBeyond
    end = FormatFails (KeyError k) →
    k ∈ match field_char name c with
        | Grow name' => placeholders_from (Field name') rest
        | Done name' => name' :: placeholders_from Text rest
        | _ => []
        end ∧ kw k = None).
  { intros name Hrun.
    destruct (field_char name c) as [name'|name'| |]; try done.
    - by apply IH.
    - unfold get_value in Hrun.
      destruct (Str.all_chars Str.is_digit name'); [done|].
      destruct (kw name') as [x|] eqn:Hx.
      + apply emit_fails, IH in Hrun as [Hin Hnone].
        split; [by apply list_elem_of_further | done].
      + simplify_eq. split; [apply list_elem_of_here | done]. }
  destruct st as [| | |name]; cbn [markup placeholders_from] in H |- *.
  - destruct (Ascii.eqb c "{"); [by apply IH|].
    destruct (Ascii.eqb c "}"); [by apply IH|].
    by apply emit_fails, IH in H.
  - destruct (Ascii.eqb c "{"); [|by apply Hfield].
    by apply emit_fails, IH in H.
  - destruct (Ascii.eqb c "}"); [|done].
    by apply emit_fails, IH in H.
  - by apply Hfield.
Qed.

(** A successful formatting has found a value for every placeholder. *)
Lemma markup_formatted_values s :
  ∀ st o, markup kw st s = Formatted o →
          ∀ k, k ∈ placeholders_from st s → is_Some (kw k).
Proof.
  induction s as [|c rest IH]; intros st o H k Hk.
  { by apply elem_of_nil in Hk. }
  assert (Hfield : ∀ name,
    match field_char name c with
    | Grow name' => markup kw (Field name') rest
    | Done name' =>
        match get_value kw name' with
        | Ok v => emit v (markup kw Text rest)
        | Raise e => FormatFails e
        end
    | Malformed => FormatFails ValueError
    | Beyond => FormatBeyond
    end = Formatted o →
    k ∈ match field_char name c with
        | Grow name' => placeholders_from (Field name') rest
        | Done name' => name' :: placeholders_from Text rest
        | _ => []
        end → is_Some (kw k)).
  { intros name Hrun Hin.
    destruct (field_char name c) as [name'|name'| |]; try done.
    - by eapply IH.
    - destruct (get_value kw name') as [v|] eqn:Hv; [|done].
      apply get_value_ok in Hv as (_ & x & Hx & _).
      apply emit_formatted in Hrun as (o' & Hrest & _).
      apply elem_of_cons in Hin as [->|Hin]; [by exists x | by eapply IH]. }
  destruct st as [| | |name]; cbn [markup placeholders_from] in H, Hk.
  - destruct (Ascii.eqb c "{"); [by eapply IH|].
    destruct (Ascii.eqb c "}"); [by eapply IH|].
    apply emit_formatted in H as (o' & Hrest & _). by eapply IH.
  - destruct (Ascii.eqb c "{"); [|by apply (Hfield "")].
    apply emit_formatted in H as (o' & Hrest & _). by eapply IH.
  - destruct (Ascii.eqb c "}"); [|by apply elem_of_nil in Hk].
    apply emit_formatted in H as (o' & Hrest & _). by eapply IH.
  - by apply (Hfield name).
Qed.

End PlaceholderFacts.

Ltac normalize_append :=
  repeat first [ rewrite append_assoc | rewrite append_cons | rewrite append_empty ].

Ltac normalize_append_in H :=
  repeat first [ rewrite append_assoc in H | rewrite append_cons in H
               | rewrite append_empty in H ].

(** The text of a placeholder occurs in the template. *)
Lemma placeholder_mentioned s :
  ∀ st k, k ∈ placeholders_from st s →
          Str.contains ("{" +:+ k +:+ "}") (scan_prefix st +:+ s) = true.
Proof.
  induction s as [|c rest IH]; intros st k Hk.
  { by apply elem_of_nil in Hk. }
  assert (Hfield : ∀ name,
    k ∈ match Generator.field_char name c with
        | Generator.Grow name' => placeholders_from (Generator.Field name') rest
        | Generator.Done name' => name' :: placeholders_from Generator.Text rest
        | _ => []
        end →
    Str.contains ("{" +:+ k +:+ "}") (("{" +:+ name) +:+ String c rest) = true).
  { intros name Hin.
    destruct (Generator.field_char name c) as [name'|name'| |] eqn:Hstep;
      try by apply elem_of_nil in Hin.
    - apply field_char_grow in Hstep as (_ & _ & ->).
      apply (IH (Generator.Field _)) in Hin. cbn [scan_prefix] in Hin.
      normalize_append_in Hin. normalize_append. exact Hin.
    - apply field_char_done in Hstep as (-> & ->).
      apply elem_of_cons in Hin as [->|Hin].
      + apply contains_here.
        replace (("{" +:+ name) +:+ String "}" rest)
          with (("{" +:+ name +:+ "}") +:+ rest).
        * apply startswith_app.
        * by normalize_append.
      + apply (IH Generator.Text) in Hin. cbn [scan_prefix] in Hin.
        rewrite append_empty in Hin.
        rewrite append_assoc. apply contains_app_r, contains_app_r.
        by apply contains_cons. }
  destruct st as [| | |name]; cbn [placeholders_from scan_prefix] in Hk |- *.
  - rewrite append_empty.
    destruct (Ascii.eqb c "{") eqn:E1.
    { apply Ascii.eqb_eq in E1 as ->. by apply (IH Generator.Open). }
    destruct (Ascii.eqb c "}") eqn:E2.
    { apply Ascii.eqb_eq in E2 as ->. by apply (IH Generator.Close). }
    apply contains_cons. apply (IH Generator.Text) in Hk. by rewrite append_empty in Hk.
  - destruct (Ascii.eqb c "{") eqn:E1.
    + apply (IH Generator.Text) in Hk. cbn [scan_prefix] in Hk.
      rewrite append_empty in Hk.
      by apply (contains_app_r _ "{"), contains_cons.
    + by apply (Hfield "").
  - destruct (Ascii.eqb c "}") eqn:E1; [|by apply elem_of_nil in Hk].
    apply (IH Generator.Text) in Hk. cbn [scan_prefix] in Hk.
    rewrite append_empty in Hk.
    by apply (contains_app_r _ "}"), contains_cons.
  - by apply Hfield.
Qed.

(** ** Attributes of a resolved template *)

Section AttributeFacts.
Import Generator.

Lemma dict_get_set_is_Some {V : Type} (d : list (string * V)) k0 v k :
  is_Some (dict_get (dict_set k0 v d) k) ↔ k = k0 ∨ is_Some (dict_get d k).
Proof.
  destruct (decide (k0 = k)) as [->|Hne].
  - rewrite dict_get_set_eq. split; [by left | by eexists].
  - rewrite dict_get_set_ne by done. split; [by right|]. by intros [->|].
Qed.

Lemma dict_set_fresh {V : Type} (d : list (string * V)) k v :
  dict_get d k = None → dict_set k v d = d ++ [(k, v)].
Proof.
  induction d as [|[k' v'] d IH]; simpl; [done|].
  destruct (String.eqb k' k); [done|]. intros H. by rewrite IH.
Qed.

Lemma resolve_items_domain template items :
  ∀ resolved format_values s resolved' format_values' s',
    resolve_items template items resolved format_values s
      = Returns (resolved', format_values') s' →
    ∀ k, is_Some (dict_get resolved' k) ↔ is_Some (dict_get resolved k) ∨ k ∈ items.*1.
Proof.
  induction items as [|[k0 spec] items IH]; intros ra fv s ra' fv' s' Hrun k.
  { simpl in Hrun. unfold mret, M_ret in Hrun. simplify_eq.
    rewrite elem_of_nil. tauto. }
  assert (Hstep : ∀ v ra1 s1,
    ra1 = dict_set k0 v ra →
    (∃ fv1, resolve_items template items ra1 fv1 s1 = Returns (ra', fv') s') →
    is_Some (dict_get ra' k) ↔ is_Some (dict_get ra k) ∨ k ∈ ((k0, spec) :: items).*1).
  { intros v ra1 s1 -> [fv1 Hrest].
    rewrite (IH _ _ _ _ _ _ Hrest k), dict_get_set_is_Some.
    cbn [fmap list_fmap fst]. rewrite elem_of_cons. tauto. }
  destruct spec as [v|f]; simpl in Hrun.
  - eapply Hstep; [done | by eexists].
  - apply bind_inv in Hrun as (actual_value & s1 & _ & Hrun).
    eapply Hstep; [done | by eexists].
Qed.

Lemma resolve_items_untouched template items :
  ∀ resolved format_values s resolved' format_values' s' k,
    resolve_items template items resolved format_values s
      = Returns (resolved', format_values') s' →
    k ∉ items.*1 →
    dict_get resolved' k = dict_get resolved k.
Proof.
  induction items as [|[k0 spec] items IH]; intros ra fv s ra' fv' s' k Hrun Hk.
  { simpl in Hrun. unfold mret, M_ret in Hrun. by simplify_eq. }
  cbn [fmap list_fmap fst] in Hk. apply not_elem_of_cons in Hk as [Hne Hk].
  destruct spec as [v|f]; simpl in Hrun.
  - rewrite (IH _ _ _ _ _ _ k Hrun Hk). by apply dict_get_set_ne.
  - apply bind_inv in Hrun as (actual_value & s1 & _ & Hrun).
    rewrite (IH _ _ _ _ _ _ k Hrun Hk). by apply dict_get_set_ne.
Qed.

Lemma resolve_items_keys template items :
  NoDup items.*1 →
  ∀ resolved format_values s resolved' format_values' s',
    (∀ k, k ∈ items.*1 → dict_get resolved k = None) →
    resolve_items template items resolved format_values s
      = Returns (resolved', format_values') s' →
    resolved'.*1 = resolved.*1 ++ items.*1.
Proof.
  induction items as [|[k0 spec] items IH]; intros Hnodup ra fv s ra' fv' s' Hfresh Hrun.
  { simpl in Hrun. unfold mret, M_ret in Hrun. simplify_eq. by rewrite app_nil_r. }
  cbn [fmap list_fmap fst] in Hnodup, Hfresh |- *.
  apply NoDup_cons in Hnodup as [Hk0 Hnodup].
  assert (Hstep : ∀ v fv1 s1,
    resolve_items template items (dict_set k0 v ra) fv1 s1 = Returns (ra', fv') s' →
    ra'.*1 = ra.*1 ++ k0 :: items.*1).
  { intros v fv1 s1 Hrest.
    assert (Hfresh' : ∀ k, k ∈ items.*1 → dict_get (dict_set k0 v ra) k = None).
    { intros k Hk. rewrite dict_get_set_ne; [apply Hfresh; by right|].
      intros ->. done. }
    rewrite (IH Hnodup _ _ _ _ _ _ Hfresh' Hrest).
    rewrite dict_set_fresh by (apply Hfresh; by left).
    by rewrite fmap_app, <- app_assoc. }
  destruct spec as [v|f]; simpl in Hrun.
  - by eapply Hstep.
  - apply bind_inv in Hrun as (actual_value & s1 & _ & Hrun). by eapply Hstep.
Qed.

Lemma resolve_items_literal template items :
  NoDup items.*1 →
  ∀ resolved format_values s resolved' format_values' s' k v,
    resolve_items template items resolved format_values s
      = Returns (resolved', format_values') s' →
    (k, Literal v) ∈ items →
    dict_get resolved' k = Some v.
Proof.
  induction items as [|[k0 spec] items IH];
    intros Hnodup ra fv s ra' fv' s' k v Hrun Hin.
  { by apply elem_of_nil in Hin. }
  cbn [fmap list_fmap fst] in Hnodup. apply NoDup_cons in Hnodup as [Hk0 Hnodup].
  apply elem_of_cons in Hin as [Heq|Hin].
  - assert (k = k0) as -> by congruence.
    assert (spec = Literal v) as -> by congruence.
    simpl in Hrun.
    rewrite (resolve_items_untouched _ _ _ _ _ _ _ _ k0 Hrun Hk0).
    apply dict_get_set_eq.
  - destruct spec as [v0|f]; simpl in Hrun.
    + by eapply IH.
    + apply bind_inv in Hrun as (actual_value & s1 & _ & Hrun). by eapply IH.
Qed.

Lemma resolve_message_cases template s r s' :
  resolve_template_values template s = Returns r s' →
  ((∀ k, k ∈ placeholders (message_template template) → k ∈ (attributes template).*1) →
   Substituted (dict_get (resolved_attributes r))
     (message_template template) (message r)) ∧
  (∀ k, k ∈ placeholders (message_template template) →
        k ∉ (attributes template).*1 →
        message r = message_template template).
Proof.
  unfold resolve_template_values. intros Hrun.
  apply bind_inv in Hrun as ([ra fv] & s1 & Hitems & Hfmt). simpl in Hfmt.
  pose proof (resolve_items_restrict _ _ _ _ _ _ _ _ Hitems eq_refl) as Hfv.
  pose proof (resolve_items_domain _ _ _ _ _ _ _ _ Hitems) as Hdom.
  apply format_message_inv in Hfmt as (_ & Hattrs & _ & _ & Hmsg).
  assert (Hlookup : ∀ k, k ∈ placeholders (message_template template) →
                         dict_get fv k = dict_get ra k).
  { intros k Hk. rewrite Hfv, dict_get_restrict.
    apply (placeholder_mentioned _ Text) in Hk. cbn [scan_prefix] in Hk.
    rewrite append_empty in Hk. unfold mentions. by rewrite Hk. }
  destruct (py_format (dict_get fv) (message_template template)) as [msg|e|] eqn:E;
    [|destruct e as [missing| | | |]; try done|done].
  - split.
    + intros _. rewrite Hmsg, Hattrs.
      apply py_format_substituted in E.
      eapply Substituted_mono; [|exact E].
      intros name v. rewrite Hfv, dict_get_restrict.
      by destruct (mentions (message_template template) name).
    + intros k Hk Hmissing. destruct Hmissing.
      destruct (proj1 (Hdom k)) as [[v Hv]|Hin]; [|done|done].
      rewrite <- (Hlookup k Hk).
      by eapply markup_formatted_values.
  - split; [|done].
    intros Hcover. apply markup_key_error in E as [Hin Hnone].
    specialize (Hcover _ Hin).
    rewrite (Hlookup _ Hin) in Hnone.
    assert (is_Some (dict_get ra missing)) as [v Hv].
    { apply Hdom. by right. }
    congruence.
Qed.

(** [resolve_template_values] replaces the placeholders of a template
    exactly when every one of them is the key of an attribute: then the
    message is the template with all placeholders replaced; as soon as one
    placeholder is not the key of an attribute, the message is the template
    text unchanged. *)
Theorem resolve_substitutes_when_attributes_cover template s r s' :
  resolve_template_values template s = Returns r s' →
  ((∀ k, k ∈ placeholders (message_template template) → k ∈ (attributes template).*1) →
   Substituted (dict_get (resolved_attributes r))
     (message_template template) (message r)) ∧
  (∀ k, k ∈ placeholders (message_template template) →
        k ∉ (attributes template).*1 →
        message r = message_template template).
Proof. apply resolve_message_cases. Qed.

Lemma resolve_attributes_kept template s r s' :
  NoDup (attributes template).*1 →
  resolve_template_values template s = Returns r s' →
  resolved_severity r = severity template ∧
  (resolved_attributes r).*1 = (attributes template).*1 ∧
  ∀ k v, (k, Literal v) ∈ attributes template →
         dict_get (resolved_attributes r) k = Some v.
Proof.
  unfold resolve_template_values. intros Hnodup Hrun.
  apply bind_inv in Hrun as ([ra fv] & s1 & Hitems & Hfmt). simpl in Hfmt.
  apply format_message_inv in Hfmt as (_ & -> & Hsev & _ & _).
  split; [done|]. split.
  - assert (Hfresh : ∀ k, k ∈ (attributes template).*1 →
                          dict_get ([] : list (string * Value)) k = None) by done.
    by rewrite (resolve_items_keys _ _ Hnodup _ _ _ _ _ _ Hfresh Hitems).
  - intros k v Hin. by eapply resolve_items_literal.
Qed.

(** For a template whose attribute keys are distinct, as those of a
    dictionary are, [resolve_template_values] keeps the severity, the keys
    of the attributes and their order, and gives every literal attribute its
    literal value. *)
Theorem resolve_keeps_attribute_keys template s r s' :
  NoDup (attributes template).*1 →
  resolve_template_values template s = Returns r s' →
  resolved_severity r = severity template ∧
  (resolved_attributes r).*1 = (attributes template).*1 ∧
  ∀ k v, (k, Literal v) ∈ attributes template →
         dict_get (resolved_attributes r) k = Some v.
Proof. apply resolve_attributes_kept. Qed.

End AttributeFacts.

Lemma resolve_substitutes_when_attributes_cover_witness :
  ∃ r s',
    Generator.resolve_template_values slow_template 0%nat = Generator.Returns r s' ∧
    Substituted (dict_get (Generator.resolved_attributes r))
      (Generator.message_template slow_template) (Generator.message r) ∧
    Generator.message r
      = "High response time detected: 2447ms for endpoint /api/report".
Proof.
  eexists _, _. split; [vm_compute; reflexivity|]. split.
  - apply (resolve_substitutes_when_attributes_cover slow_template 0%nat _ 2%nat);
      [vm_compute; reflexivity|].
    assert (placeholders (Generator.message_template slow_template)
            = ["response_time"; "endpoint"]) as -> by (vm_compute; reflexivity).
    intros k Hk. cbn [slow_template Generator.attributes fmap list_fmap fst].
    rewrite !elem_of_cons, elem_of_nil in Hk. rewrite !elem_of_cons.
    destruct Hk as [->|[->|[]]]; auto.
  - vm_compute. reflexivity.
Defined.

Lemma resolve_keeps_attribute_keys_witness :
  ∃ r s',
    Generator.resolve_template_values login_template 0%nat = Generator.Returns r s' ∧
    Generator.resolved_severity r = (9, "INFO") ∧
    (Generator.resolved_attributes r).*1 = ["user.id"; "action"] ∧
    dict_get (Generator.resolved_attributes r) "action" = Some (Generator.VStr "login").
Proof.
  pose proof (resolve_keeps_attribute_keys login_template 0%nat) as H.
  destruct (Generator.resolve_template_values login_template 0%nat)
    as [r s'| |] eqn:E; [|vm_compute in E; discriminate..].
  exists r, s'. split; [done|].
  destruct (H r s') as (Hsev & Hkeys & Hliteral).
  - by apply (bool_decide_unpack _).
  - done.
  - split; [exact Hsev|]. split; [exact Hkeys|].
    apply Hliteral. apply list_elem_of_further, list_elem_of_here.
Defined.

(** ** Records and their templates *)

Section TemplateFacts.
Import Generator.
Variable entropy : nat → Z.

Lemma catalog_keys_distinct t :
  t ∈ generate_log_templates entropy → NoDup (attributes t).*1.
Proof.
  unfold generate_log_templates. rewrite !elem_of_cons, elem_of_nil.
  intros [->|[->|[->|[->|[->|[->|[]]]]]]]; by apply (bool_decide_unpack _).
Qed.

(** In the catalog, the login template names the placeholder [user_id] and
    keys its attribute [user.id]: for every random source its message is
    left as the template text, placeholder included.  The messages of the
    five other templates always have all their placeholders replaced. *)
Theorem login_message_is_never_substituted t s r s' :
  t ∈ generate_log_templates entropy →
  resolve_template_values t s = Returns r s' →
  (message_template t = "User authentication successful for user_id={user_id}" ∧
   message r = "User authentication successful for user_id={user_id}") ∨
  (message_template t ≠ "User authentication successful for user_id={user_id}" ∧
   Substituted (dict_get (resolved_attributes r)) (message_template t) (message r)).
Proof.
  intros Hin Hrun.
  destruct (resolve_message_cases t s r s' Hrun) as [Hcover Hmissing].
  unfold generate_log_templates in Hin. rewrite !elem_of_cons, elem_of_nil in Hin.
  destruct Hin as [->|[->|[->|[->|[->|[->|[]]]]]]];
    cbn [message_template attributes fmap list_fmap fst] in *.
  - left. split; [done|]. apply (Hmissing "user_id").
    + assert (placeholders "User authentication successful for user_id={user_id}"
              = ["user_id"]) as -> by (vm_compute; reflexivity).
      apply list_elem_of_here.
    + rewrite !elem_of_cons, elem_of_nil. by intros [|[|[|[|]]]].
  - right. split; [done|]. apply Hcover.
    assert (placeholders "Database connection failed: {error_reason}"
            = ["error_reason"]) as -> by (vm_compute; reflexivity).
    intros k. rewrite !elem_of_cons, elem_of_nil. intros [->|[]]. auto 10.
  - right. split; [done|]. apply Hcover.
    assert (placeholders "Processing request with correlation_id={correlation_id}"
            = ["correlation_id"]) as -> by (vm_compute; reflexivity).
    intros k. rewrite !elem_of_cons, elem_of_nil. intros [->|[]]. auto 10.
  - right. split; [done|]. apply Hcover.
    assert (placeholders "Critical system failure: {failure_type}"
            = ["failure_type"]) as -> by (vm_compute; reflexivity).
    intros k. rewrite !elem_of_cons, elem_of_nil. intros [->|[]]. auto 10.
  - right. split; [done|]. apply Hcover.
    assert (placeholders
              "High response time detected: {response_time}ms for endpoint {endpoint}"
            = ["response_time"; "endpoint"]) as -> by (vm_compute; reflexivity).
    intros k. rewrite !elem_of_cons, elem_of_nil. intros [->|[->|[]]]; auto 10.
  - right. split; [done|]. apply Hcover.
    assert (placeholders
              "Order {order_id} processed successfully for customer {customer_id}"
            = ["order_id"; "customer_id"]) as -> by (vm_compute; reflexivity).
    intros k. rewrite !elem_of_cons, elem_of_nil. intros [->|[->|[]]]; auto 10.
Qed.

Variable time_ns : Z.

(** Every record of a batch of [generate_otlp_logs] follows one template of
    the catalog: it has the severity number and text of that template, and
    its attributes have the keys of the attributes of that template, in the
    same order. *)
Theorem otlp_records_follow_their_template self num_logs trace s :
  ∃ payload s',
    generate_otlp_logs entropy time_ns self num_logs trace s = Returns payload s' ∧
    Forall (λ r, ∃ t,
              t ∈ generate_log_templates entropy ∧
              severity t = (severityNumber r, severityText r) ∧
              key <$> otlp_attributes r = (attributes t).*1)
           (all_records payload).
Proof.
  destruct (generate_otlp_logs_spec entropy time_ns self num_logs trace s)
    as (records & s' & ps & host & environment & Hrun & _ & _ & Hspec & _).
  exists (payload_of self host environment records), s'. split; [done|].
  rewrite all_records_payload_of.
  eapply Forall3_Forall_r; [|exact Hspec].
  intros i p r (_ & _ & _ & _ & _ & t & resolved & s0 & s1 & Hin & Hres & Hnum & Htext & _ & Hattrs).
  exists t. split; [done|]. split.
  - rewrite Hnum, Htext. by destruct (severity t).
  - destruct (resolve_attributes_kept t s0 resolved s1 (catalog_keys_distinct t Hin) Hres)
      as (_ & <- & _).
    rewrite Hattrs, <- list_fmap_compose. done.
Qed.

End TemplateFacts.

Lemma login_message_is_never_substituted_witness :
  ∃ t r s',
    Generator.generate_log_templates sample_entropy !! 0%nat = Some t ∧
    Generator.resolve_template_values t 0%nat = Generator.Returns r s' ∧
    Generator.message r = "User authentication successful for user_id={user_id}".
Proof.
  destruct (Generator.generate_log_templates sample_entropy) as [|t rest] eqn:Ecat;
    [discriminate|].
  pose proof (login_message_is_never_substituted sample_entropy t 0%nat) as H.
  rewrite Ecat in H.
  unfold Generator.generate_log_templates in Ecat. injection Ecat as Et _.
  destruct (Generator.resolve_template_values t 0%nat) as [r s'| |] eqn:E;
    [|rewrite <- Et in E; vm_compute in E; discriminate..].
  exists t, r, s'. split; [done|]. split; [done|].
  destruct (H r s' (list_elem_of_here _ _) eq_refl) as [[_ Hmsg]|[Hne _]].
  - exact Hmsg.
  - destruct Hne. by rewrite <- Et.
Defined.

(** ** Identifiers *)

Section IdentifierFacts.
Import Generator.

Lemma length_append (a b : string) :
  String.length (a +:+ b) = (String.length a + String.length b)%nat.
Proof. induction a as [|c a IH]; [done|]. rewrite append_cons. simpl. by rewrite IH. Qed.

Lemma hex_digit_is_hex d : is_hex (Str.hex_digit d) = true.
Proof.
  destruct d as [|p|p]; [done| |done].
  do 4 (destruct p as [p|p|]; try done).
Qed.

Lemma length_hex width : ∀ v, String.length (Str.hex width v) = width.
Proof.
  induction width as [|width IH]; intros v; [done|].
  cbn [Str.hex]. rewrite length_append, IH. simpl. lia.
Qed.

Lemma hex_is_hex width : ∀ v, Str.all_chars is_hex (Str.hex width v) = true.
Proof.
  induction width as [|width IH]; intros v; [done|].
  cbn [Str.hex]. rewrite all_chars_app, IH. cbn [Str.all_chars].
  by rewrite hex_digit_is_hex.
Qed.

Lemma length_take n : ∀ s, (n ≤ String.length s)%nat → String.length (Str.take n s) = n.
Proof.
  induction n as [|n IH]; intros s Hle; [done|].
  destruct s as [|c s]; simpl in *; [lia|]. rewrite IH; lia.
Qed.

Lemma take_all_chars p n : ∀ s, Str.all_chars p s = true → Str.all_chars p (Str.take n s) = true.
Proof.
  induction n as [|n IH]; intros s Hs; [done|].
  destruct s as [|c s]; [done|]. simpl in *.
  apply andb_true_iff in Hs as [-> Hs]. by rewrite IH.
Qed.

Variable entropy : nat → Z.

Lemma trace_at_format p :
  String.length (trace_at entropy p) = 32%nat ∧
  Str.all_chars is_hex (trace_at entropy p) = true.
Proof. unfold trace_at. split; [apply length_hex | apply hex_is_hex]. Qed.

Lemma span_at_format p :
  String.length (span_at entropy p) = 16%nat ∧
  Str.all_chars is_hex (span_at entropy p) = true.
Proof.
  destruct (trace_at_format p) as [Hlen Hhex]. unfold span_at. split.
  - apply length_take. lia.
  - by apply take_all_chars.
Qed.

Variable time_ns : Z.
Variable isoformat_now : Z → string.

(** The identifiers that the two synthesizers generate are lowercase
    hexadecimal: a span identifier has 16 characters, a generated trace
    identifier has 32.  A trace identifier supplied to [generate_otlp_logs]
    is copied as it is, whatever its form. *)
Theorem generated_identifiers_are_hexadecimal self num_logs trace s :
  (∃ payload s',
      generate_otlp_logs entropy time_ns self num_logs trace s = Returns payload s' ∧
      Forall (λ r,
        String.length (spanId r) = 16%nat ∧
        Str.all_chars is_hex (spanId r) = true ∧
        match trace with
        | Some t => traceId r = t
        | None => String.length (traceId r) = 32%nat ∧
                  Str.all_chars is_hex (traceId r) = true
        end) (all_records payload)) ∧
  (∃ entries s',
      generate_structured_logs entropy isoformat_now self num_logs s = Returns entries s' ∧
      Forall (λ e,
        String.length (span_id e) = 16%nat ∧
        Str.all_chars is_hex (span_id e) = true ∧
        String.length (trace_id e) = 32%nat ∧
        Str.all_chars is_hex (trace_id e) = true) entries).
Proof.
  split.
  - destruct (generate_otlp_logs_spec entropy time_ns self num_logs trace s)
      as (records & s' & ps & host & environment & Hrun & _ & _ & Hspec & _).
    exists (payload_of self host environment records), s'. split; [done|].
    rewrite all_records_payload_of.
    eapply Forall3_Forall_r; [|exact Hspec].
    intros i p r (_ & _ & Htrace & Hspan & _).
    rewrite Hspan, Htrace. destruct (span_at_format p) as [Hlen Hhex].
    split; [done|]. split; [done|].
    destruct trace; [done | apply trace_at_format].
  - destruct (for_each_spec
                (structured_log_entry entropy isoformat_now self (generate_log_templates entropy))
                (entry_spec entropy) (seqZ 0 num_logs)
                (structured_log_entry_spec entropy isoformat_now self) s)
      as (entries & s' & ps & Hrun & _ & Hspec & _).
    exists entries, s'. split; [done|].
    eapply Forall3_Forall_r; [|exact Hspec].
    intros i p e [Htrace Hspan]. rewrite Htrace, Hspan.
    destruct (span_at_format (S p)) as [Hlen Hhex].
    destruct (trace_at_format p) as [Hlen' Hhex'].
    done.
Qed.

(** [generate_structured_logs] returns one entry per index below
    [num_logs] (none when it is not positive).  Entry [i] carries the clock
    reading of its iteration, the service name and version of the generator,
    the severity of a template of the catalog, and the message and the
    attributes that [resolve_template_values] made of that template, the
    attribute values as they are and not wrapped. *)
Theorem structured_entries_shape self num_logs s :
  ∃ entries s',
    generate_structured_logs entropy isoformat_now self num_logs s = Returns entries s' ∧
    length entries = Z.to_nat num_logs ∧
    ∀ (i : nat) e, entries !! i = Some e →
      timestamp e = isoformat_now (Z.of_nat i) ∧
      entry_service_name e = service_name self ∧
      entry_service_version e = service_version self ∧
      ∃ t resolved s0 s1,
        t ∈ generate_log_templates entropy ∧
        resolve_template_values t s0 = Returns resolved s1 ∧
        (severity_number e, severity_text e) = severity t ∧
        entry_message e = message resolved ∧
        entry_attributes e = resolved_attributes resolved.
Proof.
  set (q := λ (i : Z) (_ : nat) (e : LogEntry),
    timestamp e = isoformat_now i ∧
    entry_service_name e = service_name self ∧
    entry_service_version e = service_version self ∧
    ∃ t resolved s0 s1,
      t ∈ generate_log_templates entropy ∧
      resolve_template_values t s0 = Returns resolved s1 ∧
      (severity_number e, severity_text e) = severity t ∧
      entry_message e = message resolved ∧
      entry_attributes e = resolved_attributes resolved).
  assert (Hbody : ∀ i s0, ∃ e s1 p,
    structured_log_entry entropy isoformat_now self (generate_log_templates entropy) i s0
      = Returns e s1 ∧ (s0 ≤ p < s1)%nat ∧ q i p e).
  { intros i s0.
    destruct (choice_returns entropy (generate_log_templates entropy) s0)
      as (t & Ht & Hin); [done|].
    pose proof (catalog_sound entropy) as Hsound.
    rewrite Forall_forall in Hsound.
    destruct (resolve_template_values_total t (Hsound t Hin) (S s0))
      as (resolved & s1 & Hres & Hle & Hsev).
    eexists _, (S (S s1)), s1. unfold structured_log_entry.
    rewrite (bind_returns _ _ _ _ _ Ht), (bind_returns _ _ _ _ _ Hres).
    split; [reflexivity|]. split; [lia|].
    repeat split. exists t, resolved, (S s0), s1. simpl. rewrite Hsev.
    repeat split; try done. by destruct (severity t). }
  destruct (for_each_spec _ q (seqZ 0 num_logs) Hbody s)
    as (entries & s' & ps & Hrun & _ & Hspec & _).
  exists entries, s'. split; [done|]. split.
  - apply Forall3_length_lr in Hspec. by rewrite <- Hspec, length_seqZ.
  - intros i e He.
    destruct (Forall3_lookup_r _ _ _ _ _ _ Hspec He) as (x & p & Hx & _ & Hq).
    apply lookup_seqZ in Hx as [-> _]. rewrite Z.add_0_l in Hq. exact Hq.
Qed.

End IdentifierFacts.

(** ** Steps of the integration run *)

Section IntegrationFacts.
Variable peer : nat → Reply.

Lemma missing_fields_of_object d fields :
  Integration.missing_fields (PDict d) fields
    = Ok (List.filter (λ f, negb (field_usable d f)) fields).
Proof.
  induction fields as [|field fields IH]; [done|].
  cbn [Integration.missing_fields List.filter]. rewrite IH.
  unfold Integration.field_missing, field_usable. simpl.
  by destruct (entries_get d (PStr field)) as [v|].
Qed.

Lemma no_missing_fields d fields :
  match List.filter (λ f, negb (field_usable d f)) fields with
  | [] => true
  | _ => false
  end = forallb (field_usable d) fields.
Proof.
  induction fields as [|field fields IH]; [done|].
  simpl. destruct (field_usable d field); simpl; [exact IH | done].
Qed.

(** After a 200 response with at least one hit, [verify_log_transformation]
    looks at the first hit only and answers [True] exactly when each of the
    five required fields is in its source with a value that is not falsy:
    an empty string, a zero or a null counts as missing.  A field holding an
    empty string or a zero is thus missing here, while [verify_log_fields]
    counts it as present. *)
Theorem transformation_needs_truthy_fields n response h d others :
  peer n = Responded response →
  status_code response = 200 →
  Verifier.hits_get (json response) "hits" (PList []) = Ok (PList (PDict h :: others)) →
  default (PDict []) (entries_get h (PStr "_source")) = PDict d →
  Integration.verify_log_transformation peer n
    = (Ok (forallb (field_usable d) Integration.required_fields), S n) ∧
  ∀ field,
    entries_get d (PStr field) = Some (PStr "") ∨
    entries_get d (PStr field) = Some (PInt 0) →
    field_usable d field = false ∧ source_holds d field = true.
Proof.
  intros Hn Hstatus Hhits Hsource. split.
  2: { intros field [Hfield|Hfield]; unfold field_usable, source_holds;
       by rewrite Hfield. }
  unfold Integration.verify_log_transformation.
  rewrite (io_bind_ok _ _ _ _ _ (request_run peer n)), Hn, Hstatus.
  rewrite <- no_missing_fields.
  generalize Integration.required_fields as fields. intros fields. simpl.
  unfold mbind, IO_bind, lift, mret, IO_ret. rewrite Hhits. simpl.
  by rewrite Hsource, missing_fields_of_object.
Qed.


(** When the first service polled does not answer with a 200 in 30
    attempts, [run_integration_tests] reports failure after these 30
    requests: it sends no logs and no further request. *)
Theorem run_gives_up_when_a_service_is_down cleanup num_logs n :
  (∀ i, (n ≤ i < n + 30)%nat → failed (peer i) = true) →
  Integration.check_services peer n = (Ok false, (n + 30)%nat) ∧
  Integration.run_integration_tests peer cleanup num_logs n = (Ok false, (n + 30)%nat).
Proof.
  intros Hall.
  assert (Integration.check_services peer n = (Ok false, (n + 30)%nat)) as Hcheck.
  { unfold Integration.check_services. cbn [Integration.wait_for_services].
    unfold Integration.wait_for_service. change (Z.to_nat 30) with 30%nat.
    by rewrite (io_bind_ok _ _ _ _ _ (wait_attempts_all_failed peer 30 n Hall)). }
  split; [done|].
  unfold Integration.run_integration_tests.
  by rewrite (io_bind_ok _ _ _ _ _ Hcheck).
Qed.

(** Asking a successful run for cleanup adds one request and leaves the
    verdict as it is whenever the cleanup request gets a response, whatever
    its status; only a transport failure of the cleanup request turns the
    verdict into failure. *)
Theorem cleanup_keeps_the_verdict num_logs n n' :
  Integration.run_integration_tests peer false num_logs n = (Ok true, n') →
  Integration.run_integration_tests peer true num_logs n
    = (Ok match peer n' with
          | Responded _ => true
          | RequestException _ => false
          end, S n').
Proof.
  unfold Integration.run_integration_tests. intros Hrun.
  apply io_bind_inv in Hrun as (services & n1 & Hservices & Hrun).
  rewrite (io_bind_ok _ _ _ _ _ Hservices).
  destruct services; simpl in Hrun |- *; [|by inversion Hrun].
  apply io_bind_inv in Hrun as (template_result & n2 & Htemplate & Hrun).
  rewrite (io_bind_ok _ _ _ _ _ Htemplate).
  apply io_bind_inv in Hrun as (sent & n3 & Hsent & Hrun).
  rewrite (io_bind_ok _ _ _ _ _ Hsent).
  destruct sent; simpl in Hrun |- *; [|by inversion Hrun].
  apply io_bind_inv in Hrun as ([search_result result] & n4 & Hsearch & Hrun).
  rewrite (io_bind_ok _ _ _ _ _ Hsearch).
  destruct search_result; simpl in Hrun |- *; [|by inversion Hrun].
  apply io_bind_inv in Hrun as (transform_result & n5 & Htransform & Hrun).
  rewrite (io_bind_ok _ _ _ _ _ Htransform).
  apply io_bind_inv in Hrun as (metrics_result & n6 & Hmetrics & Hrun).
  rewrite (io_bind_ok _ _ _ _ _ Hmetrics).
  unfold mbind, IO_bind, mret, IO_ret in Hrun.
  injection Hrun as Hverdict <-. rewrite andb_true_r in Hverdict.
  rewrite Hverdict.
  unfold Integration.cleanup_test_data, mbind, IO_bind, request.
  by destruct (peer n6).
Qed.

End IntegrationFacts.

Lemma transformation_needs_truthy_fields_witness :
  Integration.verify_log_transformation (λ _, Responded empty_message) 0%nat
    = (Ok false, 1%nat) ∧
  ∀ field,
    entries_get empty_message_source (PStr field) = Some (PStr "") ∨
    entries_get empty_message_source (PStr field) = Some (PInt 0) →
    field_usable empty_message_source field = false ∧
    source_holds empty_message_source field = true.
Proof.
  apply (transformation_needs_truthy_fields (λ _, Responded empty_message) 0%nat
           empty_message [(PStr "_source", PDict empty_message_source)]
           empty_message_source []); reflexivity.
Defined.


Lemma run_gives_up_when_a_service_is_down_witness :
  Integration.run_integration_tests unavailable true 4 0%nat = (Ok false, 30%nat).
Proof.
  apply (run_gives_up_when_a_service_is_down unavailable true 4 0%nat).
  intros i _. reflexivity.
Defined.

Lemma cleanup_keeps_the_verdict_witness :
  Integration.run_integration_tests passing_run true 4 0%nat = (Ok true, 10%nat).
Proof.
  apply (cleanup_keeps_the_verdict passing_run 4 0%nat 9%nat). vm_compute. reflexivity.
Defined.

(** ** The test logs of the error tester *)

Section TestLogFacts.
Import ErrorTester.
Variable entropy : nat → Z.
Variable clock : nat → Z.
Variable surrogate_pair : string.

Lemma eqb_other (log_type : string) (known : list string) t :
  log_type ∉ known → t ∈ known → String.eqb log_type t = false.
Proof. intros Hnot Ht. apply String.eqb_neq. by intros ->. Qed.

Ltac listed := apply list_elem_of_In; simpl; tauto.

(** [create_test_log] with a log type it has no branch for returns the base
    log: no attributes, the clock reading as time, severity and body as
    passed by keyword or else [INFO] and [Test log message].  Of the
    scenarios of [run_error_tests] this is the case of [valid_log] and of no
    other: the branch that adds attributes is named [valid]. *)
Theorem unknown_log_type_gives_the_base_log :
  (∀ log_type kwargs drawn,
     log_type ∉ log_types →
     ∃ resource r,
       create_test_log entropy clock surrogate_pair log_type kwargs drawn
         = (Otlp resource r, S (S drawn)) ∧
       attributes r = [] ∧
       timeUnixNano r = pretty (clock drawn) ∧
       severityText r = Some (kwargs_get kwargs "severity" "INFO") ∧
       body r = Some (kwargs_get kwargs "message" "Test log message")) ∧
  (∀ scenario,
     scenario ∈ test_scenarios →
     scenario.1 ∉ log_types ↔ scenario.1 = "valid_log").
Proof.
  split.
  - intros log_type kwargs drawn Hnot. unfold create_test_log.
    rewrite !(eqb_other log_type log_types) by (done || listed).
    eexists _, _. split; [reflexivity|]. done.
  - intros scenario Hin. apply list_elem_of_In in Hin. simpl in Hin.
    destruct Hin as [<-|[<-|[<-|[<-|[<-|[<-|[<-|[<-|[]]]]]]]]]; simpl;
      (split; [intros Hnot; try done; exfalso; apply Hnot; listed
              | intros Heq; try discriminate Heq;
                intros Hin; apply list_elem_of_In in Hin; simpl in Hin;
                intuition discriminate]).
Qed.

(** Every log that [create_test_log] builds for a type other than
    [invalid_json_structure] is an OTLP tree whose record has a trace
    identifier of 32 and a span identifier of 16 hexadecimal digits, taken
    from two draws; its resource names the service and version passed by
    keyword, or else [error-test-service] and [1.0.0].  The record lacks
    severity and body exactly for [missing_required_fields], and carries the
    clock reading unless the type is [invalid_timestamp]. *)
Theorem test_logs_are_identified log_type kwargs drawn :
  log_type ≠ "invalid_json_structure" →
  ∃ r,
    create_test_log entropy clock surrogate_pair log_type kwargs drawn
      = (Otlp [("service.name", kwargs_get kwargs "service_name" "error-test-service");
               ("service.version", kwargs_get kwargs "service_version" "1.0.0")] r,
         S (S drawn)) ∧
    traceId r = trace_at entropy drawn ∧
    spanId r = span_at entropy (S drawn) ∧
    String.length (traceId r) = 32%nat ∧ Str.all_chars is_hex (traceId r) = true ∧
    String.length (spanId r) = 16%nat ∧ Str.all_chars is_hex (spanId r) = true ∧
    (severityText r = None ↔ log_type = "missing_required_fields") ∧
    (body r = None ↔ log_type = "missing_required_fields") ∧
    (log_type ≠ "invalid_timestamp" → timeUnixNano r = pretty (clock drawn)).
Proof.
  intros Hvalid. unfold create_test_log.
  destruct (trace_at_format entropy drawn) as [Htl Hth].
  destruct (span_at_format entropy (S drawn)) as [Hsl Hsh].
  repeat match goal with
  | |- context [String.eqb log_type ?t] =>
      let E := fresh "E" in
      destruct (String.eqb log_type t) eqn:E;
      [apply String.eqb_eq in E; subst log_type | apply String.eqb_neq in E]
  end; try done;
  (eexists; split; [reflexivity|]; cbn [traceId spanId severityText body timeUnixNano
     set_attributes set_timeUnixNano set_body del_severityText del_body];
   repeat split; done).
Qed.

(** For the types in which [create_test_log] writes the body itself or
    deletes it, a message passed by keyword has no effect on the log: the
    numbered message that the load test passes with [grok_parse_failure] is
    not in the log sent. *)
Theorem keyword_message_is_overwritten log_type kwargs text drawn :
  log_type ∈ fixed_body_types →
  create_test_log entropy clock surrogate_pair log_type
    (dict_set "message" text kwargs) drawn
  = create_test_log entropy clock surrogate_pair log_type kwargs drawn.
Proof.
  intros Hin. apply list_elem_of_In in Hin. simpl in Hin.
  unfold create_test_log, kwargs_get.
  rewrite !(dict_get_set_ne kwargs "message") by discriminate.
  destruct Hin as [<-|[<-|[<-|[<-|[<-|[]]]]]]; reflexivity.
Qed.

End TestLogFacts.

Lemma unknown_log_type_gives_the_base_log_witness :
  ∃ resource r,
    ErrorTester.create_test_log sample_entropy sample_clock sample_surrogates
      "valid_log" [] 0 = (ErrorTester.Otlp resource r, 2%nat) ∧
    ErrorTester.attributes r = [] ∧
    ErrorTester.timeUnixNano r = "1700000000000000000" ∧
    ErrorTester.severityText r = Some (PStr "INFO") ∧
    ErrorTester.body r = Some (PStr "Test log message").
Proof.
  apply (proj1 (unknown_log_type_gives_the_base_log sample_entropy sample_clock
                  sample_surrogates) "valid_log" [] 0%nat).
  by apply (bool_decide_unpack _).
Defined.

Lemma test_logs_are_identified_witness :
  ∃ r,
    ErrorTester.create_test_log sample_entropy sample_clock sample_surrogates
      "missing_required_fields" [("service_name", PStr "checkout")] 0
      = (ErrorTester.Otlp [("service.name", PStr "checkout");
                           ("service.version", PStr "1.0.0")] r, 2%nat) ∧
    ErrorTester.traceId r = trace_at sample_entropy 0 ∧
    ErrorTester.spanId r = span_at sample_entropy 1 ∧
    String.length (ErrorTester.traceId r) = 32%nat ∧
    Str.all_chars is_hex (ErrorTester.traceId r) = true ∧
    String.length (ErrorTester.spanId r) = 16%nat ∧
    Str.all_chars is_hex (ErrorTester.spanId r) = true ∧
    (ErrorTester.severityText r = None
       ↔ "missing_required_fields" = "missing_required_fields") ∧
    (ErrorTester.body r = None
       ↔ "missing_required_fields" = "missing_required_fields") ∧
    ("missing_required_fields" ≠ "invalid_timestamp" →
     ErrorTester.timeUnixNano r = "1700000000000000000").
Proof.
  apply (test_logs_are_identified sample_entropy sample_clock sample_surrogates
           "missing_required_fields" [("service_name", PStr "checkout")] 0%nat).
  discriminate.
Defined.

Lemma keyword_message_is_overwritten_witness :
  ErrorTester.create_test_log sample_entropy sample_clock sample_surrogates
    "grok_parse_failure" [("message", PStr "Load test error log 1")] 0
  = ErrorTester.create_test_log sample_entropy sample_clock sample_surrogates
      "grok_parse_failure" [] 0.
Proof.
  apply (keyword_message_is_overwritten sample_entropy sample_clock sample_surrogates
           "grok_parse_failure" [] (PStr "Load test error log 1") 0%nat).
  by apply (bool_decide_unpack _).
Defined.

(** ** The scenarios of the error tester *)

Section ScenarioFacts.
Import ErrorTester.
Variable entropy : nat → Z.
Variable clock : nat → Z.
Variable surrogate_pair : string.
Variable peer : nat → Reply.

Lemma send_test_log_run n :
  send_test_log peer n = (Ok (negb (failed (peer n))), S n).
Proof.
  unfold send_test_log. rewrite (io_bind_ok _ _ _ _ _ (request_run peer n)).
  destruct (peer n) as [response|what]; [|done]. simpl.
  by destruct (status_code response =? 200).
Qed.

(** [run_error_tests] goes through all eight scenarios whatever the
    replies: it sends eight requests, draws sixteen identifiers, and reports
    for each scenario, in the order of the list, whether the request of that
    scenario was answered with a 200. *)
Theorem error_tests_run_every_scenario drawn n :
  ∃ test_results,
    run_error_tests entropy clock surrogate_pair peer drawn n
      = (Ok (test_results, (16 + drawn)%nat), (8 + n)%nat) ∧
    test_results.*1 = test_scenarios.*1 ∧
    ∀ i test_type,
      test_scenarios.*1 !! i = Some test_type →
      dict_get test_results test_type = Some (negb (failed (peer (i + n)%nat))).
Proof.
  unfold run_error_tests, test_scenarios. cbn [run_scenarios].
  repeat (rewrite (io_bind_ok _ _ _ _ _ (send_test_log_run _)); cbn [run_scenarios]).
  cbn [snd create_test_log dict_set String.eqb Ascii.eqb Bool.eqb].
  eexists. split; [reflexivity|]. split; [reflexivity|].
  intros i test_type Hi.
  do 8 (destruct i as [|i]; [by injection Hi as <-|]).
  done.
Qed.

Lemma check_opensearch_logs_returns n :
  ∃ data, check_opensearch_logs peer n = (Ok data, S n).
Proof.
  unfold check_opensearch_logs.
  rewrite (io_bind_ok _ _ _ _ _ (request_run peer n)).
  destruct (peer n) as [response|what]; [|by eexists].
  destruct (status_code response =? 200); [|by eexists].
  unfold try_except, mbind, IO_bind, lift.
  destruct (_ : Result PyVal); by eexists.
Qed.

Lemma check_dlq_metrics_returns n :
  ∃ metrics, check_dlq_metrics peer n = (Ok metrics, S n).
Proof.
  unfold check_dlq_metrics.
  rewrite (io_bind_ok _ _ _ _ _ (request_run peer n)).
  destruct (peer n) as [response|what]; [|by eexists].
  destruct (status_code response =? 200); [|by eexists].
  unfold try_except, lift.
  destruct (parse_dlq_metrics (text response)); by eexists.
Qed.

(** [run_dlq_validation] never raises: whatever the three replies are, it
    returns after exactly three requests with what [check_opensearch_logs]
    made of the first reply and [check_dlq_metrics] of the second; the
    health reply has no part in the result. *)
Theorem dlq_validation_never_raises n :
  ∃ data metrics,
    run_dlq_validation peer n = (Ok (data, metrics), (3 + n)%nat) ∧
    check_opensearch_logs peer n = (Ok data, S n) ∧
    check_dlq_metrics peer (S n) = (Ok metrics, S (S n)).
Proof.
  destruct (check_opensearch_logs_returns n) as [data Hdata].
  destruct (check_dlq_metrics_returns (S n)) as [metrics Hmetrics].
  exists data, metrics. split; [|done].
  unfold run_dlq_validation.
  rewrite (io_bind_ok _ _ _ _ _ Hdata), (io_bind_ok _ _ _ _ _ Hmetrics).
  reflexivity.
Qed.

End ScenarioFacts.

(** ** The test logs of the integration suite *)

Section IntegrationLogFacts.
Variable entropy : nat → Z.
Variable time_ns : Z.

Lemma for_each_exact {A B : Type} (body : A → Generator.M B)
    (q : A → nat → B → Prop) xs :
  (∀ x s, x ∈ xs → ∃ b, body x s = Generator.Returns b (S s) ∧ q x s b) →
  ∀ s, ∃ bs,
    Generator.for_each body xs s = Generator.Returns bs (length xs + s)%nat ∧
    length bs = length xs ∧
    ∀ i x b, xs !! i = Some x → bs !! i = Some b → q x (i + s)%nat b.
Proof.
  induction xs as [|x xs IH]; intros Hbody s.
  { exists []. by repeat split. }
  destruct (Hbody x s) as (b & Hb & Hq); [by left|].
  destruct IH with (s := S s) as (bs & Hbs & Hlen & Hall).
  { intros x' s' Hin. apply Hbody. by right. }
  exists (b :: bs). cbn [Generator.for_each].
  rewrite (bind_returns _ _ _ _ _ Hb), (bind_returns _ _ _ _ _ Hbs).
  split; [|split].
  - unfold mret, Generator.M_ret. f_equal. simpl. lia.
  - simpl. by rewrite Hlen.
  - intros [|i] x' b' Hx Hb'; simpl in *.
    + by simplify_eq.
    + replace (S (i + s)) with (i + S s)%nat by lia. by apply Hall.
Qed.

Lemma log_templates_returns s :
  ∃ templates,
    Integration.log_templates entropy s = Generator.Returns templates (6 + s)%nat ∧
    length templates = 4%nat.
Proof. eexists. split; reflexivity. Qed.

Lemma log_templates_drawn s :
  ∃ login failure request fatal,
    Integration.log_templates entropy s
      = Generator.Returns [login; failure; request; fatal] (6 + s)%nat ∧
    Integration.message login
      = "User authentication successful for user_id=" +:+
        pretty (10000 + entropy s `mod` 90000) ∧
    Integration.attributes login
      = [("user.id", pretty (10000 + entropy (1 + s)%nat `mod` 90000));
         ("action", "login");
         ("ip_address", "192.168.1." +:+ pretty (1 + entropy (2 + s)%nat `mod` 254))] ∧
    Integration.message request
      = "Processing request with correlation_id=" +:+ Str.take 8 (trace_at entropy (4 + s)) ∧
    Integration.attributes request
      = [("correlation_id", Str.take 8 (trace_at entropy (5 + s)));
         ("request.method", "POST");
         ("request.path", "/api/v1/users")].
Proof.
  eexists _, _, _, _. split; [reflexivity|]. cbn [Integration.message Integration.attributes].
  repeat split.
Qed.

(** What [generate_test_logs] returns: the records are made, in order, of
    the templates drawn once at the start, record [i] of template
    [i mod 4]. *)
Lemma generate_test_logs_spec num_logs s :
  ∃ templates payload,
    Integration.log_templates entropy (S s) = Generator.Returns templates (7 + s)%nat ∧
    Integration.generate_test_logs entropy time_ns num_logs s
      = Generator.Returns payload (Z.to_nat num_logs + 7 + s)%nat ∧
    length (resourceLogs payload) = 1%nat ∧
    length (all_records payload) = Z.to_nat num_logs ∧
    ∀ i r, all_records payload !! i = Some r →
      ∃ template,
        templates !! (i mod 4)%nat = Some template ∧
        r = {| timeUnixNano := pretty (time_ns + Z.of_nat i * 1000000);
               observedTimeUnixNano := pretty (time_ns + Z.of_nat i * 1000000);
               severityNumber := (Integration.severity template).1;
               severityText := (Integration.severity template).2;
               body := StringValue (Integration.message template);
               otlp_attributes :=
                 (λ item : string * string,
                    {| key := item.1; value := StringValue item.2 |})
                   <$> Integration.attributes template;
               traceId := trace_at entropy s;
               spanId := span_at entropy (i + 7 + s);
               flags := 1 |}.
Proof.
  destruct (log_templates_returns (S s)) as (templates & Htemplates & Hfour).
  pose (q := λ (x : Z) (p : nat) (r : LogRecord),
    ∃ template,
      templates !! Z.to_nat (x `mod` 4) = Some template ∧
      r = {| timeUnixNano := pretty (time_ns + x * 1000000);
             observedTimeUnixNano := pretty (time_ns + x * 1000000);
             severityNumber := (Integration.severity template).1;
             severityText := (Integration.severity template).2;
             body := StringValue (Integration.message template);
             otlp_attributes :=
               (λ item : string * string,
                  {| key := item.1; value := StringValue item.2 |})
                 <$> Integration.attributes template;
             traceId := trace_at entropy s;
             spanId := span_at entropy p;
             flags := 1 |}).
  destruct (for_each_exact
              (Integration.test_log_record entropy time_ns templates (trace_at entropy s))
              q (seqZ 0 num_logs)) with (s := (7 + s)%nat)
    as (records & Hrecords & Hlen & Hall).
  { intros x p Hx. apply elem_of_seqZ in Hx.
    assert (Z.to_nat (x `mod` 4) < length templates)%nat as Hlt.
    { rewrite Hfour. pose proof (Z.mod_pos_bound x 4). lia. }
    apply lookup_lt_is_Some in Hlt as [template Htemplate].
    eexists. split; [|by exists template].
    unfold Integration.test_log_record, mbind, Generator.M_bind.
    rewrite Hfour. change (Z.of_nat 4) with 4. by rewrite Htemplate. }
  rewrite length_seqZ in Hrecords, Hlen.
  exists templates. eexists. split; [exact Htemplates|]. split; [|split; [|split]].
  - unfold Integration.generate_test_logs.
    rewrite (bind_returns _ _ s (trace_at entropy s) (S s)) by done.
    rewrite (bind_returns _ _ _ _ _ Htemplates), (bind_returns _ _ _ _ _ Hrecords).
    unfold mret, Generator.M_ret. f_equal. lia.
  - done.
  - unfold all_records. simpl. by rewrite !app_nil_r.
  - intros i r Hr. unfold all_records in Hr. simpl in Hr. rewrite !app_nil_r in Hr.
    assert (i < Z.to_nat num_logs)%nat as Hi.
    { rewrite <- Hlen. by apply lookup_lt_is_Some. }
    destruct (Hall i (Z.of_nat i) r) as (template & Htemplate & ->); [|done|].
    { rewrite lookup_seqZ. split; lia. }
    exists template. split.
    + replace (i mod 4)%nat with (Z.to_nat (Z.of_nat i `mod` 4)); [done|].
      change 4 with (Z.of_nat 4). by rewrite <- Nat2Z.inj_mod, Nat2Z.id.
    + do 2 f_equal. lia.
Qed.

(** [generate_test_logs] returns, for every count, a payload with one
    resource and as many records as asked for (none for a negative count),
    after 7 draws and one more per record.  All records carry the trace
    identifier drawn first; record [i] is stamped [i] milliseconds after
    the clock reading.  The templates are filled in once per batch, so two
    records whose indices agree modulo 4 have the same severity, body and
    attributes. *)
Theorem integration_logs_repeat_their_templates num_logs s :
  ∃ payload,
    Integration.generate_test_logs entropy time_ns num_logs s
      = Generator.Returns payload (Z.to_nat num_logs + 7 + s)%nat ∧
    length (resourceLogs payload) = 1%nat ∧
    length (all_records payload) = Z.to_nat num_logs ∧
    (∀ i r, all_records payload !! i = Some r →
       traceId r = trace_at entropy s ∧
       spanId r = span_at entropy (i + 7 + s) ∧
       timeUnixNano r = pretty (time_ns + Z.of_nat i * 1000000) ∧
       observedTimeUnixNano r = timeUnixNano r) ∧
    (∀ i j r r',
       all_records payload !! i = Some r → all_records payload !! j = Some r' →
       (i mod 4 = j mod 4)%nat →
       severityNumber r = severityNumber r' ∧ severityText r = severityText r' ∧
       body r = body r' ∧ otlp_attributes r = otlp_attributes r').
Proof.
  destruct (generate_test_logs_spec num_logs s)
    as (templates & payload & _ & Hrun & Hone & Hlen & Hall).
  exists payload. split; [exact Hrun|]. split; [exact Hone|]. split; [exact Hlen|]. split.
  - intros i r Hr. destruct (Hall i r Hr) as (template & _ & ->).
    cbn [traceId spanId timeUnixNano observedTimeUnixNano]. auto.
  - intros i j r r' Hr Hr' Hmod.
    destruct (Hall i r Hr) as (template & Htemplate & ->).
    destruct (Hall j r' Hr') as (template' & Htemplate' & ->).
    rewrite Hmod, Htemplate' in Htemplate. injection Htemplate as ->.
    cbn [severityNumber severityText body otlp_attributes]. auto.
Qed.

(** In the records made of the first template, the user identifier in the
    message and the one in the attribute [user.id] come from two separate
    draws, the second and the third of the batch; likewise the correlation
    identifiers of the third template come from the sixth and the seventh
    draw. *)
Theorem message_and_attribute_are_drawn_apart num_logs s payload s' i r :
  Integration.generate_test_logs entropy time_ns num_logs s
    = Generator.Returns payload s' →
  all_records payload !! i = Some r →
  ((i mod 4)%nat = 0%nat →
     body r = StringValue ("User authentication successful for user_id=" +:+
                pretty (10000 + entropy (1 + s)%nat `mod` 90000)) ∧
     attribute_of r "user.id"
       = Some (StringValue (pretty (10000 + entropy (2 + s)%nat `mod` 90000)))) ∧
  ((i mod 4)%nat = 2%nat →
     body r = StringValue ("Processing request with correlation_id=" +:+
                Str.take 8 (trace_at entropy (5 + s))) ∧
     attribute_of r "correlation_id"
       = Some (StringValue (Str.take 8 (trace_at entropy (6 + s))))).
Proof.
  intros Hrun Hr.
  destruct (generate_test_logs_spec num_logs s)
    as (templates & payload' & Htemplates & Hrun' & _ & _ & Hall).
  rewrite Hrun in Hrun'. injection Hrun' as <- _.
  destruct (Hall i r Hr) as (template & Htemplate & ->).
  destruct (log_templates_drawn (S s))
    as (login & failure & request & fatal & Hdrawn & Hlm & Hla & Hrm & Hra).
  rewrite Htemplates in Hdrawn. injection Hdrawn as ->.
  split; intros Hi; rewrite Hi in Htemplate; injection Htemplate as <-;
    unfold attribute_of; cbn [body otlp_attributes].
  - rewrite Hlm, Hla. split; reflexivity.
  - rewrite Hrm, Hra. split; reflexivity.
Qed.

End IntegrationLogFacts.

Lemma message_and_attribute_are_drawn_apart_witness :
  match Integration.generate_test_logs sample_entropy 1700000000000000000 5 0%nat with
  | Generator.Returns payload _ =>
      match all_records payload !! 4%nat with
      | Some r =>
          body r = StringValue "User authentication successful for user_id=46218" ∧
          attribute_of r "user.id" = Some (StringValue "19327")
      | None => False
      end
  | _ => False
  end.
Proof.
  destruct (Integration.generate_test_logs sample_entropy 1700000000000000000 5 0%nat)
    as [payload s'| |] eqn:Hrun; [|vm_compute in Hrun; discriminate..].
  destruct (all_records payload !! 4%nat) as [r|] eqn:Hr.
  - apply (proj1 (message_and_attribute_are_drawn_apart sample_entropy
                    1700000000000000000 5 0%nat payload s' 4%nat r Hrun Hr)).
    reflexivity.
  - vm_compute in Hrun. injection Hrun as <- _. vm_compute in Hr. discriminate.
Defined.

(** ** The distributions of [get_log_statistics] *)

Section DistributionFacts.
Variable peer : nat → Reply.

Lemma entries_get_set_str k v d k' :
  entries_get (entries_set (PStr k) v d) (PStr k')
    = if String.eqb k k' then Some v else entries_get d (PStr k').
Proof.
  induction d as [|[k0 v0] d IH]; simpl.
  - by destruct (String.eqb k k').
  - destruct (key_eqb k0 (PStr k)) eqn:E; simpl.
    + destruct k0 as [| | |k0| |]; try done. simpl in E.
      apply String.eqb_eq in E as ->. simpl. by destruct (String.eqb k k').
    + destruct (key_eqb k0 (PStr k')) eqn:E'; [|exact IH].
      destruct k0 as [| | |k0| |]; try done. simpl in E, E'.
      apply String.eqb_eq in E' as ->. by rewrite String.eqb_sym, E.
Qed.

Lemma read_buckets_good good pairs rest dist :
  Forall2 (λ bucket (p : string * PyVal), bucket_holds bucket p.1 p.2) good pairs →
  Verifier.read_buckets (good ++ rest) dist
    = Verifier.read_buckets rest
        (foldl (λ d (p : string * PyVal), entries_set (PStr p.1) p.2 d) dist pairs).
Proof.
  intros Hgood. revert dist.
  induction Hgood as [|bucket [k c] good pairs (d & -> & Hk & Hc) _ IH]; intros dist; [done|].
  cbn [app Verifier.read_buckets foldl]. unfold py_getitem. rewrite Hc, Hk. simpl.
  apply IH.
Qed.

Lemma foldl_entries_get pairs : ∀ dist k,
  entries_get (foldl (λ d (p : string * PyVal), entries_set (PStr p.1) p.2 d) dist pairs)
              (PStr k)
    = match dict_get (reverse pairs) k with
      | Some c => Some c
      | None => entries_get dist (PStr k)
      end.
Proof.
  induction pairs as [|[k0 c0] pairs IH]; intros dist k; [done|].
  cbn [foldl]. rewrite IH, reverse_cons, entries_get_set_str.
  clear IH. induction (reverse pairs) as [|[k1 c1] l IHl]; simpl.
  - by destruct (String.eqb k0 k).
  - destruct (String.eqb k1 k); [done | exact IHl].
Qed.

(** When every bucket of an aggregation is an object with a string [key]
    and a [doc_count], the distribution read from it gives, for every
    string, the count of the last bucket with that key, and nothing for a
    string that is the key of no bucket. *)
Theorem distribution_keeps_the_last_count aggs name agg buckets pairs :
  py_get aggs name (PDict []) = Ok agg →
  py_get agg "buckets" (PList []) = Ok (PList buckets) →
  Forall2 (λ bucket (p : string * PyVal), bucket_holds bucket p.1 p.2) buckets pairs →
  ∃ dist,
    Verifier.distribution aggs name = Ok dist ∧
    ∀ k, entries_get dist (PStr k) = dict_get (reverse pairs) k.
Proof.
  intros Hagg Hbuckets Hgood. unfold Verifier.distribution.
  rewrite Hagg. simpl. rewrite Hbuckets. simpl.
  rewrite <- (app_nil_r buckets), (read_buckets_good _ _ _ _ Hgood). simpl.
  eexists. split; [done|]. intros k. rewrite foldl_entries_get.
  by destruct (dict_get (reverse pairs) k).
Qed.

(** [get_log_statistics] raises when a bucket of the severity aggregation
    has no [doc_count], the buckets before it being well formed: after two
    requests answered with a 200, the [KeyError] of the missing count
    reaches the caller instead of statistics or an error dictionary. *)
Theorem statistics_raise_on_a_bucket_without_count
    n first second tot aggs agg good pairs b rest :
  peer n = Responded first → status_code first = 200 →
  Verifier.total_count (json first) = Ok tot →
  peer (S n) = Responded second → status_code second = 200 →
  py_get (json second) "aggregations" (PDict []) = Ok aggs →
  py_get aggs "severity_distribution" (PDict []) = Ok agg →
  py_get agg "buckets" (PList []) = Ok (PList (good ++ PDict b :: rest)) →
  Forall2 (λ bucket (p : string * PyVal), bucket_holds bucket p.1 p.2) good pairs →
  entries_get b (PStr "doc_count") = None →
  Verifier.get_log_statistics peer n = (Raise (KeyError "doc_count"), S (S n)).
Proof.
  intros Hfirst Hok Htotal Hsecond Hok' Haggs Hagg Hbuckets Hgood Hnone.
  assert (Verifier.distributions (json second) = Raise (KeyError "doc_count")) as Hraise.
  { unfold Verifier.distributions, Verifier.distribution.
    rewrite Haggs. simpl. rewrite Hagg. simpl. rewrite Hbuckets. simpl.
    rewrite (read_buckets_good _ _ _ _ Hgood). simpl. by rewrite Hnone. }
  unfold Verifier.get_log_statistics, Verifier.search_logs.
  rewrite (io_bind_ok _ _ n (true, json first) (S n)).
  2: { rewrite (io_bind_ok _ _ _ _ _ (request_run peer n)), Hfirst, Hok. done. }
  simpl. unfold mbind at 1, IO_bind, lift. rewrite Htotal.
  rewrite (io_bind_ok _ _ (S n) (true, json second) (S (S n))).
  2: { rewrite (io_bind_ok _ _ _ _ _ (request_run peer (S n))), Hsecond, Hok'. done. }
  unfold mbind, IO_bind. by rewrite Hraise.
Qed.

End DistributionFacts.

Lemma distribution_keeps_the_last_count_witness :
  ∃ dist,
    Verifier.distribution severity_buckets "severity_distribution" = Ok dist ∧
    ∀ k, entries_get dist (PStr k)
         = dict_get [("ERROR", PInt 4); ("INFO", PInt 7); ("ERROR", PInt 3)] k.
Proof.
  apply (distribution_keeps_the_last_count severity_buckets "severity_distribution"
           (PDict [(PStr "buckets", PList sample_buckets)]) sample_buckets
           [("ERROR", PInt 3); ("INFO", PInt 7); ("ERROR", PInt 4)]).
  - reflexivity.
  - reflexivity.
  - repeat constructor; by eexists.
Defined.

Lemma statistics_raise_on_a_bucket_without_count_witness :
  Verifier.get_log_statistics statistics_then_bad_bucket 0%nat
    = (Raise (KeyError "doc_count"), 2%nat).
Proof.
  apply (statistics_raise_on_a_bucket_without_count statistics_then_bad_bucket 0%nat
           mocked_response bucket_without_count (PInt 5) bad_aggregations bad_buckets
           [info_bucket] [("INFO", PInt 7)] [(PStr "key", PStr "ERROR")] []);
    try reflexivity.
  repeat constructor; by eexists.
Defined.
